(** * linkt: a shallow embedding of the bookmark manager (src/linkt.py)

    The Python program is embedded as executable Rocq functions:
    - a Python [str] is a list of Unicode code points;
    - the store document is a JSON value, the in-memory container a record;
    - effects (files, printing, exceptions) are threaded through a small
      state-and-exception monad whose state holds the manager object, the
      files under [LINKT_DIR] and the trace of what was printed or drawn;
    - answers of the outside world (subprocesses, HTTP, the clock, key
      presses) are inputs of the functions that consume them. *)

From Stdlib Require Import ZArith NArith List Bool Ascii String Lia.
Import ListNotations.


(** ** Python strings *)

Definition str := list N.

(** [a == b] *)
Fixpoint str_eqb (a b : str) : bool :=
  match a, b with
  | [], [] => true
  | c :: a', d :: b' => (c =? d)%N && str_eqb a' b'
  | _, _ => false
  end.

(** Literals are written as UTF-8 text and decoded to code points. *)
Fixpoint utf8_decode (bs : list N) (need : nat) (acc : N) : str :=
  match bs with
  | [] => []
  | b :: bs' =>
      match need with
      | O =>
          if (b <? 128)%N then b :: utf8_decode bs' 0 0%N
          else if (b <? 224)%N then utf8_decode bs' 1 (b - 192)%N
          else if (b <? 240)%N then utf8_decode bs' 2 (b - 224)%N
          else utf8_decode bs' 3 (b - 240)%N
      | S O => (acc * 64 + (b - 128))%N :: utf8_decode bs' 0 0%N
      | S n => utf8_decode bs' n (acc * 64 + (b - 128))%N
      end
  end.

Definition u (s : string) : str :=
  utf8_decode (map N_of_ascii (list_ascii_of_string s)) 0 0%N.

Definition nl : str := [10%N].
Definition cr : str := [13%N].
Definition esc : str := [27%N].

(** [a.startswith(p)] *)
Fixpoint startswith (a p : str) : bool :=
  match p, a with
  | [], _ => true
  | c :: p', d :: a' => (c =? d)%N && startswith a' p'
  | _ :: _, [] => false
  end.

(** [a.endswith(p)] *)
Definition endswith (a p : str) : bool := startswith (rev a) (rev p).

(** [q in a] on strings: [q] occurs in [a] as a contiguous run. *)
Fixpoint contains (q a : str) : bool :=
  startswith a q ||
  match a with
  | [] => false
  | _ :: a' => contains q a'
  end.

(** [str.isspace] on one code point (the interpreter's whitespace table). *)
Definition is_space (c : N) : bool :=
  ((9 <=? c) && (c <=? 13) || (28 <=? c) && (c <=? 32)
   || (c =? 133) || (c =? 160) || (c =? 5760)
   || (8192 <=? c) && (c <=? 8202)
   || (c =? 8232) || (c =? 8233) || (c =? 8239) || (c =? 8287)
   || (c =? 12288))%N.

Fixpoint lstrip (a : str) : str :=
  match a with
  | c :: a' => if is_space c then lstrip a' else a
  | [] => []
  end.

Definition rstrip (a : str) : str := rev (lstrip (rev a)).
Definition strip (a : str) : str := rstrip (lstrip a).

(** [sep.join(parts)] *)
Fixpoint join (sep : str) (parts : list str) : str :=
  match parts with
  | [] => []
  | [p] => p
  | p :: rest => p ++ sep ++ join sep rest
  end.

(** [a.split('\n')]: the pieces between occurrences of one code point. *)
Fixpoint split_on (c : N) (a : str) : list str :=
  match a with
  | [] => [[]]
  | d :: a' =>
      if (d =? c)%N then [] :: split_on c a'
      else match split_on c a' with
           | [] => [[d]]
           | p :: ps => (d :: p) :: ps
           end
  end.

(** [str(n)] for an integer. *)
Fixpoint digits (fuel : nat) (n : N) (acc : str) : str :=
  match fuel with
  | O => acc
  | S fuel' =>
      let acc' := (48 + n mod 10)%N :: acc in
      if (n <? 10)%N then acc' else digits fuel' (n / 10)%N acc'
  end.

Definition str_of_N (n : N) : str := digits (S (N.to_nat (N.log2 n))) n [].

Definition str_of_Z (z : Z) : str :=
  if (z <? 0)%Z then u "-" ++ str_of_N (Z.to_N (- z)) else str_of_N (Z.to_N z).

Definition str_of_nat (n : nat) : str := str_of_N (N.of_nat n).

(** Python truthiness of a string. *)
Definition truthy (a : str) : bool :=
  match a with [] => false | _ => true end.


(** ** Exceptions and results *)

Inductive exn_class :=
| Exception | KeyboardInterrupt
| TypeError | KeyError | AttributeError | ValueError
| JSONDecodeError | UnicodeDecodeError
| OSError | FileNotFoundError | RequestException
| TimeoutExpired | IndexError | EOFError | UnicodeEncodeError.

Record exn := { cls : exn_class; message : str }.

Definition exn_class_eqb (a b : exn_class) : bool :=
  match a, b with
  | Exception, Exception | KeyboardInterrupt, KeyboardInterrupt
  | TypeError, TypeError | KeyError, KeyError
  | AttributeError, AttributeError | ValueError, ValueError
  | JSONDecodeError, JSONDecodeError | UnicodeDecodeError, UnicodeDecodeError
  | OSError, OSError | FileNotFoundError, FileNotFoundError
  | RequestException, RequestException | TimeoutExpired, TimeoutExpired
  | IndexError, IndexError | EOFError, EOFError
  | UnicodeEncodeError, UnicodeEncodeError => true
  | _, _ => false
  end.

(** [isinstance(e, c)]: the class of [e] is [c] or derives from it. *)
Definition isinstance (e : exn) (c : exn_class) : bool :=
  exn_class_eqb (cls e) c ||
  match c, cls e with
  | Exception, KeyboardInterrupt => false
  | Exception, _ => true
  | ValueError, (JSONDecodeError | UnicodeDecodeError | UnicodeEncodeError) => true
  | OSError, (FileNotFoundError | RequestException) => true
  | _, _ => false
  end.

Inductive outcome (A : Type) :=
| Ret (a : A)
| Raise (e : exn).

Arguments Ret {A} a.
Arguments Raise {A} e.

(** ** The store document and the in-memory container *)

#[warnings="-register-all"] Inductive json :=
| JNull
| JBool (b : bool)
| JInt (z : Z)
| JFloat (literal : str)
| JStr (s : str)
| JList (items : list json)
| JDict (entries : list (str * json)).

Record bookmark := {
  id : Z;
  url : str;
  description : str;
  tags : list str;
  created : str;
  domain : str;
  has_content : bool
}.

Record container := {
  bookmarks : list bookmark;
  next_id : Z
}.

(** The dict [add_bookmark] builds, key by key, and the document that
    [json.dump] receives. *)
Definition bookmark_to_json (b : bookmark) : json :=
  JDict [ (u "id", JInt (id b));
          (u "url", JStr (url b));
          (u "description", JStr (description b));
          (u "tags", JList (map JStr (tags b)));
          (u "created", JStr (created b));
          (u "domain", JStr (domain b));
          (u "has_content", JBool (has_content b)) ].

Definition container_to_json (c : container) : json :=
  JDict [ (u "bookmarks", JList (map bookmark_to_json (bookmarks c)));
          (u "next_id", JInt (next_id c)) ].

Fixpoint dict_get (d : list (str * json)) (k : str) : option json :=
  match d with
  | [] => None
  | (k', v) :: d' => if str_eqb k' k then Some v else dict_get d' k
  end.

Fixpoint dict_set (d : list (str * json)) (k : str) (v : json) : list (str * json) :=
  match d with
  | [] => [(k, v)]
  | (k', v') :: d' =>
      if str_eqb k' k then (k', v) :: d' else (k', v') :: dict_set d' k v
  end.

Definition json_str (j : json) : option str :=
  match j with JStr s => Some s | _ => None end.

Fixpoint all_some {A} (l : list (option A)) : option (list A) :=
  match l with
  | [] => Some []
  | Some a :: l' => option_map (cons a) (all_some l')
  | None :: _ => None
  end.

(** Reading a document of the expected shape back into the records. *)
Definition bookmark_of_json (j : json) : option bookmark :=
  match j with
  | JDict d =>
      match dict_get d (u "id"), dict_get d (u "url"), dict_get d (u "description"),
            dict_get d (u "tags"), dict_get d (u "created"), dict_get d (u "domain"),
            dict_get d (u "has_content") with
      | Some (JInt i), Some (JStr l), Some (JStr de), Some (JList ts),
        Some (JStr cr'), Some (JStr dom), Some (JBool hc) =>
          option_map
            (fun ts' => {| id := i; url := l; description := de; tags := ts';
                           created := cr'; domain := dom; has_content := hc |})
            (all_some (map json_str ts))
      | _, _, _, _, _, _, _ => None
      end
  | _ => None
  end.

Definition container_of_json (j : json) : option container :=
  match j with
  | JDict d =>
      match dict_get d (u "bookmarks"), dict_get d (u "next_id") with
      | Some (JList bs), Some (JInt n) =>
          option_map (fun bs' => {| bookmarks := bs'; next_id := n |})
                     (all_some (map bookmark_of_json bs))
      | _, _ => None
      end
  | _ => None
  end.

(** ** Files *)

(** What [json.load] meets in the store file: bytes that are not UTF-8,
    text that is not JSON, or a JSON document.  [json.dump] followed by
    [json.load] hands back the document that was dumped. *)
Inductive file_content :=
| NotUtf8
| NotJson (text : str)
| Document (j : json).

Record fs := {
  store_file : option file_content;   (* BOOKMARKS_FILE; [None]: no such file *)
  store_readable : bool;              (* [open(..., 'r')] succeeds *)
  store_writable : bool;              (* [open(..., 'w')] succeeds *)
  cache_files : Z -> option str;      (* CACHE_DIR/<id>.txt *)
  cache_readable : Z -> bool;
  cache_writable : Z -> bool;
  cache_removable : Z -> bool         (* [unlink] succeeds *)
}.

(** ** Observable events and the program state *)

(** [Print]: one call of [print]; [Dump]: [json.dump] on the opened store
    file; [Summary]: a call of [show_bookmark_summary]; [Screen]: a
    full-screen view of the TUI (content, add form, confirmation, help);
    [Draw]: a call of [draw_tui] with its arguments. *)
Inductive event :=
| Print (text : str)
| Dump (doc : json)
| Summary (b : bookmark)
| Screen (title : str)
| Draw (shown : list bookmark) (selected_index : Z)
       (search_mode : bool) (search_query : str).

Record state := {
  self_bookmarks : container;   (* [self.bookmarks] *)
  disk : fs;
  trace : list event
}.

(** ** The monad of the embedding: state that survives an exception *)

Definition M (A : Type) := state -> outcome A * state.

Definition ret {A} (a : A) : M A := fun s => (Ret a, s).
Definition raise {A} (e : exn) : M A := fun s => (Raise e, s).

Definition bind {A B} (c : M A) (k : A -> M B) : M B :=
  fun s =>
    match c s with
    | (Ret a, s') => k a s'
    | (Raise e, s') => (Raise e, s')
    end.

Declare Scope py_scope.
Delimit Scope py_scope with py.
Notation "x <- c ;; k" := (bind c (fun x => k))
  (at level 61, c at next level, right associativity) : py_scope.
Notation "c ;; k" := (bind c (fun _ => k))
  (at level 61, right associativity) : py_scope.
Open Scope py_scope.

(** [try: c  except ...: h e]; [h e = None] when no clause matches. *)
Definition try_except {A} (c : M A) (h : exn -> option (M A)) : M A :=
  fun s =>
    match c s with
    | (Ret a, s') => (Ret a, s')
    | (Raise e, s') =>
        match h e with
        | Some k => k s'
        | None => (Raise e, s')
        end
    end.

Definition lift {A} (o : outcome A) : M A := fun s => (o, s).
Definition get_state : M state := fun s => (Ret s, s).
Definition gets {A} (f : state -> A) : M A := fun s => (Ret (f s), s).
Definition modify (f : state -> state) : M unit := fun s => (Ret tt, f s).

Definition emit (e : event) : M unit :=
  modify (fun s => {| self_bookmarks := self_bookmarks s; disk := disk s;
                      trace := trace s ++ [e] |}).

Definition set_disk (d : fs) : M unit :=
  modify (fun s => {| self_bookmarks := self_bookmarks s; disk := d;
                      trace := trace s |}).

Definition set_bookmarks (c : container) : M unit :=
  modify (fun s => {| self_bookmarks := c; disk := disk s; trace := trace s |}).

Definition when (b : bool) (c : M unit) : M unit := if b then c else ret tt.

(** ** The platform: capability flags and library functions

    The module-level [HAS_*] constants are fixed when the program starts;
    the library functions are those the program calls and does not define. *)

Inductive pattern :=
| ScriptOrStyle   (* <(script|style)[^>]*>.*?</\1>, DOTALL | IGNORECASE *)
| AnyTag          (* <[^>]+> *)
| Whitespace.     (* \s+ *)

Class Platform := {
  HAS_TERMIOS : bool;
  HAS_REQUESTS : bool;
  HAS_BEAUTIFULSOUP : bool;
  HAS_HTML2TEXT : bool;
  HAS_CLIPBOARD : bool;
  HAS_LINKS : bool;
  HAS_LYNX : bool;
  lower : str -> str;                       (* str.lower *)
  isprintable : str -> bool;                (* str.isprintable *)
  netloc : str -> outcome str;              (* urlparse(url).netloc *)
  html2text_handle : str -> outcome str;    (* html2text.HTML2Text().handle *)
  re_sub : pattern -> str -> str -> str     (* re.sub(pattern, repl, string) *)
}.

(** What the outside world answers during one operation. *)

Inductive proc :=
| Completed (returncode : Z) (stdout stderr : str)
| Failed (e : exn).

Record response := {
  raise_for_status : option exn;
  content_type : option str;        (* the content-type header, if any *)
  text : str;
  content_len : nat                 (* len(response.content) *)
}.

Inductive http :=
| Responded (r : response)
| GetRaised (e : exn).

Record env := {
  now : str;                  (* datetime.now().isoformat() *)
  links : proc;               (* links -dump -width 80 url *)
  lynx : proc;                (* lynx -dump -nolist -nonumbers url *)
  lynx_numbered : proc;       (* lynx -dump url *)
  requests_get : http;        (* requests.get(url, headers, timeout=10) *)
  pyperclip_copy : option exn (* pyperclip.copy(url) *)
}.

(** ** Colors *)

Module Colors.
Definition RESET : str := esc ++ u "[0m".
Definition BOLD : str := esc ++ u "[1m".
Definition DIM : str := esc ++ u "[2m".
Definition BLUE : str := esc ++ u "[94m".
Definition CYAN : str := esc ++ u "[96m".
Definition WHITE : str := esc ++ u "[97m".
Definition RED : str := esc ++ u "[91m".
Definition GREEN : str := esc ++ u "[92m".
Definition YELLOW : str := esc ++ u "[93m".
Definition GRAY : str := esc ++ u "[90m".
End Colors.

Definition colored (text color style : str) : str :=
  style ++ color ++ text ++ Colors.RESET.

Definition print (text : str) : M unit := emit (Print text).

(** ** What [json.dump] writes

    [json.dump(doc, f, indent=2, ensure_ascii=False)] hands the text of
    the document to [f.write] chunk by chunk.  The file is opened with
    [encoding='utf-8'], and [f.write] raises [UnicodeEncodeError] on a
    chunk that holds a lone surrogate, writing nothing of that chunk. *)

Definition is_surrogate (c : N) : bool := ((55296 <=? c) && (c <=? 57343))%N.

(** The text can be encoded as UTF-8. *)
Definition encodable (a : str) : bool := forallb (fun c => negb (is_surrogate c)) a.

Definition hex_digit (n : N) : N := if (n <? 10)%N then (48 + n)%N else (87 + n)%N.

(** One code point inside a string literal: the quote, the backslash and
    the control characters are escaped, everything else is kept. *)
Definition escape (c : N) : str :=
  if (c =? 34)%N then [92; 34]%N
  else if (c =? 92)%N then [92; 92]%N
  else if (c =? 10)%N then [92; 110]%N
  else if (c =? 13)%N then [92; 114]%N
  else if (c =? 9)%N then [92; 116]%N
  else if (c =? 12)%N then [92; 102]%N
  else if (c =? 8)%N then [92; 98]%N
  else if (c <? 32)%N
  then [92; 117; 48; 48; hex_digit (c / 16); hex_digit (c mod 16)]%N
  else [c].

(** [encode_basestring(s)] *)
Definition encode_basestring (s : str) : str :=
  [34%N] ++ flat_map escape s ++ [34%N].

(** A line break and the indentation of [level]. *)
Definition newline_indent (level : nat) : str := nl ++ repeat 32%N (2 * level).

(** The text of a value that is written as one chunk. *)
Definition scalar (j : json) : option str :=
  match j with
  | JNull => Some (u "null")
  | JBool true => Some (u "true")
  | JBool false => Some (u "false")
  | JInt z => Some (str_of_Z z)
  | JFloat literal => Some literal
  | JStr s => Some (encode_basestring s)
  | JList _ | JDict _ => None
  end.

(** The chunks of the items of a list that is not empty: the bracket or
    the comma, with the line break, comes in one chunk with a scalar item
    and in a chunk of its own before another item. *)
Definition list_chunks (encode : json -> list str) (indent : str)
  : bool -> list json -> list str :=
  fix each (first : bool) (items : list json) : list str :=
    match items with
    | [] => []
    | value :: rest =>
        let buf := (if first then u "[" else u ",") ++ indent in
        match scalar value with
        | Some text => [buf ++ text]
        | None => buf :: encode value
        end ++ each false rest
    end.

(** The chunks of the entries of a dict that is not empty. *)
Definition dict_chunks (encode : json -> list str) (indent : str)
  : bool -> list (str * json) -> list str :=
  fix each (first : bool) (entries : list (str * json)) : list str :=
    match entries with
    | [] => []
    | (key, value) :: rest =>
        (if first then [] else [u "," ++ indent])
        ++ [encode_basestring key; u ": "]
        ++ match scalar value with
           | Some text => [text]
           | None => encode value
           end
        ++ each false rest
    end.

(** The chunks of [doc], in the order written. *)
Fixpoint iterencode (level : nat) (doc : json) : list str :=
  match doc with
  | JList [] => [u "[]"]
  | JList items =>
      list_chunks (iterencode (S level)) (newline_indent (S level)) true items
      ++ [newline_indent level; u "]"]
  | JDict [] => [u "{}"]
  | JDict entries =>
      [u "{"; newline_indent (S level)]
      ++ dict_chunks (iterencode (S level)) (newline_indent (S level)) true entries
      ++ [newline_indent level; u "}"]
  | _ => match scalar doc with Some text => [text] | None => [] end
  end.

(** What the file holds once the chunks are written up to the first that
    cannot be encoded. *)
Fixpoint written (chunks : list str) : str :=
  match chunks with
  | [] => []
  | chunk :: rest => if encodable chunk then chunk ++ written rest else []
  end.

(** Every chunk of [doc] can be encoded. *)
Definition json_encodable (doc : json) : bool := forallb encodable (iterencode 0 doc).

Definition unicode_encode_error : exn :=
  {| cls := UnicodeEncodeError;
     message := u "'utf-8' codec can't encode character: surrogates not allowed" |}.

(** ** Store: load and save *)

Definition empty_container : container := {| bookmarks := []; next_id := 1 |}.

(** [{"bookmarks": [], "next_id": 1}] *)
Definition empty_document : json :=
  JDict [ (u "bookmarks", JList []); (u "next_id", JInt 1) ].

Definition os_error (what : string) : exn := {| cls := OSError; message := u what |}.
Definition type_error (what : string) : exn := {| cls := TypeError; message := u what |}.

(** [key in data] for a value that [json.load] returned. *)
Definition py_in (key : str) (data : json) : outcome bool :=
  match data with
  | JDict d => Ret (match dict_get d key with Some _ => true | None => false end)
  | JList l =>
      Ret (existsb (fun x => match x with JStr s => str_eqb s key | _ => false end) l)
  | JStr s => Ret (contains key s)
  | _ => Raise (type_error "argument is not iterable")
  end.

(** [data[key] = value] *)
Definition py_setitem (data : json) (key : str) (value : json) : outcome json :=
  match data with
  | JDict d => Ret (JDict (dict_set d key value))
  | JList _ => Raise (type_error "list indices must be integers or slices, not str")
  | _ => Raise (type_error "object does not support item assignment")
  end.

(** [with open(self.bookmarks_file, 'r', encoding='utf-8') as f: json.load(f)] *)
Definition json_load : M json :=
  d <- gets disk ;;
  if negb (store_readable d) then raise (os_error "Permission denied")
  else match store_file d with
       | None => raise {| cls := FileNotFoundError; message := u "No such file or directory" |}
       | Some NotUtf8 =>
           raise {| cls := UnicodeDecodeError; message := u "invalid start byte" |}
       | Some (NotJson _) =>
           raise {| cls := JSONDecodeError; message := u "Expecting value" |}
       | Some (Document j) => ret j
       end.

Definition corrupted_warning : str :=
  colored (u "⚠️  Warning: Corrupted bookmarks file, starting fresh") Colors.YELLOW [].

Definition load_bookmarks : M json :=
  d <- gets disk ;;
  match store_file d with
  | None => ret empty_document
  | Some _ =>
      try_except
        (data <- json_load ;;
         present <- lift (py_in (u "bookmarks") data) ;;
         data <- (if negb present then lift (py_setitem data (u "bookmarks") (JList []))
                  else ret data) ;;
         present <- lift (py_in (u "next_id") data) ;;
         data <- (if negb present then lift (py_setitem data (u "next_id") (JInt 1))
                  else ret data) ;;
         ret data)
        (fun e =>
           if isinstance e JSONDecodeError || isinstance e UnicodeDecodeError
           then Some (print corrupted_warning ;; ret empty_document)
           else None)
  end.

(** The files once the store file holds [f]. *)
Definition with_store (d : fs) (f : file_content) : fs :=
  {| store_file := Some f;
     store_readable := store_readable d;
     store_writable := store_writable d;
     cache_files := cache_files d;
     cache_readable := cache_readable d;
     cache_writable := cache_writable d;
     cache_removable := cache_removable d |}.

(** [with open(self.bookmarks_file, 'w', encoding='utf-8') as f: json.dump(...)]:
    when every chunk can be encoded the file holds the document; otherwise
    [f.write] raises on the first chunk that cannot, and the file, which
    [open] had emptied, is left with the chunks written before it: the
    beginning of a JSON text, which [json.load] will not accept. *)
Definition json_dump (doc : json) : M unit :=
  d <- gets disk ;;
  if negb (store_writable d) then raise (os_error "Permission denied")
  else
    emit (Dump doc) ;;
    if json_encodable doc then set_disk (with_store d (Document doc))
    else
      set_disk (with_store d (NotJson (written (iterencode 0 doc)))) ;;
      raise unicode_encode_error.

Definition save_bookmarks : M unit :=
  c <- gets self_bookmarks ;;
  try_except
    (json_dump (container_to_json c))
    (fun e =>
       if isinstance e OSError
       then Some (print (colored (u "❌ Error saving bookmarks: " ++ message e)
                                 Colors.RED []))
       else None).

(** ** Fetcher *)

Definition truncation_marker : str := nl ++ nl ++ u "... (truncated)".

(** [if len(content) > budget: content = content[:budget] + marker] *)
Definition limit_length (budget : nat) (content : str) : str :=
  if Nat.ltb budget (List.length content)
  then firstn budget content ++ truncation_marker
  else content.

Definition subprocess_run (p : proc) : M (Z * str * str) :=
  match p with
  | Completed returncode stdout stderr => ret (returncode, stdout, stderr)
  | Failed e => raise e
  end.

Definition links_prefix : str := u "🔗 Links Browser View:" ++ nl ++ nl.
Definition lynx_prefix : str := u "🦌 Lynx Browser View:" ++ nl ++ nl.
Definition html2text_prefix : str := u "📄 Text Browser View:" ++ nl ++ nl.
Definition simple_prefix : str := u "📄 Extracted Text:" ++ nl ++ nl.
Definition json_prefix : str := u "📄 JSON Content:" ++ nl ++ nl.
Definition text_prefix : str := u "📄 Text Content:" ++ nl ++ nl.

(** The tail shared by the two browser strategies. *)
Definition browser_view (name : string) (prefix : str) (result : Z * str * str) : str :=
  let '(returncode, stdout, stderr) := result in
  if (returncode =? 0)%Z && truthy (strip stdout) then
    let content := strip stdout in
    let content := limit_length 4000 content in
    prefix ++ content
  else
    let error_msg := if truthy stderr then strip stderr else u "Unknown error" in
    u "❌ " ++ u name ++ u " failed: " ++ error_msg.

Definition browser_handlers (name : string) (e : exn) : option (M str) :=
  if isinstance e TimeoutExpired
  then Some (ret (u "⏰ " ++ u name ++ u " timeout - page took too long to load"))
  else if isinstance e FileNotFoundError
  then Some (ret (u "❌ " ++ u name ++ u " not found (this shouldn't happen)"))
  else if isinstance e Exception
  then Some (ret (u "❌ " ++ u name ++ u " error: " ++ message e))
  else None.

Definition fetch_with_links (w : env) (url : str) : M str :=
  try_except
    (print (colored (u "🔗 Fetching with Links: " ++ url ++ u "...") Colors.CYAN []) ;;
     result <- subprocess_run (links w) ;;
     ret (browser_view "Links" links_prefix result))
    (browser_handlers "Links").

Definition fetch_with_lynx (w : env) (url : str) : M str :=
  try_except
    (print (colored (u "🦌 Fetching with Lynx: " ++ url ++ u "...") Colors.CYAN []) ;;
     result <- subprocess_run (lynx w) ;;
     result <- (let '(returncode, _, _) := result in
                if negb (returncode =? 0)%Z
                then subprocess_run (lynx_numbered w)
                else ret result) ;;
     ret (browser_view "Lynx" lynx_prefix result))
    (browser_handlers "Lynx").

(** The loop that allows at most two consecutive empty lines. *)
Fixpoint clean_lines (lines : list str) (empty_count : nat) : list str :=
  match lines with
  | [] => []
  | line :: rest =>
      if truthy (strip line) then rstrip line :: clean_lines rest 0
      else
        let empty_count := S empty_count in
        if Nat.leb empty_count 2 then [] :: clean_lines rest empty_count
        else clean_lines rest empty_count
  end.

Definition extract_text_with_html2text `{Platform} (html : str) : M str :=
  try_except
    (text <- lift (html2text_handle html) ;;
     let lines := split_on 10 text in
     let cleaned_lines := clean_lines lines 0 in
     let text := strip (join nl cleaned_lines) in
     let text := limit_length 4000 text in
     ret (html2text_prefix ++ text))
    (fun e =>
       if isinstance e Exception
       then Some (ret (u "❌ html2text error: " ++ message e))
       else None).

(** The class has no method of this name: the [def] line of the
    BeautifulSoup extractor is absent and its body sits, unreachable, after
    the [return]s of [extract_text_with_html2text].  Looking the attribute
    up raises. *)
Definition extract_text_with_bs4 (html : str) : M str :=
  raise {| cls := AttributeError;
           message := u "'BookmarkManager' object has no attribute 'extract_text_with_bs4'" |}.

Definition extract_text_simple `{Platform} (html : str) : M str :=
  let text := re_sub ScriptOrStyle [] html in
  let text := re_sub AnyTag [] text in
  let text := re_sub Whitespace (u " ") text in
  let text := strip text in
  let text := limit_length 3000 text in
  ret (simple_prefix ++ text).

Definition missing_requests_message : str :=
  u "⚠️  Install requests for web content: pip install requests" ++ nl ++
  u "⚠️  Or install links/lynx for best experience:" ++ nl ++
  u "   • Links: http://links.twibright.com" ++ nl ++
  u "   • Lynx: apt install lynx / brew install lynx".

Definition requests_get_checked (w : env) : M response :=
  match requests_get w with
  | GetRaised e => raise e
  | Responded r =>
      match raise_for_status r with
      | Some e => raise e
      | None => ret r
      end
  end.

Definition fetch_page_text `{Platform} (w : env) (url : str) : M str :=
  if HAS_LINKS then fetch_with_links w url
  else if HAS_LYNX then fetch_with_lynx w url
  else if negb HAS_REQUESTS then ret missing_requests_message
  else
    try_except
      (print (colored (u "🌐 Fetching content from " ++ url ++ u "...") Colors.CYAN []) ;;
       response <- requests_get_checked w ;;
       let content_type :=
         lower (match content_type response with Some t => t | None => [] end) in
       if negb (contains (u "text/html") content_type) then
         if contains (u "application/json") content_type
         then ret (json_prefix ++ firstn 2000 (text response) ++ u "...")
         else if contains (u "text/") content_type
         then ret (text_prefix ++ firstn 2000 (text response) ++ u "...")
         else ret (u "📄 Binary content (" ++ content_type ++ u ")" ++ nl ++
                   u "Size: " ++ str_of_nat (content_len response) ++ u " bytes")
       else if HAS_HTML2TEXT then extract_text_with_html2text (text response)
       else if HAS_BEAUTIFULSOUP then extract_text_with_bs4 (text response)
       else extract_text_simple (text response))
      (fun e =>
         if isinstance e RequestException
         then Some (ret (u "❌ Failed to fetch: " ++ message e))
         else if isinstance e Exception
         then Some (ret (u "❌ Error processing content: " ++ message e))
         else None).

(** ** Content cache *)

Definition with_cache (d : fs) (files : Z -> option str) : fs :=
  {| store_file := store_file d;
     store_readable := store_readable d;
     store_writable := store_writable d;
     cache_files := files;
     cache_readable := cache_readable d;
     cache_writable := cache_writable d;
     cache_removable := cache_removable d |}.

(** [cache_path.exists()] *)
Definition cache_exists (bookmark_id : Z) : M bool :=
  d <- gets disk ;;
  ret (match cache_files d bookmark_id with Some _ => true | None => false end).

(** [with open(cache_path, 'w', encoding='utf-8') as f: f.write(content)] *)
Definition write_cache (bookmark_id : Z) (content : str) : M unit :=
  d <- gets disk ;;
  if negb (cache_writable d bookmark_id) then raise (os_error "Permission denied")
  else set_disk (with_cache d (fun i => if (i =? bookmark_id)%Z then Some content
                                        else cache_files d i)).

(** What a file opened for reading in text mode hands back: each of
    ["\r\n"] and ["\r"] comes as ["\n"]. *)
Fixpoint universal_newlines (text : str) : str :=
  match text with
  | [] => []
  | c :: rest =>
      if (c =? 13)%N then
        10%N :: match rest with
                | d :: rest' => if (d =? 10)%N then universal_newlines rest'
                                else universal_newlines rest
                | [] => []
                end
      else c :: universal_newlines rest
  end.

(** [with open(cache_path, 'r', encoding='utf-8') as f: f.read()]; the
    file holds the text that was written (on a system whose line
    separator is ["\n"], writing changes nothing). *)
Definition read_cache (d : fs) (bookmark_id : Z) : outcome str :=
  if negb (cache_readable d bookmark_id) then Raise (os_error "Permission denied")
  else match cache_files d bookmark_id with
       | Some content => Ret (universal_newlines content)
       | None => Raise {| cls := FileNotFoundError;
                          message := u "No such file or directory" |}
       end.

(** [cache_path.unlink()] *)
Definition unlink_cache (bookmark_id : Z) : M unit :=
  d <- gets disk ;;
  if negb (cache_removable d bookmark_id) then raise (os_error "Permission denied")
  else set_disk (with_cache d (fun i => if (i =? bookmark_id)%Z then None
                                        else cache_files d i)).

(** ** Store: add, find, remove, refresh, copy *)

Definition except_OSError {A} (k : M A) (e : exn) : option (M A) :=
  if isinstance e OSError then Some k else None.

Definition rendered_with `{Platform} : str :=
  if HAS_LINKS then colored (u "🔗 Content rendered with Links") Colors.GREEN []
  else if HAS_LYNX then colored (u "🦌 Content rendered with Lynx") Colors.GREEN []
  else if HAS_HTML2TEXT then colored (u "📄 Content converted with html2text") Colors.GREEN []
  else colored (u "📄 Content extracted") Colors.GREEN [].

Definition add_bookmark `{Platform} (w : env) (url description : str) (tags : list str)
  : M unit :=
  let url := if negb (startswith url (u "http://") || startswith url (u "https://"))
             then u "https://" ++ url else url in
  c <- gets self_bookmarks ;;
  let bookmark_id := next_id c in
  set_bookmarks {| bookmarks := bookmarks c; next_id := next_id c + 1 |} ;;
  domain <- lift (netloc url) ;;
  content <- fetch_page_text w url ;;
  has_content <-
    (if truthy content then
       try_except
         (write_cache bookmark_id content ;;
          print rendered_with ;;
          ret true)
         (except_OSError (ret false))
     else ret false) ;;
  let bookmark := {| id := bookmark_id; url := url; description := description;
                     tags := tags; created := now w; domain := domain;
                     has_content := has_content |} in
  c <- gets self_bookmarks ;;
  set_bookmarks {| bookmarks := bookmarks c ++ [bookmark]; next_id := next_id c |} ;;
  save_bookmarks ;;
  print (colored (u "✅ Added bookmark #" ++ str_of_Z bookmark_id ++ u ": " ++ url)
                 Colors.GREEN []) ;;
  when (truthy description)
       (print (colored (u "📝 Description: " ++ description) Colors.GRAY [])) ;;
  when (match tags with [] => false | _ => true end)
       (print (colored (u "🏷️  Tags: " ++ join (u ", ") tags) Colors.GRAY [])).

Definition find_bookmark (bookmark_id : Z) : M (option bookmark) :=
  c <- gets self_bookmarks ;;
  ret (find (fun b => (id b =? bookmark_id)%Z) (bookmarks c)).

Definition not_found_message (bookmark_id : Z) : str :=
  colored (u "❌ Bookmark #" ++ str_of_Z bookmark_id ++ u " not found") Colors.RED [].

Definition remove_bookmark (bookmark_id : Z) : M unit :=
  bookmark <- find_bookmark bookmark_id ;;
  match bookmark with
  | None => print (not_found_message bookmark_id)
  | Some bookmark =>
      c <- gets self_bookmarks ;;
      set_bookmarks {| bookmarks := filter (fun b => negb (id b =? bookmark_id)%Z)
                                           (bookmarks c);
                       next_id := next_id c |} ;;
      present <- cache_exists bookmark_id ;;
      when present (try_except (unlink_cache bookmark_id) (except_OSError (ret tt))) ;;
      save_bookmarks ;;
      print (colored (u "🗑️  Removed bookmark #" ++ str_of_Z bookmark_id ++ u ": "
                      ++ url bookmark) Colors.GREEN [])
  end.

(** [for b in ...: if b["id"] == bookmark_id: b["has_content"] = True; break] *)
Fixpoint mark_has_content (bookmark_id : Z) (bs : list bookmark) : list bookmark :=
  match bs with
  | [] => []
  | b :: rest =>
      if (id b =? bookmark_id)%Z
      then {| id := id b; url := url b; description := description b; tags := tags b;
              created := created b; domain := domain b; has_content := true |} :: rest
      else b :: mark_has_content bookmark_id rest
  end.

Definition refresh_bookmark_content `{Platform} (w : env) (bookmark_id : Z) : M unit :=
  bookmark <- find_bookmark bookmark_id ;;
  match bookmark with
  | None => ret tt
  | Some bookmark =>
      print (colored (u "🔄 Refreshing content for bookmark #" ++ str_of_Z bookmark_id
                      ++ u "...") Colors.BLUE []) ;;
      content <- fetch_page_text w (url bookmark) ;;
      if truthy content then
        try_except
          (write_cache bookmark_id content ;;
           c <- gets self_bookmarks ;;
           set_bookmarks {| bookmarks := mark_has_content bookmark_id (bookmarks c);
                            next_id := next_id c |} ;;
           save_bookmarks ;;
           print (colored (u "✅ Content refreshed!") Colors.GREEN []))
          (except_OSError
             (print (colored (u "❌ Failed to save refreshed content") Colors.RED [])))
      else print (colored (u "❌ Failed to refresh content") Colors.RED [])
  end.

Definition copy_url `{Platform} (w : env) (bookmark_id : Z) : M unit :=
  bookmark <- find_bookmark bookmark_id ;;
  match bookmark with
  | None => print (not_found_message bookmark_id)
  | Some bookmark =>
      if negb HAS_CLIPBOARD then
        print (colored (u "⚠️  Install pyperclip for clipboard support: pip install pyperclip")
                       Colors.YELLOW []) ;;
        print (colored (u "🔗 URL: " ++ url bookmark) Colors.CYAN [])
      else
        try_except
          (match pyperclip_copy w with Some e => raise e | None => ret tt end ;;
           print (colored (u "📋 Copied to clipboard: " ++ url bookmark) Colors.GREEN []))
          (fun e =>
             if isinstance e Exception
             then Some (print (colored (u "❌ Clipboard error: " ++ message e) Colors.RED []) ;;
                        print (colored (u "🔗 URL: " ++ url bookmark) Colors.CYAN []))
             else None)
  end.

(** ** Search *)

Inductive match_type := Metadata | Content.

Definition match_type_str (m : match_type) : str :=
  match m with Metadata => u "metadata" | Content => u "content" end.

(** [f"{bookmark['url']} {bookmark.get('description', '')} {' '.join(tags)}"] *)
Definition searchable (b : bookmark) : str :=
  url b ++ u " " ++ description b ++ u " " ++ join (u " ") (tags b).

(** The test on the cached content: the file exists, can be read, and its
    lower-cased text contains the query; an [OSError] while reading is
    passed over. *)
Definition content_matches `{Platform} (d : fs) (query_lower : str) (b : bookmark) : bool :=
  match cache_files d (id b) with
  | None => false
  | Some _ =>
      match read_cache d (id b) with
      | Ret content => contains query_lower (lower content)
      | Raise _ => false
      end
  end.

(** The loop of [search_bookmarks] that builds [matches]. *)
Fixpoint search_matches `{Platform} (d : fs) (query_lower : str) (bs : list bookmark)
  : list (bookmark * match_type) :=
  match bs with
  | [] => []
  | bookmark :: rest =>
      if contains query_lower (lower (searchable bookmark))
      then (bookmark, Metadata) :: search_matches d query_lower rest
      else if content_matches d query_lower bookmark
      then (bookmark, Content) :: search_matches d query_lower rest
      else search_matches d query_lower rest
  end.

Fixpoint report_matches (matches : list (bookmark * match_type)) : M unit :=
  match matches with
  | [] => ret tt
  | (bookmark, match_type) :: rest =>
      let match_indicator := match match_type with Metadata => u "📝" | Content => u "📄" end in
      print (colored (match_indicator ++ u " Found in " ++ match_type_str match_type ++ u ":")
                     Colors.CYAN []) ;;
      emit (Summary bookmark) ;;
      report_matches rest
  end.

Definition search_bookmarks `{Platform} (query : str) : M unit :=
  let query_lower := lower query in
  s <- get_state ;;
  let matches := search_matches (disk s) query_lower (bookmarks (self_bookmarks s)) in
  match matches with
  | [] => print (colored (u "🔍 No bookmarks found matching '" ++ query ++ u "'")
                         Colors.YELLOW [])
  | _ =>
      print (colored (u "🔍 Found " ++ str_of_nat (List.length matches)
                      ++ u " bookmark(s) matching '" ++ query ++ u "'")
                     Colors.BLUE Colors.BOLD) ;;
      print [] ;;
      report_matches matches
  end.

(** [get_filtered_bookmarks]: the list the TUI displays. *)
Fixpoint filter_matches `{Platform} (d : fs) (query_lower : str) (bs : list bookmark)
  : list bookmark :=
  match bs with
  | [] => []
  | bookmark :: rest =>
      if contains query_lower (lower (searchable bookmark))
      then bookmark :: filter_matches d query_lower rest
      else if content_matches d query_lower bookmark
      then bookmark :: filter_matches d query_lower rest
      else filter_matches d query_lower rest
  end.

Definition get_filtered_bookmarks `{Platform} (query : str) : M (list bookmark) :=
  s <- get_state ;;
  if negb (truthy query) then ret (bookmarks (self_bookmarks s))
  else ret (filter_matches (disk s) (lower query) (bookmarks (self_bookmarks s))).

(** ** TUI loop *)

(** What a blocking read receives: text, or an interrupt. *)
Inductive input :=
| Typed (s : str)
| Interrupt.

(** One turn of the loop: the logical key that [get_key_termios] or
    [get_key_fallback] returns, the answers to the reads of the screen that
    the key opens, and the world's answers to a fetch or a copy made
    meanwhile. *)
Record keypress := {
  key : input;
  answers : list input;
  world : env
}.

Record view := {
  selected_index : Z;
  search_mode : bool;
  search_query : str
}.

(** [l[i]] with Python's negative indices. *)
Definition py_index {A} (l : list A) (i : Z) : outcome A :=
  let n := Z.of_nat (List.length l) in
  let j := if (i <? 0)%Z then (n + i)%Z else i in
  match (if (0 <=? j)%Z && (j <? n)%Z then nth_error l (Z.to_nat j) else None) with
  | Some a => Ret a
  | None => Raise {| cls := IndexError; message := u "list index out of range" |}
  end.

Definition keyboard_interrupt : exn := {| cls := KeyboardInterrupt; message := [] |}.

(** [input(...)]: the [n]-th answer. *)
Definition input_line (answers : list input) (n : nat) : M str :=
  match nth_error answers n with
  | Some (Typed s) => ret s
  | Some Interrupt => raise keyboard_interrupt
  | None => raise {| cls := EOFError; message := u "EOF when reading a line" |}
  end.

(** [self.get_key_termios()] inside a screen: at end of input the read
    returns the empty string. *)
Definition get_key_termios (answers : list input) (n : nat) : M str :=
  match nth_error answers n with
  | Some (Typed s) => ret s
  | Some Interrupt => raise keyboard_interrupt
  | None => ret []
  end.

(** [if HAS_TERMIOS: self.get_key_termios() else: input()] *)
Definition wait_for_key `{Platform} (answers : list input) : M str :=
  if HAS_TERMIOS then get_key_termios answers 0 else input_line answers 0.

Definition show_bookmark_content_tui `{Platform} (answers : list input) (bookmark_id : Z)
  : M unit :=
  bookmark <- find_bookmark bookmark_id ;;
  match bookmark with
  | None => ret tt
  | Some bookmark =>
      emit (Screen (u "🔗 Bookmark #" ++ str_of_Z bookmark_id ++ u ": " ++ url bookmark)) ;;
      d <- gets disk ;;
      match cache_files d bookmark_id with
      | Some _ =>
          match read_cache d bookmark_id with
          | Ret content => print content
          | Raise e =>
              if isinstance e OSError
              then print (colored (u "❌ Error reading cached content") Colors.RED [])
              else raise e
          end
      | None => print (colored (u "📭 No cached content available") Colors.YELLOW [])
      end ;;
      print (colored (u "Press any key to return...") Colors.GRAY []) ;;
      _ <- wait_for_key answers ;;
      ret tt
  end.

Definition add_bookmark_tui `{Platform} (w : env) (answers : list input) : M unit :=
  emit (Screen (u "Add New Bookmark")) ;;
  try_except
    (url <- input_line answers 0 ;;
     let url := strip url in
     if negb (truthy url) then ret tt
     else
       description <- input_line answers 1 ;;
       let description := strip description in
       tags_input <- input_line answers 2 ;;
       let tags_input := strip tags_input in
       let tags := if truthy tags_input
                   then map strip (filter (fun tag => truthy (strip tag))
                                          (split_on 44 tags_input))
                   else [] in
       print [] ;;
       print (colored (u "🌐 Adding bookmark and fetching content...") Colors.BLUE []) ;;
       add_bookmark w url description tags)
    (fun e =>
       if isinstance e KeyboardInterrupt
       then Some (print (colored (nl ++ u "❌ Cancelled") Colors.YELLOW []))
       else None).

Definition delete_bookmark_tui `{Platform} (answers : list input) (bookmark : bookmark)
  : M unit :=
  emit (Screen (u "Delete Bookmark")) ;;
  print (colored (u "🔗 URL: " ++ url bookmark) Colors.CYAN []) ;;
  when (truthy (description bookmark))
       (print (colored (u "📝 Description: " ++ description bookmark) Colors.WHITE [])) ;;
  print (colored (u "y = Yes, delete | Any other key = Cancel") Colors.GRAY []) ;;
  key <- (if HAS_TERMIOS then get_key_termios answers 0
          else (line <- input_line answers 0 ;; ret (lower (strip line)))) ;;
  when (str_eqb (lower key) (u "y")) (remove_bookmark (id bookmark)).

Definition show_tui_help `{Platform} (answers : list input) : M unit :=
  emit (Screen (u "linkt Help")) ;;
  print (colored (u "Press any key to return...") Colors.GRAY []) ;;
  _ <- wait_for_key answers ;;
  ret tt.

Definition is_key (key : str) (name : string) : bool := str_eqb key (u name).

Definition nonempty {A} (l : list A) : bool :=
  match l with [] => false | _ => true end.

(** The branch of the loop body taken while [search_mode] is set. *)
Definition search_key (v : view) (key : str) : view :=
  if str_eqb key esc then
    {| selected_index := 0; search_mode := false; search_query := [] |}
  else if str_eqb key cr then
    {| selected_index := 0; search_mode := false; search_query := search_query v |}
  else if str_eqb key [127%N] || str_eqb key [8%N] then
    if truthy (search_query v)
    then {| selected_index := 0; search_mode := search_mode v;
            search_query := removelast (search_query v) |}
    else {| selected_index := 0; search_mode := false; search_query := search_query v |}
  else v.

Definition with_index (v : view) (i : Z) : view :=
  {| selected_index := i; search_mode := search_mode v; search_query := search_query v |}.

(** The body of the [try] of one turn, after the draw; the boolean tells
    whether the loop goes on. *)
Definition handle_key `{Platform} (v : view) (bookmarks : list bookmark) (kp : keypress)
  : M (view * bool) :=
  key <- (match key kp with Typed s => ret s | Interrupt => raise keyboard_interrupt end) ;;
  let n := Z.of_nat (List.length bookmarks) in
  if search_mode v then
    if str_eqb key esc || str_eqb key cr || str_eqb key [127%N] || str_eqb key [8%N]
    then ret (search_key v key, true)
    else if isprintable key
    then ret ({| selected_index := 0; search_mode := search_mode v;
                 search_query := search_query v ++ key |}, true)
    else ret (v, true)
  else if is_key key "j" || is_key key "DOWN" then
    ret (with_index v (Z.min (n - 1) (selected_index v + 1)), true)
  else if is_key key "k" || is_key key "UP" then
    ret (with_index v (Z.max 0 (selected_index v - 1)), true)
  else if is_key key "g" then ret (with_index v 0, true)
  else if is_key key "G" then ret (with_index v (Z.max 0 (n - 1)), true)
  else if str_eqb key cr && nonempty bookmarks then
    b <- lift (py_index bookmarks (selected_index v)) ;;
    show_bookmark_content_tui (answers kp) (id b) ;;
    ret (v, true)
  else if is_key key "c" && nonempty bookmarks then
    b <- lift (py_index bookmarks (selected_index v)) ;;
    copy_url (world kp) (id b) ;;
    ret (v, true)
  else if is_key key "d" && nonempty bookmarks then
    b <- lift (py_index bookmarks (selected_index v)) ;;
    delete_bookmark_tui (answers kp) b ;;
    ret (v, true)
  else if is_key key "a" then
    add_bookmark_tui (world kp) (answers kp) ;;
    ret (v, true)
  else if is_key key "/" then
    ret ({| selected_index := selected_index v; search_mode := true; search_query := [] |},
         true)
  else if is_key key "r" then
    (if nonempty bookmarks then
       b <- lift (py_index bookmarks (selected_index v)) ;;
       refresh_bookmark_content (world kp) (id b)
     else ret tt) ;;
    ret (v, true)
  else if is_key key "?" then
    show_tui_help (answers kp) ;;
    ret (v, true)
  else if is_key key "q" || str_eqb key [3%N] then ret (v, false)
  else ret (v, true).

(** The head of one turn: filter, bound the selection, draw. *)
Definition redraw `{Platform} (v : view) : M (view * list bookmark) :=
  bookmarks <- get_filtered_bookmarks (if search_mode v then search_query v else []) ;;
  let n := Z.of_nat (List.length bookmarks) in
  let v := if (n <=? selected_index v)%Z then with_index v (Z.max 0 (n - 1)) else v in
  emit (Draw bookmarks (selected_index v) (search_mode v) (search_query v)) ;;
  ret (v, bookmarks).

(** The [while True] loop run on the keys pressed so far.  With no key
    left the loop has drawn and waits for the next one: the result is the
    view it waits in, and [true]; [false] means the loop was left. *)
Fixpoint tui_loop `{Platform} (v : view) (keys : list keypress) : M (view * bool) :=
  r <- redraw v ;;
  let '(v, bookmarks) := r in
  match keys with
  | [] => ret (v, true)
  | kp :: rest =>
      r <- try_except (handle_key v bookmarks kp)
                      (fun e => if isinstance e KeyboardInterrupt
                                then Some (ret (v, false)) else None) ;;
      let '(v, continue) := r in
      if continue then tui_loop v rest else ret (v, false)
  end.

Definition initial_view : view :=
  {| selected_index := 0; search_mode := false; search_query := [] |}.

Definition run_tui `{Platform} (keys : list keypress) : M view :=
  print (colored (u "🚀 Starting linkt TUI mode...") Colors.BLUE Colors.BOLD) ;;
  r <- tui_loop initial_view keys ;;
  let '(v, waiting) := r in
  when (negb waiting) (print (colored (nl ++ u "👋 Goodbye!") Colors.CYAN [])) ;;
  ret v.

(** ** Sequences of store operations *)

Inductive op :=
| Add (w : env) (url description : str) (tags : list str)
| Remove (bookmark_id : Z).

Definition run_op `{Platform} (o : op) : M unit :=
  match o with
  | Add w url description tags => add_bookmark w url description tags
  | Remove bookmark_id => remove_bookmark bookmark_id
  end.

(** The steps a sequence of operations takes: the state before, the
    operation, its result and the state after.  An exception that leaves an
    operation ends the process, and the sequence with it. *)
Fixpoint steps `{Platform} (ops : list op) (s : state)
  : list (state * op * outcome unit * state) :=
  match ops with
  | [] => []
  | o :: rest =>
      let '(r, s') := run_op o s in
      (s, o, r, s') ::
      match r with
      | Ret _ => steps rest s'
      | Raise _ => []
      end
  end.

(** ** A concrete platform, for running the model on examples

    Case mapping and printability are those of ASCII, the host of a url is
    what stands between the scheme and the next slash, and the stand-ins
    for html2text and [re.sub] hand their input back unchanged. *)

Module Sample.

Definition ascii_lower (a : str) : str :=
  map (fun c => if (65 <=? c)%N && (c <=? 90)%N then (c + 32)%N else c) a.

Definition ascii_printable (a : str) : bool :=
  forallb (fun c => (32 <=? c)%N && (c <=? 126)%N) a.

Fixpoint until_slash (a : str) : str :=
  match a with
  | [] => []
  | c :: a' => if (c =? 47)%N then [] else c :: until_slash a'
  end.

(** The host of [scheme://host/path]. *)
Definition host (url : str) : outcome str :=
  if startswith url (u "https://") then Ret (until_slash (skipn 8 url))
  else if startswith url (u "http://") then Ret (until_slash (skipn 7 url))
  else Ret [].

Definition platform (termios requests bs4 h2t clipboard has_links has_lynx : bool)
  : Platform :=
  {| HAS_TERMIOS := termios;
     HAS_REQUESTS := requests;
     HAS_BEAUTIFULSOUP := bs4;
     HAS_HTML2TEXT := h2t;
     HAS_CLIPBOARD := clipboard;
     HAS_LINKS := has_links;
     HAS_LYNX := has_lynx;
     lower := ascii_lower;
     isprintable := ascii_printable;
     netloc := host;
     html2text_handle := fun html => Ret html;
     re_sub := fun _ _ text => text |}.

(** Nothing installed but [requests]. *)
Definition bare : Platform := platform true true false false false false false.
(** [requests] and BeautifulSoup, no html2text. *)
Definition with_bs4 : Platform := platform true true true false false false false.
(** [requests] and html2text. *)
Definition with_html2text : Platform := platform true true true true false false false.
(** The Links browser is installed. *)
Definition with_links : Platform := platform true true false false false true false.

Definition timeout : exn :=
  {| cls := TimeoutExpired; message := u "Command timed out after 15 seconds" |}.

Definition html_page (body : str) : http :=
  Responded {| raise_for_status := None;
               content_type := Some (u "text/html; charset=utf-8");
               text := body;
               content_len := List.length body |}.

(** A world in which every fetch strategy gives [body]. *)
Definition serving (body : str) : env :=
  {| now := u "2024-01-01T00:00:00";
     links := Completed 0 body [];
     lynx := Completed 0 body [];
     lynx_numbered := Completed 0 body [];
     requests_get := html_page body;
     pyperclip_copy := None |}.

(** A world in which every fetch strategy fails. *)
Definition offline : env :=
  {| now := u "2024-01-01T00:00:00";
     links := Failed timeout;
     lynx := Failed timeout;
     lynx_numbered := Failed timeout;
     requests_get := GetRaised {| cls := RequestException;
                                  message := u "Connection refused" |};
     pyperclip_copy := None |}.

Definition empty_disk : fs :=
  {| store_file := None;
     store_readable := true;
     store_writable := true;
     cache_files := fun _ => None;
     cache_readable := fun _ => true;
     cache_writable := fun _ => true;
     cache_removable := fun _ => true |}.

Definition fresh : state :=
  {| self_bookmarks := empty_container; disk := empty_disk; trace := [] |}.

Definition entry (i : Z) (link about : string) : bookmark :=
  {| id := i; url := u link; description := u about; tags := [];
     created := u "2024-01-01T00:00:00"; domain := []; has_content := false |}.

Definition holding (bs : list bookmark) (n : Z) : state :=
  {| self_bookmarks := {| bookmarks := bs; next_id := n |};
     disk := empty_disk; trace := [] |}.

Definition press (k : string) : keypress :=
  {| key := Typed (u k); answers := []; world := offline |}.

Definition enter : keypress :=
  {| key := Typed cr; answers := []; world := offline |}.

End Sample.

(** ** Notions used to state the properties *)

(** A store document of the expected shape: an object whose [bookmarks] is
    a list of bookmark records and whose [next_id] is an integer. *)
Definition well_formed_document (f : file_content) : bool :=
  match f with
  | Document j => match container_of_json j with Some _ => true | None => false end
  | _ => false
  end.

(** [if key not in d: d[key] = value] on a dict. *)
Definition dict_setdefault (d : list (str * json)) (key : str) (value : json)
  : list (str * json) :=
  match dict_get d key with
  | Some _ => d
  | None => dict_set d key value
  end.

Definition printed (s : state) (text : str) : state :=
  {| self_bookmarks := self_bookmarks s; disk := disk s;
     trace := trace s ++ [Print text] |}.

Definition on_disk (s : state) (f : file_content) : state :=
  {| self_bookmarks := self_bookmarks s;
     disk := {| store_file := Some f;
                store_readable := true;
                store_writable := store_writable (disk s);
                cache_files := cache_files (disk s);
                cache_readable := cache_readable (disk s);
                cache_writable := cache_writable (disk s);
                cache_removable := cache_removable (disk s) |};
     trace := trace s |}.

(** The largest id handed out so far, [0] when none was. *)
Definition max_assigned (history : list Z) : Z := fold_right Z.max 0%Z history.

Definition stored_ids (s : state) : list Z := map id (bookmarks (self_bookmarks s)).

(** A container is well formed for the ids handed out so far when every
    stored id is one of them and [next_id] is the one after the largest. *)
Definition well_formed (history : list Z) (c : container) : Prop :=
  next_id c = (max_assigned history + 1)%Z
  /\ forall b, In b (bookmarks c) -> In (id b) history.

(** What one step must satisfy, [history] being the ids handed out before
    it.  An add that raises has stored nothing, or has appended its
    bookmark, under the id an add that returns would use, before the write
    of the store file raised. *)
Definition step_ok (history : list Z) (st : state * op * outcome unit * state) : Prop :=
  let '(s, o, r, s') := st in
  let c := self_bookmarks s in
  let c' := self_bookmarks s' in
  (forall b, In b (bookmarks c') -> (id b < next_id c')%Z)
  /\ match o, r with
     | Add _ _ _ _, Ret _ =>
         exists b, bookmarks c' = bookmarks c ++ [b]
                   /\ id b = (max_assigned history + 1)%Z
                   /\ ~ In (id b) history
     | Add _ _ _ _, Raise _ =>
         bookmarks c' = bookmarks c
         \/ exists b, bookmarks c' = bookmarks c ++ [b]
                      /\ id b = (max_assigned history + 1)%Z
                      /\ ~ In (id b) history
     | Remove i, _ =>
         bookmarks c' = filter (fun b => negb (id b =? i)%Z) (bookmarks c)
         /\ next_id c' = next_id c
     end.

(** Every step of a run is [step_ok] for the ids handed out before it: the
    history grows by the ids found in the store after each step. *)
Fixpoint ids_monotone (history : list Z) (run : list (state * op * outcome unit * state))
  : Prop :=
  match run with
  | [] => True
  | st :: rest =>
      step_ok history st /\ ids_monotone (history ++ stored_ids (snd st)) rest
  end.

(** An operation that leaves the manager object and the files alone. *)
Definition same_store (s s' : state) : Prop :=
  self_bookmarks s' = self_bookmarks s /\ disk s' = disk s.

Definition keeps_store {A} (c : M A) : Prop :=
  forall s, same_store s (snd (c s)).

(** The state once [add_bookmark] has taken its id: [next_id] is one more. *)
Definition assigned (s : state) : state :=
  {| self_bookmarks := {| bookmarks := bookmarks (self_bookmarks s);
                          next_id := next_id (self_bookmarks s) + 1 |};
     disk := disk s; trace := trace s |}.

(** The url as [add_bookmark] stores it. *)
Definition normalized (url : str) : str :=
  if negb (startswith url (u "http://") || startswith url (u "https://"))
  then u "https://" ++ url else url.

Definition added_message (bookmark_id : Z) (url : str) : str :=
  colored (u "✅ Added bookmark #" ++ str_of_Z bookmark_id ++ u ": " ++ url)
          Colors.GREEN [].

(** The response is HTML: its lower-cased content type mentions text/html. *)
Definition header `{Platform} (r : response) : str :=
  lower (match content_type r with Some t => t | None => [] end).

Definition is_html `{Platform} (r : response) : bool :=
  contains (u "text/html") (header r).

(** [rendition w prefix budget marker body]: on the platform and in the
    world [w], the Fetcher's strategy obtains the text [body], which it
    cuts to [budget] characters, ends with [marker] and puts after
    [prefix]. *)
Inductive rendition `{Platform} (w : env) : str -> nat -> str -> str -> Prop :=
| links_rendition stdout stderr :
    HAS_LINKS = true ->
    links w = Completed 0 stdout stderr ->
    rendition w links_prefix 4000 truncation_marker (strip stdout)
| lynx_rendition stdout stderr :
    HAS_LINKS = false -> HAS_LYNX = true ->
    lynx w = Completed 0 stdout stderr ->
    rendition w lynx_prefix 4000 truncation_marker (strip stdout)
| lynx_numbered_rendition returncode out err stdout stderr :
    HAS_LINKS = false -> HAS_LYNX = true ->
    lynx w = Completed returncode out err -> returncode <> 0%Z ->
    lynx_numbered w = Completed 0 stdout stderr ->
    rendition w lynx_prefix 4000 truncation_marker (strip stdout)
| html2text_rendition r page :
    HAS_LINKS = false -> HAS_LYNX = false -> HAS_REQUESTS = true ->
    requests_get w = Responded r -> raise_for_status r = None ->
    is_html r = true -> HAS_HTML2TEXT = true ->
    html2text_handle (text r) = Ret page ->
    rendition w html2text_prefix 4000 truncation_marker
              (strip (join nl (clean_lines (split_on 10 page) 0)))
| simple_rendition r :
    HAS_LINKS = false -> HAS_LYNX = false -> HAS_REQUESTS = true ->
    requests_get w = Responded r -> raise_for_status r = None ->
    is_html r = true -> HAS_HTML2TEXT = false -> HAS_BEAUTIFULSOUP = false ->
    rendition w simple_prefix 3000 truncation_marker
              (strip (re_sub Whitespace (u " ")
                        (re_sub AnyTag [] (re_sub ScriptOrStyle [] (text r)))))
| json_rendition r :
    HAS_LINKS = false -> HAS_LYNX = false -> HAS_REQUESTS = true ->
    requests_get w = Responded r -> raise_for_status r = None ->
    is_html r = false -> contains (u "application/json") (header r) = true ->
    rendition w json_prefix 2000 (u "...") (text r)
| text_rendition r :
    HAS_LINKS = false -> HAS_LYNX = false -> HAS_REQUESTS = true ->
    requests_get w = Responded r -> raise_for_status r = None ->
    is_html r = false -> contains (u "application/json") (header r) = false ->
    contains (u "text/") (header r) = true ->
    rendition w text_prefix 2000 (u "...") (text r).

(** A fetch attempt that fails: the subprocess raises (a timeout, a missing
    binary, any other error) or exits with a non-zero code, the optional
    capability is missing, or the HTTP request raises. *)
Inductive fetch_fails `{Platform} (w : env) : Prop :=
| links_raises e :
    HAS_LINKS = true -> links w = Failed e -> isinstance e Exception = true ->
    fetch_fails w
| links_exits returncode stdout stderr :
    HAS_LINKS = true -> links w = Completed returncode stdout stderr ->
    returncode <> 0%Z -> fetch_fails w
| lynx_raises e :
    HAS_LINKS = false -> HAS_LYNX = true ->
    lynx w = Failed e -> isinstance e Exception = true -> fetch_fails w
| lynx_retry_raises returncode stdout stderr e :
    HAS_LINKS = false -> HAS_LYNX = true ->
    lynx w = Completed returncode stdout stderr -> returncode <> 0%Z ->
    lynx_numbered w = Failed e -> isinstance e Exception = true -> fetch_fails w
| lynx_exits returncode stdout stderr returncode' stdout' stderr' :
    HAS_LINKS = false -> HAS_LYNX = true ->
    lynx w = Completed returncode stdout stderr -> returncode <> 0%Z ->
    lynx_numbered w = Completed returncode' stdout' stderr' -> returncode' <> 0%Z ->
    fetch_fails w
| requests_missing :
    HAS_LINKS = false -> HAS_LYNX = false -> HAS_REQUESTS = false -> fetch_fails w
| get_raises e :
    HAS_LINKS = false -> HAS_LYNX = false -> HAS_REQUESTS = true ->
    requests_get w = GetRaised e -> isinstance e Exception = true -> fetch_fails w
| status_raises r e :
    HAS_LINKS = false -> HAS_LYNX = false -> HAS_REQUESTS = true ->
    requests_get w = Responded r -> raise_for_status r = Some e ->
    isinstance e Exception = true -> fetch_fails w.

(** The messages the Fetcher returns in place of a page open with one of
    these signs. *)
Definition is_error_text (msg : str) : bool :=
  startswith msg (u "❌") || startswith msg (u "⏰") || startswith msg (u "⚠️").

Definition refreshed_message : str :=
  colored (u "✅ Content refreshed!") Colors.GREEN [].

Definition not_refreshed_message : str :=
  colored (u "❌ Failed to save refreshed content") Colors.RED [].

Definition refreshing_message (bookmark_id : Z) : str :=
  colored (u "🔄 Refreshing content for bookmark #" ++ str_of_Z bookmark_id ++ u "...")
          Colors.BLUE [].

(** ** Notions used to state further properties *)

(** The files once [content] is written to the cache file of [i]. *)
Definition cached (d : fs) (i : Z) (content : str) : fs :=
  with_cache d (fun j => if (j =? i)%Z then Some content else cache_files d j).

(** The files once the cache file of [i] is unlinked. *)
Definition uncached (d : fs) (i : Z) : fs :=
  with_cache d (fun j => if (j =? i)%Z then None else cache_files d j).

(** The files once [save_bookmarks] has run for the container [c]: if the
    store file could be opened for writing it holds the document of [c],
    or what was written of it before a string that cannot be encoded. *)
Definition saved (c : container) (d : fs) : fs :=
  if store_writable d
  then with_store d (if json_encodable (container_to_json c)
                     then Document (container_to_json c)
                     else NotJson (written (iterencode 0 (container_to_json c))))
  else d.

(** How [save_bookmarks] ends for the container [c]: it returns, also
    when the file cannot be opened, and raises when the file is open and a
    string cannot be encoded. *)
Definition saving (c : container) (d : fs) : outcome unit :=
  if store_writable d && negb (json_encodable (container_to_json c))
  then Raise unicode_encode_error
  else Ret tt.

(** No string of the bookmark holds a lone surrogate. *)
Definition bookmark_encodable (b : bookmark) : bool :=
  encodable (url b) && encodable (description b) && forallb encodable (tags b)
  && encodable (created b) && encodable (domain b).

(** No string of the container holds a lone surrogate. *)
Definition storable (c : container) : bool := forallb bookmark_encodable (bookmarks c).

(** The store file holds the document of the container in memory. *)
Definition persisted (s : state) : Prop :=
  store_file (disk s) = Some (Document (container_to_json (self_bookmarks s))).

(** A computation that, when it returns, returns a text that is not
    empty. *)
Definition returns_text (c : M str) : Prop :=
  forall s a s', c s = (Ret a, s') -> truthy a = true.

(** The bookmark [add_bookmark] appends. *)
Definition new_bookmark `{Platform} (w : env) (s : state) (url description : str)
           (tags : list str) (dom : str) (hc : bool) : bookmark :=
  {| id := next_id (self_bookmarks s); url := normalized url;
     description := description; tags := tags;
     created := now w; domain := dom; has_content := hc |}.

(** [url] starts with one of the two schemes [add_bookmark] looks for. *)
Definition has_scheme (url : str) : bool :=
  startswith url (u "http://") || startswith url (u "https://").

(** The container without the bookmarks of id [i]. *)
Definition without (i : Z) (c : container) : container :=
  {| bookmarks := filter (fun b => negb (id b =? i)%Z) (bookmarks c);
     next_id := next_id c |}.

Definition lookup (i : Z) (c : container) : option bookmark :=
  find (fun b => (id b =? i)%Z) (bookmarks c).

(** The store file can be written and read, and holds the container in
    memory. *)
Definition in_step (s : state) : Prop :=
  store_writable (disk s) = true
  /\ store_readable (disk s) = true
  /\ persisted s.

(** After a step that returned, the store is [in_step]. *)
Definition step_in_step (st : state * op * outcome unit * state) : Prop :=
  let '(_, _, r, s') := st in
  r = Ret tt -> in_step s'.

(** A stored bookmark as [add_bookmark] makes them: the url has a scheme
    and the domain is the host of the url. *)
Definition well_kept `{Platform} (b : bookmark) : Prop :=
  has_scheme (url b) = true /\ netloc (url b) = Ret (domain b).

(** [b] with [has_content] set. *)
Definition with_content (b : bookmark) : bookmark :=
  {| id := id b; url := url b; description := description b; tags := tags b;
     created := created b; domain := domain b; has_content := true |}.

(** [b'] is [b], or [b] is a bookmark of id [i] and [b'] is [b] with
    [has_content] set. *)
Definition same_or_marked (i : Z) (b b' : bookmark) : Prop :=
  b' = b \/ (id b = i /\ b' = with_content b).

(** ** Command surface: list and show *)




(** ["=" * n] *)
Definition rule (n : nat) : str := repeat 61%N n.

Definition show_bookmark_content (bookmark_id : Z) : M unit :=
  bookmark <- find_bookmark bookmark_id ;;
  match bookmark with
  | None => print (not_found_message bookmark_id)
  | Some bookmark =>
      present <- cache_exists bookmark_id ;;
      if negb present then
        print (colored (u "📄 No cached content for bookmark #" ++ str_of_Z bookmark_id)
                       Colors.YELLOW []) ;;
        print (colored (u "🔗 URL: " ++ url bookmark) Colors.CYAN [])
      else
        try_except
          (d <- gets disk ;;
           content <- lift (read_cache d bookmark_id) ;;
           print (colored (rule 60) Colors.CYAN []) ;;
           print (colored (u "📄 Bookmark #" ++ str_of_Z bookmark_id ++ u " Content")
                          Colors.BLUE Colors.BOLD) ;;
           print (colored (u "🔗 " ++ url bookmark) Colors.CYAN []) ;;
           print (colored (rule 60) Colors.CYAN []) ;;
           print [] ;;
           print content ;;
           print [] ;;
           print (colored (rule 60) Colors.CYAN []))
          (fun e =>
             if isinstance e OSError
             then Some (print (colored (u "❌ Error reading content: " ++ message e)
                                       Colors.RED []))
             else None)
  end.

(** The kind that a line of the report of [search] announces. *)
Definition announced (text : str) : option match_type :=
  if str_eqb text (colored (u "📝 Found in metadata:") Colors.CYAN [])
  then Some Metadata
  else if str_eqb text (colored (u "📄 Found in content:") Colors.CYAN [])
  then Some Content
  else None.

(** What a trace reports: each line that announces a kind and is
    followed at once by the summary of a bookmark, with that bookmark. *)
Fixpoint reports (t : list event) : list (bookmark * match_type) :=
  match t with
  | [] => []
  | Print text :: rest =>
      match rest with
      | Summary b :: _ =>
          match announced text with
          | Some kind => [(b, kind)]
          | None => []
          end
      | _ => []
      end ++ reports rest
  | _ :: rest => reports rest
  end.

(** The bookmarks whose summaries a trace shows, in order. *)
Fixpoint summaries (t : list event) : list bookmark :=
  match t with
  | [] => []
  | Summary b :: rest => b :: summaries rest
  | _ :: rest => summaries rest
  end.

(** ** Notions used to state properties of the TUI loop *)

(** The view once the head of the loop has bounded the selection for a
    list of [n] rows. *)
Definition bounded (v : view) (n : Z) : view :=
  if (n <=? selected_index v)%Z then with_index v (Z.max 0 (n - 1)) else v.

(** A key that search-entry mode takes as text or ignores: it is typed,
    and is none of Escape, Enter and the two backspace codes. *)
Definition plain (kp : keypress) : bool :=
  match key kp with
  | Typed k => negb (str_eqb k esc || str_eqb k cr || str_eqb k [127%N] || str_eqb k [8%N])
  | Interrupt => false
  end.

(** The printable keys of a sequence, joined. *)
Fixpoint typed_text `{Platform} (keys : list keypress) : str :=
  match keys with
  | [] => []
  | kp :: rest =>
      match key kp with
      | Typed k => if isprintable k then k ++ typed_text rest else typed_text rest
      | Interrupt => typed_text rest
      end
  end.

(** A key that ends the loop in the view [v]: an interrupt, or [q] or
    Ctrl-C outside search-entry mode. *)
Definition quits (v : view) (kp : keypress) : bool :=
  match key kp with
  | Interrupt => true
  | Typed k => negb (search_mode v) && (str_eqb k (u "q") || str_eqb k [3%N])
  end.

(** ** Notions used to state properties of the dialogs of the TUI *)

(** The key the delete dialog gets from its read, if the read returns:
    under termios the key pressed (the empty string at end of input),
    otherwise the line typed, stripped and lower-cased. *)
Definition confirmation `{Platform} (answers : list input) : option str :=
  match nth_error answers 0 with
  | Some (Typed k) => Some (if HAS_TERMIOS then k else lower (strip k))
  | Some Interrupt => None
  | None => if HAS_TERMIOS then Some [] else None
  end.

(** The add form is left before it adds: the url typed is blank, or one of
    the three prompts is interrupted. *)
Definition abandoned (answers : list input) : bool :=
  match answers with
  | Interrupt :: _ => true
  | Typed url :: rest =>
      negb (truthy (strip url))
      || match rest with
         | Interrupt :: _ => true
         | Typed _ :: Interrupt :: _ => true
         | _ => false
         end
  | [] => false
  end.

(** ** The frame of the TUI *)

(** [Colors.BG_BLUE] *)
Definition BG_BLUE : str := esc ++ u "[44m".

(** [len(l)] *)
Definition len {A} (l : list A) : Z := Z.of_nat (List.length l).

(** [a * n]: the empty string when [n] is not positive. *)
Definition times (a : str) (n : Z) : str := List.concat (repeat a (Z.to_nat n)).

(** [a[:n]] and [a[n:]]; a negative [n] counts from the end. *)
Definition upto {A} (a : list A) (n : Z) : list A :=
  firstn (Z.to_nat (if (n <? 0)%Z then len a + n else n)%Z) a.

Definition from {A} (a : list A) (n : Z) : list A :=
  skipn (Z.to_nat (if (n <? 0)%Z then len a + n else n)%Z) a.

(** [range(n)] *)
Definition range (n : Z) : list Z := map Z.of_nat (seq 0 (Z.to_nat n)).


(** [for a in l: body(a)] *)
Fixpoint for_each {A} (l : list A) (body : A -> M unit) : M unit :=
  match l with
  | [] => ret tt
  | a :: rest => body a ;; for_each rest body
  end.

(** [f"{n:3d}"]: right-aligned in three columns. *)
Definition format_3d (n : Z) : str :=
  let digits := str_of_Z n in
  times (u " ") (3 - len digits) ++ digits.

Definition width : Z := 80.
Definition display_height : Z := 12.


Definition blank_row : str :=
  colored (u "║" ++ times (u " ") (width - 2) ++ u "║") Colors.CYAN [].

Definition content_icon `{Platform} (has_content : bool) : str :=
  if has_content && HAS_LINKS then u "🔗"
  else if has_content && HAS_LYNX then u "🦌"
  else if has_content then u "📄"
  else u "📄?".

(** The text of the row of one bookmark, padded or cut to [width - 4]. *)
Definition bookmark_line `{Platform} (bookmark : bookmark) : str :=
  let max_url_len := 40%Z in
  let display_url :=
    if (len (url bookmark) <=? max_url_len)%Z then url bookmark
    else upto (url bookmark) (max_url_len - 3) ++ u "..." in
  let line := u " " ++ content_icon (has_content bookmark) ++ u " ["
              ++ format_3d (id bookmark) ++ u "] " ++ display_url in
  let line :=
    if truthy (description bookmark) then
      let remaining := (width - len line - 4)%Z in
      if (10 <? remaining)%Z then
        let desc_part :=
          if (remaining <? len (description bookmark))%Z
          then upto (description bookmark) (remaining - 3) ++ u "..."
          else description bookmark in
        line ++ u " - " ++ desc_part
      else line
    else line in
  upto line (width - 4) ++ times (u " ") (Z.max 0 (width - len line - 4)).

(** [start_idx] and [end_idx] of the rows shown. *)
Definition scroll_window (selected_index n : Z) : Z * Z :=
  let start_idx := Z.max 0 (Z.min (selected_index - display_height / 2)
                                  (n - display_height)) in
  let end_idx := Z.min (start_idx + display_height) n in
  (start_idx, end_idx).

(** The twelve rows between the status line and the preview. *)
Definition draw_rows `{Platform} (bookmarks : list bookmark) (selected_index : Z)
           (search_query : str) : M unit :=
  if negb (nonempty bookmarks) then
    let empty_msg := if truthy search_query then u "No bookmarks found"
                     else u "No bookmarks yet" in
    for_each (range display_height) (fun i =>
      if (i =? display_height / 2)%Z then
        let msg := u "📭 " ++ empty_msg in
        let padding := ((width - len msg - 2) / 2)%Z in
        print (colored (u "║" ++ times (u " ") padding ++ msg
                        ++ times (u " ") (width - padding - len msg - 2) ++ u "║")
                       Colors.YELLOW [])
      else print blank_row)
  else
    let '(start_idx, end_idx) := scroll_window selected_index (len bookmarks) in
    for_each (range display_height) (fun i =>
      if (i <? end_idx - start_idx)%Z then
        let bookmark_idx := (start_idx + i)%Z in
        bookmark <- lift (py_index bookmarks bookmark_idx) ;;
        let is_selected := (bookmark_idx =? selected_index)%Z in
        let line := bookmark_line bookmark in
        if is_selected
        then print (colored (u "║" ++ line ++ u " ║") Colors.WHITE BG_BLUE)
        else print (colored (u "║ " ++ from line 1 ++ u " ║") Colors.WHITE [])
      else print blank_row).

(** The [while] loop that cuts [line] into pieces of [max_width - 2];
    [None] when it would go on for ever. *)
Fixpoint wrap (fuel : nat) (max_width : Z) (line : str) (lines : list str)
  : option (list str * str) :=
  if (max_width - 2 <? len line)%Z then
    match fuel with
    | O => None
    | S fuel' => wrap fuel' max_width (from line (max_width - 2))
                      (lines ++ [upto line (max_width - 2)])
    end
  else Some (lines, line).

(** The lines of the preview, from the pieces of [content.split('\n')]. *)
Fixpoint preview_lines (max_width : Z) (pieces : list str) (lines : list str)
  : option (list str) :=
  match pieces with
  | [] => Some lines
  | line :: rest =>
      if truthy (strip line) then
        match wrap (S (List.length line)) max_width line lines with
        | Some (lines, line) =>
            preview_lines max_width rest (if truthy line then lines ++ [line] else lines)
        | None => None
        end
      else if (0 <? len lines)%Z && truthy (last lines [])
      then preview_lines max_width rest (lines ++ [[]])
      else preview_lines max_width rest lines
  end.



Section Frame.
Context `{Platform}.

(** [datetime.fromisoformat(created).strftime("%Y-%m-%d")]; [None] when it
    raises. *)
Variable strftime : str -> option str.


End Frame.

(** ** Notions used to state properties of the frame *)

(** The state once [lines] have been printed. *)
Definition printing (s : state) (lines : list str) : state :=
  {| self_bookmarks := self_bookmarks s; disk := disk s;
     trace := trace s ++ map Print lines |}.

(** A row drawn on the blue background. *)
Definition highlighted (row : str) : bool := startswith row BG_BLUE.


(** * Properties *)

(** Unfolding the monad. *)
Ltac run :=
  unfold when, print, emit, set_disk, set_bookmarks, modify,
    try_except, bind, gets, get_state, lift, ret, raise;
  cbv beta.

(** An event is in a trace that was extended at its end. *)
Ltac in_trace :=
  solve [ apply in_or_app; right; left; reflexivity
        | apply in_or_app; left; in_trace ].

(** An event is in a list made of pieces. *)
Ltac in_list :=
  solve [ left; reflexivity
        | right; in_list
        | apply in_or_app; right; in_list
        | apply in_or_app; left; in_list ].

(** Comparisons of two literal keys are settled by evaluation. *)
Ltac eval_keys :=
  repeat match goal with
         | |- context [str_eqb (u ?a) (u ?b)] =>
             let r := eval vm_compute in (str_eqb (u a) (u b)) in
             change (str_eqb (u a) (u b)) with r
         end;
  cbv beta iota.


(** ** Strings *)

Lemma str_eqb_eq a b : str_eqb a b = true <-> a = b.
Proof.
  revert b. induction a as [|c a IH]; destruct b as [|d b]; simpl;
    try (split; congruence).
  rewrite andb_true_iff, N.eqb_eq, IH. split.
  - intros [-> ->]. reflexivity.
  - intros E. injection E as -> ->. split; reflexivity.
Qed.

Lemma str_eqb_refl a : str_eqb a a = true.
Proof. now apply str_eqb_eq. Qed.

Example u_decodes : u "🔗 x" = [128279; 32; 120]%N.
Proof. reflexivity. Qed.

Example str_of_Z_examples :
  str_of_Z 4000 = u "4000" /\ str_of_Z (-17) = u "-17" /\ str_of_Z 0 = u "0".
Proof. repeat split. Qed.

Example string_functions_examples :
  split_on 10 (u "a" ++ nl ++ nl ++ u "bc") = [u "a"; []; u "bc"]
  /\ join (u ", ") [u "x"; u "y"] = u "x, y"
  /\ strip (u "  a b  ") = u "a b"
  /\ contains (u "lo w") (u "hello world") = true
  /\ contains (u "low") (u "hello world") = false.
Proof. repeat split. Qed.

(** ** Store: remove *)

Lemma find_absent (bookmark_id : Z) (bs : list bookmark) :
  (forall b, In b bs -> id b <> bookmark_id) ->
  find (fun b => (id b =? bookmark_id)%Z) bs = None.
Proof.
  induction bs as [|b bs IH]; simpl; intros H; [reflexivity|].
  destruct (Z.eqb_spec (id b) bookmark_id) as [E|_].
  - exfalso. apply (H b); auto.
  - apply IH. intros b' Hb'. apply H. auto.
Qed.

(** C10: removing an id that is not in the store leaves the container and
    every file as they were, dumps nothing to the store file, and prints
    the not-found message and nothing else. *)
Theorem remove_absent_only_prints (bookmark_id : Z) (s : state) :
  (forall b, In b (bookmarks (self_bookmarks s)) -> id b <> bookmark_id) ->
  remove_bookmark bookmark_id s
  = (Ret tt, printed s (not_found_message bookmark_id)).
Proof.
  intros H. unfold remove_bookmark, find_bookmark. run.
  rewrite (find_absent _ _ H). reflexivity.
Qed.

Lemma remove_absent_only_prints_witness :
  (forall b, In b (bookmarks (self_bookmarks
                     (Sample.holding [Sample.entry 1 "https://python.org" "docs"] 2))) ->
             id b <> 5%Z)
  /\ remove_bookmark 5 (Sample.holding [Sample.entry 1 "https://python.org" "docs"] 2)
     = (Ret tt, printed (Sample.holding [Sample.entry 1 "https://python.org" "docs"] 2)
                        (not_found_message 5)).
Proof.
  assert (H : forall b, In b (bookmarks (self_bookmarks
                     (Sample.holding [Sample.entry 1 "https://python.org" "docs"] 2))) ->
             id b <> 5%Z).
  { simpl. intros b [<-|[]]. simpl. lia. }
  split; [exact H | exact (remove_absent_only_prints 5 _ H)].
Defined.

(** ** Store: save and load *)

Lemma all_some_json_str (ts : list str) :
  all_some (map json_str (map JStr ts)) = Some ts.
Proof.
  induction ts as [|t ts IH]; simpl; [reflexivity|]. now rewrite IH.
Qed.

Lemma bookmark_of_to_json (b : bookmark) :
  bookmark_of_json (bookmark_to_json b) = Some b.
Proof.
  destruct b as [i l de ts c dom hc].
  unfold bookmark_of_json, bookmark_to_json.
  cbn [dict_get]. eval_keys.
  now rewrite all_some_json_str.
Qed.

Lemma all_some_bookmarks (bs : list bookmark) :
  all_some (map bookmark_of_json (map bookmark_to_json bs)) = Some bs.
Proof.
  induction bs as [|b bs IH]; [reflexivity|].
  cbn [map all_some]. rewrite bookmark_of_to_json, IH. reflexivity.
Qed.

Lemma container_of_to_json (c : container) :
  container_of_json (container_to_json c) = Some c.
Proof.
  destruct c as [bs n].
  unfold container_of_json, container_to_json.
  cbn [dict_get]. eval_keys.
  now rewrite all_some_bookmarks.
Qed.

(** *** What can be written

    Whether [json.dump] can write the document of a container is a matter
    of the strings of its bookmarks. *)

Lemma encodable_app (a b : str) : encodable (a ++ b) = encodable a && encodable b.
Proof. apply forallb_app. Qed.

Lemma hex_digit_plain (n : N) : (n < 16)%N -> is_surrogate (hex_digit n) = false.
Proof.
  intros Hn. unfold is_surrogate, hex_digit. apply andb_false_iff. left.
  apply N.leb_gt. destruct (n <? 10)%N; lia.
Qed.

Lemma encodable_escape (c : N) : encodable (escape c) = negb (is_surrogate c).
Proof.
  unfold escape.
  repeat match goal with
         | |- context [(c =? ?k)%N] =>
             destruct (N.eqb_spec c k); [subst c; reflexivity|]
         end.
  destruct (N.ltb_spec c 32) as [Hc|Hc].
  - assert (H1 : (c / 16 < 16)%N) by (apply N.Div0.div_lt_upper_bound; lia).
    assert (H2 : (c mod 16 < 16)%N) by (apply N.mod_upper_bound; lia).
    cbn [encodable forallb]. rewrite (hex_digit_plain _ H1), (hex_digit_plain _ H2).
    assert (Hs : is_surrogate c = false)
      by (unfold is_surrogate; apply andb_false_iff; left; apply N.leb_gt; lia).
    now rewrite Hs.
  - cbn [encodable forallb]. now rewrite andb_true_r.
Qed.

Lemma encodable_flat_map_escape (s : str) : encodable (flat_map escape s) = encodable s.
Proof.
  induction s as [|c s IH]; [reflexivity|].
  cbn [flat_map]. rewrite encodable_app, encodable_escape, IH. reflexivity.
Qed.

Lemma encodable_basestring (s : str) : encodable (encode_basestring s) = encodable s.
Proof.
  unfold encode_basestring. rewrite !encodable_app, encodable_flat_map_escape.
  cbn. now rewrite andb_true_r.
Qed.

Lemma encodable_digits (fuel : nat) (n : N) (acc : str) :
  encodable acc = true -> encodable (digits fuel n acc) = true.
Proof.
  revert n acc. induction fuel as [|fuel IH]; intros n acc Ha; [exact Ha|].
  cbn [digits].
  assert (Hd : encodable ((48 + n mod 10)%N :: acc) = true).
  { cbn [encodable forallb]. fold (encodable acc). rewrite Ha, andb_true_r.
    apply negb_true_iff. unfold is_surrogate. apply andb_false_iff. left.
    apply N.leb_gt. pose proof (N.mod_upper_bound n 10). lia. }
  destruct (n <? 10)%N; [exact Hd|]. now apply IH.
Qed.

Lemma encodable_str_of_Z (z : Z) : encodable (str_of_Z z) = true.
Proof.
  unfold str_of_Z, str_of_N.
  destruct (z <? 0)%Z; [rewrite encodable_app|]; rewrite encodable_digits; reflexivity.
Qed.

Lemma encodable_newline_indent (level : nat) : encodable (newline_indent level) = true.
Proof.
  unfold newline_indent. rewrite encodable_app.
  induction (2 * level)%nat as [|k IH]; [reflexivity|]. exact IH.
Qed.

(** The chunks of a list of strings can be encoded when the strings
    can. *)
Lemma encodable_string_list (encode : json -> list str) (indent : str) (ts : list str) :
  encodable indent = true ->
  forall first,
    forallb encodable (list_chunks encode indent first (map JStr ts))
    = forallb encodable ts.
Proof.
  intros Hi. induction ts as [|t ts IH]; intros first; [reflexivity|].
  cbn [map list_chunks scalar app forallb]. rewrite IH.
  rewrite !encodable_app, encodable_basestring, Hi.
  destruct first; reflexivity.
Qed.

Ltac closed_encodable :=
  repeat match goal with
         | |- context [encodable (u ?k)] =>
             let r := eval vm_compute in (encodable (u k)) in
             change (encodable (u k)) with r
         end.

Lemma encodable_bookmark (level : nat) (b : bookmark) :
  forallb encodable (iterencode level (bookmark_to_json b)) = bookmark_encodable b.
Proof.
  unfold bookmark_to_json, bookmark_encodable.
  cbn [iterencode dict_chunks scalar app forallb].
  rewrite !forallb_app. cbn [forallb].
  rewrite !encodable_app, !encodable_basestring, !encodable_newline_indent,
    encodable_str_of_Z.
  destruct (tags b) as [|t ts]; cbn [map];
    [|rewrite forallb_app; change (JStr t :: map JStr ts) with (map JStr (t :: ts));
      rewrite encodable_string_list by apply encodable_newline_indent];
    cbn [forallb]; rewrite ?encodable_newline_indent; closed_encodable;
    destruct (has_content b); closed_encodable; cbn [andb];
    rewrite ?andb_true_r, ?andb_assoc; reflexivity.
Qed.

Lemma encodable_bookmark_list (level : nat) (bs : list bookmark) :
  forall first,
    forallb encodable
      (list_chunks (iterencode (S level)) (newline_indent (S level)) first
                   (map bookmark_to_json bs))
    = forallb bookmark_encodable bs.
Proof.
  induction bs as [|b bs IH]; intros first; [reflexivity|].
  cbn [map list_chunks]. unfold bookmark_to_json at 1. cbn [scalar].
  fold (bookmark_to_json b). cbn [app forallb]. rewrite forallb_app, IH.
  rewrite encodable_bookmark, encodable_app, encodable_newline_indent.
  destruct first; reflexivity.
Qed.

(** [json.dump] can write the document of a container if and only if no
    string of the container holds a lone surrogate. *)
Lemma storable_encodable (c : container) :
  json_encodable (container_to_json c) = storable c.
Proof.
  unfold json_encodable, container_to_json, storable.
  cbn [iterencode dict_chunks scalar app forallb].
  rewrite !forallb_app. cbn [forallb].
  rewrite !encodable_app, !encodable_basestring, !encodable_newline_indent,
    encodable_str_of_Z.
  destruct (bookmarks c) as [|b bs]; cbn [map];
    [|rewrite forallb_app;
      change (bookmark_to_json b :: map bookmark_to_json bs)
        with (map bookmark_to_json (b :: bs));
      rewrite encodable_bookmark_list];
    cbn [forallb]; rewrite ?encodable_newline_indent; closed_encodable; cbn [andb];
    rewrite ?andb_true_r; reflexivity.
Qed.

(** *** Saving *)

(** A save that can open the store file and encode every string leaves
    the document of the container in it. *)
Lemma save_writes (s : state) :
  store_writable (disk s) = true ->
  json_encodable (container_to_json (self_bookmarks s)) = true ->
  save_bookmarks s
  = (Ret tt,
     {| self_bookmarks := self_bookmarks s;
        disk := with_store (disk s) (Document (container_to_json (self_bookmarks s)));
        trace := trace s ++ [Dump (container_to_json (self_bookmarks s))] |}).
Proof.
  intros W E.
  unfold save_bookmarks, json_dump. run.
  rewrite W, E. reflexivity.
Qed.

(** A save that cannot open the store file reports the error and leaves
    the file as it was. *)
Lemma save_failure_keeps_file (s : state) :
  store_writable (disk s) = false ->
  save_bookmarks s
  = (Ret tt, printed s (colored (u "❌ Error saving bookmarks: "
                                 ++ message (os_error "Permission denied"))
                                Colors.RED [])).
Proof.
  intros W.
  unfold save_bookmarks, json_dump. run.
  rewrite W. reflexivity.
Qed.

(** A save that meets a string it cannot encode raises: the
    [UnicodeEncodeError] is no [OSError].  The store file, emptied when it
    was opened, holds what had been written of the document. *)
Lemma save_raises (s : state) :
  store_writable (disk s) = true ->
  json_encodable (container_to_json (self_bookmarks s)) = false ->
  save_bookmarks s
  = (Raise unicode_encode_error,
     {| self_bookmarks := self_bookmarks s;
        disk := with_store (disk s)
                  (NotJson (written (iterencode 0 (container_to_json (self_bookmarks s)))));
        trace := trace s ++ [Dump (container_to_json (self_bookmarks s))] |}).
Proof.
  intros W E.
  unfold save_bookmarks, json_dump. run.
  rewrite W, E. reflexivity.
Qed.

(** [save_bookmarks] in one equation: how it ends and what it leaves. *)
Lemma save_bookmarks_disk (s : state) :
  exists t, save_bookmarks s
            = (saving (self_bookmarks s) (disk s),
               {| self_bookmarks := self_bookmarks s;
                  disk := saved (self_bookmarks s) (disk s);
                  trace := trace s ++ t |}).
Proof.
  unfold saved, saving. destruct (store_writable (disk s)) eqn:W.
  - destruct (json_encodable (container_to_json (self_bookmarks s))) eqn:E.
    + rewrite (save_writes s W E). eexists. reflexivity.
    + rewrite (save_raises s W E). eexists. reflexivity.
  - rewrite (save_failure_keeps_file s W). eexists. reflexivity.
Qed.

(** *** Loading *)

Lemma load_well_formed (c : container) (s : state) :
  store_readable (disk s) = true ->
  store_file (disk s) = Some (Document (container_to_json c)) ->
  load_bookmarks s = (Ret (container_to_json c), s).
Proof.
  intros R F.
  unfold load_bookmarks, json_load. run.
  rewrite !F, R. cbn [negb].
  unfold container_to_json, py_in. cbn [dict_get]. eval_keys. reflexivity.
Qed.

(** The part of C9 that holds: when no string of the container holds a
    lone surrogate and the store file can be opened, a save returns, and a
    manager started on the files it leaves, whatever that manager holds in
    memory, loads the document of the saved container, which reads back as
    the very same container. *)
Lemma storable_container_roundtrip (s : state) (c0 : container) (t0 : list event) :
  store_writable (disk s) = true ->
  store_readable (disk s) = true ->
  storable (self_bookmarks s) = true ->
  exists s1,
    save_bookmarks s = (Ret tt, s1)
    /\ load_bookmarks {| self_bookmarks := c0; disk := disk s1; trace := t0 |}
       = (Ret (container_to_json (self_bookmarks s)),
          {| self_bookmarks := c0; disk := disk s1; trace := t0 |})
    /\ container_of_json (container_to_json (self_bookmarks s))
       = Some (self_bookmarks s).
Proof.
  intros W R St. rewrite <- storable_encodable in St.
  rewrite (save_writes s W St). eexists. split; [reflexivity|].
  cbn [disk]. split; [|apply container_of_to_json].
  apply load_well_formed; [exact R|reflexivity].
Qed.

(** C9, evaluated where the code departs from the claim.  The store file
    holds one bookmark, and [add] is given a description that is the lone
    surrogate U+DCFF, which is what the byte 0xFF of a command-line
    argument becomes.  The new bookmark is appended in memory and
    [save_bookmarks] opens the store file, which empties it; [json.dump]
    then raises [UnicodeEncodeError] at the description, and [except
    OSError] does not catch it.  The file is left with the beginning of the
    document, and a manager started afterwards loads the empty default
    with the warning: what was saved before does not come back. *)
Theorem save_with_surrogate_loses_store :
  let kept := Sample.entry 1 "https://python.org" "docs" in
  let before := {| bookmarks := [kept]; next_id := 2 |} in
  let s := on_disk (Sample.holding [kept] 2) (Document (container_to_json before)) in
  fst (load_bookmarks s) = Ret (container_to_json before)
  /\ (let '(r, s') := @add_bookmark Sample.bare (Sample.serving (u "<p>Hello</p>"))
                        (u "example.com") [56575%N] [] s in
      r = Raise unicode_encode_error
      /\ map id (bookmarks (self_bookmarks s')) = [1; 2]%Z
      /\ (exists text, store_file (disk s') = Some (NotJson text))
      /\ load_bookmarks {| self_bookmarks := empty_container; disk := disk s';
                           trace := [] |}
         = (Ret empty_document,
            {| self_bookmarks := empty_container; disk := disk s';
               trace := [Print corrupted_warning] |})).
Proof.
  vm_compute. split; [reflexivity|]. split; [reflexivity|]. split; [reflexivity|].
  split; [eexists; reflexivity|reflexivity].
Qed.

(** The claim C3 as the spec words it: whatever the store file holds, if it
    is not a well-formed store document then [load] gives the empty default
    and prints the warning. *)
Definition load_defaults_on_every_ill_formed_file : Prop :=
  forall (f : file_content) (s : state),
    well_formed_document f = false ->
    load_bookmarks (on_disk s f)
    = (Ret empty_document, printed (on_disk s f) corrupted_warning).

(** C3, counterexample: the file [{"next_id": 7}] is not a store document,
    yet [load] returns it with [bookmarks] filled in, not the empty default,
    and prints no warning. *)
Lemma load_keeps_partial_object :
  well_formed_document (Document (JDict [(u "next_id", JInt 7)])) = false
  /\ load_bookmarks (on_disk Sample.fresh (Document (JDict [(u "next_id", JInt 7)])))
     = (Ret (JDict [(u "next_id", JInt 7); (u "bookmarks", JList [])]),
        on_disk Sample.fresh (Document (JDict [(u "next_id", JInt 7)])))
  /\ ~ load_defaults_on_every_ill_formed_file.
Proof.
  split; [reflexivity|]. split; [reflexivity|].
  intros H.
  specialize (H (Document (JDict [(u "next_id", JInt 7)])) Sample.fresh eq_refl).
  discriminate H.
Qed.

(** A document that is JSON but no object makes [load] raise: the
    [TypeError] of the membership test or of the item assignment is not
    among the exceptions the [except] clause names. *)
Lemma load_raises_on_non_object :
  fst (load_bookmarks (on_disk Sample.fresh (Document (JList []))))
  = Raise (type_error "list indices must be integers or slices, not str")
  /\ fst (load_bookmarks (on_disk Sample.fresh (Document (JInt 5))))
     = Raise (type_error "argument is not iterable").
Proof. split; reflexivity. Qed.

(** C3, amended: a missing file gives the empty default and no warning; a
    file that is not UTF-8 or not JSON gives the empty default and the
    warning, and nothing is raised; a file holding a JSON object is returned
    without a warning, [bookmarks] and [next_id] being set to [[]] and [1]
    where the object lacks them. *)
Theorem load_recovers (s : state) :
  (store_file (disk s) = None -> load_bookmarks s = (Ret empty_document, s))
  /\ (store_readable (disk s) = true ->
      (store_file (disk s) = Some NotUtf8
       \/ exists t, store_file (disk s) = Some (NotJson t)) ->
      load_bookmarks s = (Ret empty_document, printed s corrupted_warning))
  /\ (store_readable (disk s) = true ->
      forall d, store_file (disk s) = Some (Document (JDict d)) ->
      load_bookmarks s
      = (Ret (JDict (dict_setdefault
                       (dict_setdefault d (u "bookmarks") (JList []))
                       (u "next_id") (JInt 1))), s)).
Proof.
  repeat split.
  - intros F. unfold load_bookmarks, bind, gets, ret. now rewrite F.
  - intros R [F|[t F]];
      unfold load_bookmarks, json_load; run;
      rewrite !F, R; reflexivity.
  - intros R d F.
    unfold load_bookmarks, json_load. run.
    rewrite !F, R. cbn [negb py_in].
    unfold dict_setdefault at 2.
    destruct (dict_get d (u "bookmarks")); cbn [negb py_setitem py_in];
      unfold dict_setdefault;
      match goal with |- context [dict_get ?x (u "next_id")] =>
        destruct (dict_get x (u "next_id")) end; reflexivity.
Qed.

Lemma load_recovers_witness :
  load_bookmarks Sample.fresh = (Ret empty_document, Sample.fresh)
  /\ load_bookmarks (on_disk Sample.fresh (NotJson (u "{oops")))
     = (Ret empty_document, printed (on_disk Sample.fresh (NotJson (u "{oops")))
                                    corrupted_warning)
  /\ load_bookmarks (on_disk Sample.fresh (Document (JDict [])))
     = (Ret empty_document, on_disk Sample.fresh (Document (JDict []))).
Proof.
  split; [|split].
  - exact (proj1 (load_recovers Sample.fresh) eq_refl).
  - exact (proj1 (proj2 (load_recovers (on_disk Sample.fresh (NotJson (u "{oops")))))
                 eq_refl (or_intror (ex_intro _ (u "{oops") eq_refl))).
  - exact (proj2 (proj2 (load_recovers (on_disk Sample.fresh (Document (JDict [])))))
                 eq_refl [] eq_refl).
Defined.

(** ** Search *)

Lemma announced_kind (kind : match_type) :
  announced (colored ((match kind with Metadata => u "📝" | Content => u "📄" end)
                      ++ u " Found in " ++ match_type_str kind ++ u ":")
                     Colors.CYAN [])
  = Some kind.
Proof. destruct kind; vm_compute; reflexivity. Qed.

(** What [report_matches] leaves in the trace: the report of its
    matches, also when another line was printed just before. *)
Lemma report_matches_reports (ms : list (bookmark * match_type)) (s : state) :
  exists t,
    report_matches ms s
    = (Ret tt, {| self_bookmarks := self_bookmarks s; disk := disk s;
                  trace := trace s ++ t |})
    /\ reports t = ms
    /\ forall text, reports (Print text :: t) = ms.
Proof.
  revert s. induction ms as [|[b k] ms IH]; intros s.
  - exists []. cbn [report_matches]. unfold ret. rewrite app_nil_r.
    split; [now destruct s|]. split; reflexivity.
  - cbn [report_matches]. unfold bind at 1, print, emit, modify.
    unfold bind at 1.
    match goal with |- context [report_matches ms ?x] =>
      destruct (IH x) as (t & E & R & _) end.
    rewrite E. cbn [self_bookmarks disk trace]. rewrite <- !app_assoc.
    eexists. split; [reflexivity|]. cbn [app reports].
    rewrite announced_kind. cbn [app]. rewrite R. split; reflexivity.
Qed.

Section Search.
Context `{Platform}.

(** What [search_bookmarks] goes on to report. *)
Lemma search_bookmarks_reports (query : str) (s : state) :
  search_bookmarks query s
  = match search_matches (disk s) (lower query) (bookmarks (self_bookmarks s)) with
    | [] => print (colored (u "🔍 No bookmarks found matching '" ++ query ++ u "'")
                           Colors.YELLOW []) s
    | m :: ms =>
        (print (colored (u "🔍 Found " ++ str_of_nat (List.length (m :: ms))
                         ++ u " bookmark(s) matching '" ++ query ++ u "'")
                        Colors.BLUE Colors.BOLD) ;;
         print [] ;;
         report_matches (m :: ms)) s
    end.
Proof.
  unfold search_bookmarks. unfold bind at 1, get_state.
  destruct (search_matches (disk s) (lower query) (bookmarks (self_bookmarks s)));
    reflexivity.
Qed.

Lemma search_matches_other_ids (d : fs) (q : str) (bs : list bookmark) (i : Z) :
  (forall b, In b bs -> id b <> i) ->
  filter (fun m => (id (fst m) =? i)%Z) (search_matches d q bs) = [].
Proof.
  induction bs as [|b bs IH]; intros Hi; [reflexivity|].
  assert (Hb : (id b =? i)%Z = false) by (apply Z.eqb_neq, Hi; left; reflexivity).
  assert (IH' := IH (fun b' Hb' => Hi b' (or_intror Hb'))).
  cbn [search_matches].
  destruct (contains q (lower (searchable b))); [|destruct (content_matches d q b)];
    cbn [filter fst]; rewrite ?Hb; exact IH'.
Qed.

Lemma search_matches_in_storage_order (d : fs) (q : str) (bs : list bookmark) :
  map fst (search_matches d q bs)
  = filter (fun b => contains q (lower (searchable b)) || content_matches d q b) bs.
Proof.
  induction bs as [|b bs IH]; [reflexivity|].
  cbn [search_matches filter].
  destruct (contains q (lower (searchable b))); cbn [orb];
    [|destruct (content_matches d q b)]; cbn [map fst]; now rewrite IH.
Qed.

Lemma search_matches_kinds (d : fs) (q : str) (bs : list bookmark) :
  Forall (fun r => snd r = if contains q (lower (searchable (fst r)))
                           then Metadata else Content)
         (search_matches d q bs).
Proof.
  induction bs as [|b bs IH]; [constructor|]. cbn [search_matches].
  destruct (contains q (lower (searchable b))) eqn:E;
    [|destruct (content_matches d q b)];
    try (constructor; [cbn [fst snd]; now rewrite E|]); exact IH.
Qed.

(** C4: [search] reports the stored bookmarks that match, each one once
    and in storage order: the bookmarks of the report lines, in the order
    printed, are the stored bookmarks that match in their metadata or in
    their cached content, in the order stored.  The kind announced for a
    bookmark is [metadata] whenever its metadata matches, whether or not
    its cached content matches too, and [content] otherwise. *)
Theorem search_reports_metadata_once (query : str) (s : state) :
  exists t,
    search_bookmarks query s
    = (Ret tt, {| self_bookmarks := self_bookmarks s; disk := disk s;
                  trace := trace s ++ t |})
    /\ map fst (reports t)
       = filter (fun b => contains (lower query) (lower (searchable b))
                          || content_matches (disk s) (lower query) b)
                (bookmarks (self_bookmarks s))
    /\ Forall (fun r => snd r = if contains (lower query) (lower (searchable (fst r)))
                                then Metadata else Content)
              (reports t).
Proof.
  rewrite search_bookmarks_reports.
  pose proof (search_matches_in_storage_order (disk s) (lower query)
                (bookmarks (self_bookmarks s))) as O.
  pose proof (search_matches_kinds (disk s) (lower query)
                (bookmarks (self_bookmarks s))) as K.
  destruct (search_matches (disk s) (lower query) (bookmarks (self_bookmarks s)))
    as [|m ms].
  - eexists. split; [reflexivity|]. split; [exact O|constructor].
  - unfold bind at 1, print, emit, modify. unfold bind at 1.
    match goal with |- context [report_matches (m :: ms) ?x] =>
      destruct (report_matches_reports (m :: ms) x) as (t & E & R & R') end.
    rewrite E. cbn [self_bookmarks disk trace]. rewrite <- !app_assoc.
    eexists. split; [reflexivity|]. cbn [app].
    change (reports (Print ?a :: Print ?b :: t)) with (reports (Print b :: t)).
    rewrite R'. split; [exact O|exact K].
Qed.

End Search.

(** Evaluated: the first bookmark matches the query in its url and in its
    cached text, the second in its cached text only; [search] announces
    the first once, as found in metadata, and the second as found in
    content. *)
Example search_announces_kinds :
  let b1 := Sample.entry 1 "https://python.org" "docs" in
  let b2 := Sample.entry 2 "https://example.com" "misc" in
  let s := {| self_bookmarks := {| bookmarks := [b1; b2]; next_id := 3 |};
              disk := cached (cached Sample.empty_disk 1 (u "Welcome to Python"))
                             2 (u "About python");
              trace := [] |} in
  reports (trace (snd (@search_bookmarks Sample.bare (u "Python") s)))
  = [(b1, Metadata); (b2, Content)].
Proof. vm_compute. reflexivity. Qed.

(** ** Operations that only print *)

Lemma same_store_refl s : same_store s s.
Proof. split; reflexivity. Qed.

Lemma same_store_trans s1 s2 s3 :
  same_store s1 s2 -> same_store s2 s3 -> same_store s1 s3.
Proof. intros [A B] [C D]. split; congruence. Qed.

Lemma keeps_ret {A} (a : A) : keeps_store (ret a).
Proof. intros s. apply same_store_refl. Qed.

Lemma keeps_raise {A} (e : exn) : keeps_store (@raise A e).
Proof. intros s. apply same_store_refl. Qed.

Lemma keeps_lift {A} (o : outcome A) : keeps_store (lift o).
Proof. intros s. apply same_store_refl. Qed.

Lemma keeps_print (text : str) : keeps_store (print text).
Proof. intros s. split; reflexivity. Qed.

Lemma keeps_bind {A B} (c : M A) (k : A -> M B) :
  keeps_store c -> (forall a, keeps_store (k a)) -> keeps_store (bind c k).
Proof.
  intros Hc Hk s. unfold bind. specialize (Hc s).
  destruct (c s) as [[a|e] s1]; cbn [snd] in *; [|exact Hc].
  eapply same_store_trans; [exact Hc|apply Hk].
Qed.

Lemma keeps_try {A} (c : M A) (h : exn -> option (M A)) :
  keeps_store c -> (forall e k, h e = Some k -> keeps_store k) ->
  keeps_store (try_except c h).
Proof.
  intros Hc Hh s. unfold try_except. specialize (Hc s).
  destruct (c s) as [[a|e] s1]; cbn [snd] in *; [exact Hc|].
  destruct (h e) as [k|] eqn:E; [|exact Hc].
  eapply same_store_trans; [exact Hc|apply (Hh e k E)].
Qed.

Lemma keeps_subprocess_run (p : proc) : keeps_store (subprocess_run p).
Proof. destruct p; [apply keeps_ret|apply keeps_raise]. Qed.

Lemma keeps_browser_handlers (name : string) (e : exn) (k : M str) :
  browser_handlers name e = Some k -> keeps_store k.
Proof.
  unfold browser_handlers. intros E.
  destruct (isinstance e TimeoutExpired); [injection E as <-; apply keeps_ret|].
  destruct (isinstance e FileNotFoundError); [injection E as <-; apply keeps_ret|].
  destruct (isinstance e Exception); [injection E as <-; apply keeps_ret|discriminate].
Qed.

Lemma keeps_fetch_with_links (w : env) (url : str) : keeps_store (fetch_with_links w url).
Proof.
  apply keeps_try; [|apply keeps_browser_handlers].
  apply keeps_bind; [apply keeps_print|intros _].
  apply keeps_bind; [apply keeps_subprocess_run|intros r; apply keeps_ret].
Qed.

Lemma keeps_fetch_with_lynx (w : env) (url : str) : keeps_store (fetch_with_lynx w url).
Proof.
  apply keeps_try; [|apply keeps_browser_handlers].
  apply keeps_bind; [apply keeps_print|intros _].
  apply keeps_bind; [apply keeps_subprocess_run|intros [[rc out] err]].
  apply keeps_bind; [|intros r; apply keeps_ret].
  destruct (negb (rc =? 0)%Z); [apply keeps_subprocess_run|apply keeps_ret].
Qed.

Section Fetch_keeps.
Context `{Platform}.

Lemma keeps_html2text (html : str) : keeps_store (extract_text_with_html2text html).
Proof.
  apply keeps_try.
  - apply keeps_bind; [apply keeps_lift|intros t; apply keeps_ret].
  - intros e k E. destruct (isinstance e Exception); [|discriminate].
    injection E as <-. apply keeps_ret.
Qed.

Lemma keeps_requests_get_checked (w : env) : keeps_store (requests_get_checked w).
Proof.
  unfold requests_get_checked.
  destruct (requests_get w) as [r|e]; [|apply keeps_raise].
  destruct (raise_for_status r); [apply keeps_raise|apply keeps_ret].
Qed.

(** The Fetcher touches neither the manager object nor any file. *)
Lemma keeps_fetch_page_text (w : env) (url : str) : keeps_store (fetch_page_text w url).
Proof.
  unfold fetch_page_text.
  destruct HAS_LINKS; [apply keeps_fetch_with_links|].
  destruct HAS_LYNX; [apply keeps_fetch_with_lynx|].
  destruct HAS_REQUESTS; cbn [negb]; [|apply keeps_ret].
  apply keeps_try.
  - apply keeps_bind; [apply keeps_print|intros _].
    apply keeps_bind; [apply keeps_requests_get_checked|intros r].
    destruct (negb _).
    + destruct (contains (u "application/json") _); [apply keeps_ret|].
      destruct (contains (u "text/") _); apply keeps_ret.
    + destruct HAS_HTML2TEXT; [apply keeps_html2text|].
      destruct HAS_BEAUTIFULSOUP; [apply keeps_raise|apply keeps_ret].
  - intros e k E.
    destruct (isinstance e RequestException); [injection E as <-; apply keeps_ret|].
    destruct (isinstance e Exception); [injection E as <-; apply keeps_ret|discriminate].
Qed.

End Fetch_keeps.

(** ** Store: add *)

Section Add.
Context `{Platform}.

Lemma add_bookmark_unfold (w : env) (url description : str) (tags : list str) (s : state) :
  let c := self_bookmarks s in
  add_bookmark w url description tags s
  = bind (lift (netloc (normalized url)))
      (fun dom => bind (fetch_page_text w (normalized url)) (fun content =>
         bind (if truthy content
               then try_except (write_cache (next_id c) content ;;
                                print rendered_with ;; ret true)
                               (except_OSError (ret false))
               else ret false)
           (fun hc => bind (gets self_bookmarks) (fun c0 =>
              set_bookmarks
                {| bookmarks := bookmarks c0 ++
                     [{| id := next_id c; url := normalized url;
                         description := description; tags := tags;
                         created := now w; domain := dom;
                         has_content := hc |}];
                   next_id := next_id c0 |} ;;
              save_bookmarks ;;
              print (added_message (next_id c) (normalized url)) ;;
              when (truthy description)
                   (print (colored (u "📝 Description: " ++ description)
                                   Colors.GRAY [])) ;;
              when (match tags with [] => false | _ => true end)
                   (print (colored (u "🏷️  Tags: " ++ join (u ", ") tags)
                                   Colors.GRAY []))))))
      (assigned s).
Proof. reflexivity. Qed.

Lemma add_raises_before_fetch (w : env) (url description : str) (tags : list str)
      (s : state) (e : exn) :
  netloc (normalized url) = Raise e ->
  add_bookmark w url description tags s = (Raise e, assigned s).
Proof.
  intros N. rewrite add_bookmark_unfold. unfold bind at 1, lift. now rewrite N.
Qed.

Lemma add_raises_in_fetch (w : env) (url description : str) (tags : list str)
      (s s2 : state) (dom : str) (e : exn) :
  netloc (normalized url) = Ret dom ->
  fetch_page_text w (normalized url) (assigned s) = (Raise e, s2) ->
  add_bookmark w url description tags s = (Raise e, s2).
Proof.
  intros N F. rewrite add_bookmark_unfold. unfold bind at 1, lift. rewrite N.
  unfold bind at 1. now rewrite F.
Qed.

(** The state an add ends in, given what the Fetcher returned: the new
    bookmark is appended, the cache file is written if the text is not
    empty and the file can be written, and the add ends as the save of the
    new container does. *)
Lemma add_bookmark_state (w : env) (url description : str) (tags : list str)
      (s s2 : state) (dom content : str) :
  netloc (normalized url) = Ret dom ->
  fetch_page_text w (normalized url) (assigned s) = (Ret content, s2) ->
  let c := self_bookmarks s in
  let hc := truthy content && cache_writable (disk s) (next_id c) in
  let c' := {| bookmarks :=
                 bookmarks c ++
                 [{| id := next_id c; url := normalized url;
                     description := description; tags := tags;
                     created := now w; domain := dom; has_content := hc |}];
               next_id := next_id c + 1 |} in
  let d' := if hc then cached (disk s) (next_id c) content else disk s in
  exists t,
    add_bookmark w url description tags s
    = (saving c' d',
       {| self_bookmarks := c'; disk := saved c' d'; trace := trace s2 ++ t |})
    /\ (saving c' d' = Ret tt ->
        In (Print (added_message (next_id c) (normalized url))) t).
Proof.
  intros N F c hc c' d'. rewrite add_bookmark_unfold. fold c.
  unfold bind at 1, lift. rewrite N. unfold bind at 1. rewrite F.
  pose proof (keeps_fetch_page_text w (normalized url) (assigned s)) as K.
  rewrite F in K. cbn [snd] in K. destruct K as [K1 K2].
  cbn [self_bookmarks disk assigned] in K1, K2. fold c in K1.
  unfold bind at 1.
  assert (Hc : exists t3,
             (if truthy content
              then try_except (write_cache (next_id c) content ;;
                               print rendered_with ;; ret true)
                              (except_OSError (ret false))
              else ret false) s2
             = (Ret hc, {| self_bookmarks := self_bookmarks s2; disk := d';
                           trace := trace s2 ++ t3 |})).
  { subst hc d'. destruct (truthy content).
    - unfold write_cache, except_OSError. run. rewrite K2.
      destruct (cache_writable (disk s) (next_id c)); cbn [negb andb]; cbv beta iota;
        cbn [isinstance cls os_error exn_class_eqb orb self_bookmarks disk trace];
        cbv beta iota; rewrite ?K2;
        [eexists; reflexivity
        |exists []; rewrite app_nil_r, <- K2; now destruct s2].
    - exists []. unfold ret. rewrite app_nil_r, <- K2. now destruct s2. }
  destruct Hc as (t3 & ->). cbv beta iota.
  unfold bind at 1, gets. unfold bind at 1, set_bookmarks, modify.
  cbn [self_bookmarks disk trace]. rewrite K1. cbn [bookmarks next_id]. fold c'.
  unfold bind at 1.
  match goal with |- context [save_bookmarks ?x] =>
    destruct (save_bookmarks_disk x) as (t & E); rewrite E end.
  cbn [self_bookmarks disk trace].
  destruct (saving c' d') as [[]|e].
  - run. destruct (truthy description); destruct tags; cbv beta iota;
      cbn [self_bookmarks disk trace]; rewrite <- ?app_assoc;
      (eexists; split; [reflexivity|]); intros _; unfold added_message;
      in_list.
  - rewrite <- ?app_assoc. eexists. split; [reflexivity|]. intros D. discriminate D.
Qed.

Lemma add_bookmark_container (w : env) (url description : str) (tags : list str) (s : state) :
  match add_bookmark w url description tags s with
  | (Ret _, s') =>
      exists b, bookmarks (self_bookmarks s') = bookmarks (self_bookmarks s) ++ [b]
                /\ id b = next_id (self_bookmarks s)
                /\ next_id (self_bookmarks s') = (next_id (self_bookmarks s) + 1)%Z
  | (Raise _, s') =>
      next_id (self_bookmarks s') = (next_id (self_bookmarks s) + 1)%Z
      /\ (bookmarks (self_bookmarks s') = bookmarks (self_bookmarks s)
          \/ exists b, bookmarks (self_bookmarks s') = bookmarks (self_bookmarks s) ++ [b]
                       /\ id b = next_id (self_bookmarks s))
  end.
Proof.
  destruct (netloc (normalized url)) as [dom|e] eqn:N.
  - destruct (fetch_page_text w (normalized url) (assigned s)) as [[content|e] s2] eqn:F.
    + destruct (add_bookmark_state w url description tags s s2 dom content N F)
        as (t & E & _). rewrite E.
      match goal with |- context [saving ?c ?d] => destruct (saving c d) as [[]|e] end;
        cbn [self_bookmarks bookmarks next_id].
      * eexists. repeat split.
      * split; [reflexivity|]. right. eexists. split; reflexivity.
    + rewrite (add_raises_in_fetch w url description tags s s2 dom e N F).
      pose proof (keeps_fetch_page_text w (normalized url) (assigned s)) as K.
      rewrite F in K. destruct K as [K1 _]. cbn [snd] in K1. rewrite K1.
      split; [reflexivity|now left].
  - rewrite (add_raises_before_fetch w url description tags s e N).
    split; [reflexivity|now left].
Qed.

End Add.

(** ** Store: ids over sequences of operations *)

Lemma find_none_filter (i : Z) (bs : list bookmark) :
  find (fun b => (id b =? i)%Z) bs = None ->
  filter (fun b => negb (id b =? i)%Z) bs = bs.
Proof.
  induction bs as [|b bs IH]; cbn [find filter]; [reflexivity|].
  destruct (id b =? i)%Z; [discriminate|]. intros E. cbn [negb]. now rewrite IH.
Qed.

(** How a save ended, once known, settles the [save_bookmarks] that the
    goal has reached. *)
Ltac settle_saving Sv :=
  match type of Sv with
  | saving ?X ?Y = _ =>
      match goal with
      | |- context [saving ?A ?B] => change (saving A B) with (saving X Y)
      end
  end;
  rewrite Sv.

(** The state a remove of a stored id ends in: the bookmarks of that id
    are dropped, the cache file is unlinked if it is there and can be, and
    the remove ends as the save of what is left does. *)
Lemma remove_bookmark_state (i : Z) (s : state) (b : bookmark) :
  lookup i (self_bookmarks s) = Some b ->
  let c' := without i (self_bookmarks s) in
  let d' := match cache_files (disk s) i with
            | Some _ => if cache_removable (disk s) i
                        then uncached (disk s) i else disk s
            | None => disk s
            end in
  exists t,
    remove_bookmark i s
    = (saving c' d',
       {| self_bookmarks := c'; disk := saved c' d'; trace := trace s ++ t |}).
Proof.
  intros Fd c' d'. unfold lookup in Fd. unfold remove_bookmark, find_bookmark.
  unfold bind at 1, gets. unfold bind at 1, ret. rewrite Fd.
  unfold cache_exists, unlink_cache, except_OSError. run. cbn [disk].
  subst c' d'.
  destruct (cache_files (disk s) i);
    cbn -[save_bookmarks colored u str_of_Z saved saving];
    [destruct (cache_removable (disk s) i)|];
    cbn -[save_bookmarks colored u str_of_Z saved saving];
    match goal with |- context [save_bookmarks ?x] =>
      destruct (save_bookmarks_disk x) as (t & E); rewrite E end;
    cbn [self_bookmarks disk trace];
    match goal with |- exists _, _ = (saving ?c ?d, _) =>
      destruct (saving c d) as [[]|e] eqn:Sv end;
    try settle_saving Sv; cbv beta iota; cbn [self_bookmarks disk trace];
    rewrite <- ?app_assoc; eexists; reflexivity.
Qed.

Lemma remove_not_found (i : Z) (s : state) :
  lookup i (self_bookmarks s) = None ->
  remove_bookmark i s = (Ret tt, printed s (not_found_message i)).
Proof.
  unfold lookup. intros Fd. unfold remove_bookmark, find_bookmark. run.
  now rewrite Fd.
Qed.

Lemma remove_bookmark_container (i : Z) (s : state) :
  exists r s', remove_bookmark i s = (r, s')
               /\ bookmarks (self_bookmarks s')
                  = filter (fun b => negb (id b =? i)%Z) (bookmarks (self_bookmarks s))
               /\ next_id (self_bookmarks s') = next_id (self_bookmarks s).
Proof.
  destruct (lookup i (self_bookmarks s)) as [b|] eqn:Fd.
  - destruct (remove_bookmark_state i s b Fd) as (t & E). rewrite E.
    do 2 eexists. split; [reflexivity|]. split; reflexivity.
  - rewrite (remove_not_found i s Fd). do 2 eexists. split; [reflexivity|].
    cbn [printed self_bookmarks]. rewrite (find_none_filter _ _ Fd). split; reflexivity.
Qed.

Lemma max_assigned_ge (h : list Z) (x : Z) : In x h -> (x <= max_assigned h)%Z.
Proof.
  induction h as [|y h IH]; cbn [In max_assigned fold_right]; [tauto|].
  intros [->|Hx]; [lia|]. specialize (IH Hx). unfold max_assigned in IH. lia.
Qed.

Lemma max_assigned_le (h : list Z) (m : Z) :
  (0 <= m)%Z -> (forall x, In x h -> (x <= m)%Z) -> (max_assigned h <= m)%Z.
Proof.
  intros Hm. induction h as [|y h IH]; cbn [max_assigned fold_right]; intros Hh; [lia|].
  assert (y <= m)%Z by (apply Hh; left; reflexivity).
  assert (max_assigned h <= m)%Z by (apply IH; intros x Hx; apply Hh; right; exact Hx).
  unfold max_assigned in *. lia.
Qed.

Lemma max_assigned_nonneg (h : list Z) : (0 <= max_assigned h)%Z.
Proof. induction h; cbn [max_assigned fold_right]; unfold max_assigned in *; lia. Qed.

Lemma max_assigned_app (a b : list Z) :
  max_assigned (a ++ b) = Z.max (max_assigned a) (max_assigned b).
Proof.
  induction a as [|x a IH]; cbn [app max_assigned fold_right].
  - pose proof (max_assigned_nonneg b). unfold max_assigned in *. lia.
  - unfold max_assigned in *. rewrite IH. lia.
Qed.

Section Ids.
Context `{Platform}.

Lemma add_step_ok (history : list Z) (w : env) (url description : str) (tags : list str)
      (s s' : state) (r : outcome unit) :
  well_formed history (self_bookmarks s) ->
  add_bookmark w url description tags s = (r, s') ->
  step_ok history (s, Add w url description tags, r, s')
  /\ (forall u', r = Ret u' ->
      well_formed (history ++ stored_ids s') (self_bookmarks s')).
Proof.
  intros [Hn Hs] E.
  pose proof (add_bookmark_container w url description tags s) as A.
  rewrite E in A.
  assert (Hold : forall b, In b (bookmarks (self_bookmarks s)) ->
                           (id b < next_id (self_bookmarks s))%Z).
  { intros b Hb. pose proof (max_assigned_ge _ _ (Hs b Hb)). lia. }
  destruct r as [[]|e].
  - destruct A as (b & Hb & Hi & Hn').
    split; [split|].
    + intros b' Hb'. rewrite Hb in Hb'. apply in_app_or in Hb'.
      destruct Hb' as [Hb'|[<-|[]]]; [specialize (Hold b' Hb')|]; lia.
    + exists b. split; [exact Hb|]. split; [lia|].
      intros Hin. pose proof (max_assigned_ge _ _ Hin). lia.
    + intros u' _. split.
      * rewrite max_assigned_app.
        assert (max_assigned (stored_ids s') = id b) as ->.
        { apply Z.le_antisymm.
          - apply max_assigned_le; [pose proof (max_assigned_nonneg history); lia|].
            intros x Hx. unfold stored_ids in Hx. rewrite Hb, map_app in Hx.
            apply in_app_or in Hx. destruct Hx as [Hx|[<-|[]]]; [|lia].
            apply in_map_iff in Hx. destruct Hx as (b' & <- & Hb').
            specialize (Hold b' Hb'). lia.
          - apply max_assigned_ge. unfold stored_ids. rewrite Hb, map_app.
            apply in_or_app. right. left. reflexivity. }
        lia.
      * intros b' Hb'. apply in_or_app. right. unfold stored_ids. now apply in_map.
  - destruct A as [Hn' A]. split; [split|intros u' Hu; discriminate Hu].
    + intros b' Hb'. destruct A as [A|(b & A & Hi)]; rewrite A in Hb'.
      * specialize (Hold b' Hb'). lia.
      * apply in_app_or in Hb'.
        destruct Hb' as [Hb'|[<-|[]]]; [specialize (Hold b' Hb')|]; lia.
    + destruct A as [A|(b & A & Hi)]; [now left|right].
      exists b. split; [exact A|]. split; [lia|].
      intros Hin. pose proof (max_assigned_ge _ _ Hin). lia.
Qed.

Lemma remove_step_ok (history : list Z) (i : Z) (s s' : state) (r : outcome unit) :
  well_formed history (self_bookmarks s) ->
  remove_bookmark i s = (r, s') ->
  step_ok history (s, Remove i, r, s')
  /\ well_formed (history ++ stored_ids s') (self_bookmarks s').
Proof.
  intros [Hn Hs] E.
  destruct (remove_bookmark_container i s) as (r0 & s0 & E0 & Hb & Hn').
  rewrite E in E0. injection E0 as -> ->.
  assert (Hsub : forall b, In b (bookmarks (self_bookmarks s0)) ->
                           In b (bookmarks (self_bookmarks s))).
  { intros b Hin. rewrite Hb in Hin. now apply filter_In in Hin. }
  split; [split|split].
  - intros b Hin. pose proof (max_assigned_ge _ _ (Hs b (Hsub b Hin))). lia.
  - split; assumption.
  - rewrite max_assigned_app, Hn', Hn.
    assert (max_assigned (stored_ids s0) <= max_assigned history)%Z; [|lia].
    apply max_assigned_le; [apply max_assigned_nonneg|].
    intros x Hx. apply in_map_iff in Hx. destruct Hx as (b & <- & Hin).
    apply max_assigned_ge, Hs, Hsub, Hin.
  - intros b Hin. apply in_or_app. left. apply Hs, Hsub, Hin.
Qed.

(** C5: along every sequence of adds and removes that starts from a
    container well formed for the ids handed out so far, each bookmark that
    an add appends carries the largest id ever handed out plus one, an id
    that was never handed out before; a remove only drops bookmarks and
    leaves [next_id] alone; and after every step [next_id] is greater than
    every stored id. *)
Theorem ids_never_reused (ops : list op) (s : state) (history : list Z) :
  well_formed history (self_bookmarks s) ->
  ids_monotone history (steps ops s).
Proof.
  revert s history. induction ops as [|o ops IH]; intros s history W; [exact I|].
  cbn [steps]. destruct (run_op o s) as [r s'] eqn:E.
  cbn [ids_monotone snd].
  destruct o as [w url description tags|i]; cbn [run_op] in E.
  - destruct (add_step_ok history w url description tags s s' r W E) as [Hstep Hw].
    split; [exact Hstep|].
    destruct r as [[]|e]; [|exact I]. apply IH. now apply (Hw tt).
  - destruct (remove_step_ok history i s s' r W E) as [Hstep Hw].
    split; [exact Hstep|].
    destruct r as [[]|e]; [|exact I]. apply IH. exact Hw.
Qed.

End Ids.

Lemma default_container_well_formed : well_formed [] empty_container.
Proof. split; [reflexivity|intros b []]. Qed.

Lemma ids_never_reused_witness :
  well_formed [] (self_bookmarks Sample.fresh)
  /\ ids_monotone []
       (@steps Sample.bare
          [Add Sample.offline (u "example.com") [] [];
           Remove 1;
           Add (Sample.serving (u "<p>hi</p>")) (u "http://b.org/x") (u "b") [u "t"]]
          Sample.fresh).
Proof.
  split; [exact default_container_well_formed|].
  exact (@ids_never_reused Sample.bare _ Sample.fresh [] default_container_well_formed).
Defined.

(** The run of the witness, evaluated: ids 1 and 2 are handed out, and 1 is
    not handed out again after its bookmark is removed. *)
Example ids_example :
  map (fun st => stored_ids (snd st))
      (@steps Sample.bare
         [Add Sample.offline (u "example.com") [] [];
          Remove 1;
          Add (Sample.serving (u "<p>hi</p>")) (u "http://b.org/x") (u "b") [u "t"]]
         Sample.fresh)
  = [[1]; []; [2]]%Z.
Proof. vm_compute. reflexivity. Qed.

(** ** Fetcher: truncation *)

Lemma startswith_app (p rest : str) : startswith (p ++ rest) p = true.
Proof.
  induction p as [|c p IH]; [destruct rest; reflexivity|].
  cbn [app startswith]. now rewrite N.eqb_refl, IH.
Qed.

Lemma endswith_app (a marker : str) : endswith (a ++ marker) marker = true.
Proof. unfold endswith. rewrite rev_app_distr. apply startswith_app. Qed.

Lemma limit_length_over (budget : nat) (content : str) :
  budget < List.length content ->
  limit_length budget content = firstn budget content ++ truncation_marker.
Proof.
  intros L. unfold limit_length.
  destruct (Nat.ltb_spec budget (List.length content)); [reflexivity|lia].
Qed.

Lemma limit_length_under (budget : nat) (content : str) :
  List.length content <= budget -> limit_length budget content = content.
Proof.
  intros L. unfold limit_length.
  destruct (Nat.ltb_spec budget (List.length content)); [lia|reflexivity].
Qed.

Lemma truthy_long (budget : nat) (a : str) : budget < List.length a -> truthy a = true.
Proof. destruct a; cbn; [lia|reflexivity]. Qed.

Section Truncation.
Context `{Platform}.

Lemma fetch_rendition (w : env) (url : str) (s : state)
      (prefix : str) (budget : nat) (marker body : str) :
  rendition w prefix budget marker body ->
  budget < List.length body ->
  fst (fetch_page_text w url s) = Ret (prefix ++ firstn budget body ++ marker).
Proof.
  intros R L. unfold fetch_page_text.
  destruct R as [stdout stderr HL E
                |stdout stderr HL HY E
                |rc out err stdout stderr HL HY E Hrc E'
                |r page HL HY HR E St Html H2 Hh
                |r HL HY HR E St Html H2 Hb
                |r HL HY HR E St Html Hj
                |r HL HY HR E St Html Hj Ht].
  - rewrite HL. unfold fetch_with_links. rewrite E. cbn [subprocess_run]. run.
    cbv beta iota. unfold browser_view.
    rewrite (truthy_long _ _ L), (limit_length_over _ _ L). reflexivity.
  - rewrite HL, HY. unfold fetch_with_lynx. rewrite E. cbn [subprocess_run]. run.
    cbv beta iota. cbn [Z.eqb negb]. cbv beta iota. unfold browser_view.
    rewrite (truthy_long _ _ L), (limit_length_over _ _ L). reflexivity.
  - rewrite HL, HY. unfold fetch_with_lynx. rewrite E, E'. cbn [subprocess_run]. run.
    cbv beta iota. apply Z.eqb_neq in Hrc. rewrite Hrc. cbn [negb]. cbv beta iota.
    unfold browser_view.
    rewrite (truthy_long _ _ L), (limit_length_over _ _ L). reflexivity.
  - rewrite HL, HY, HR. cbn [negb]. unfold requests_get_checked.
    rewrite E, St. unfold is_html, header in Html. run. cbv beta iota.
    rewrite Html, H2. cbn [negb].
    unfold extract_text_with_html2text. rewrite Hh. run. cbv beta iota.
    rewrite (limit_length_over _ _ L). reflexivity.
  - rewrite HL, HY, HR. cbn [negb]. unfold requests_get_checked.
    rewrite E, St. unfold is_html, header in Html. run. cbv beta iota.
    rewrite Html, H2, Hb. cbn [negb].
    unfold extract_text_simple. run. cbv beta iota.
    rewrite (limit_length_over _ _ L). reflexivity.
  - rewrite HL, HY, HR. cbn [negb]. unfold requests_get_checked.
    rewrite E, St. unfold is_html, header in Html, Hj. run. cbv beta iota.
    rewrite Html, Hj. cbn [negb]. run. reflexivity.
  - rewrite HL, HY, HR. cbn [negb]. unfold requests_get_checked.
    rewrite E, St. unfold is_html, header in Html, Hj, Ht. run. cbv beta iota.
    rewrite Html, Hj, Ht. cbn [negb]. run. reflexivity.
Qed.

(** C6, amended: when the text a strategy obtains is longer than its
    budget (4000 for Links, Lynx and html2text, 3000 for the simple
    stripper, 2000 for JSON and plain text), the Fetcher returns the
    strategy's prefix, the first [budget] characters and the strategy's
    marker (the truncation marker, or three dots for JSON and plain text):
    the text ends with that marker and is exactly prefix + budget + marker
    long. *)
Theorem fetched_text_is_cut_to_budget (w : env) (url : str) (s : state)
      (prefix : str) (budget : nat) (marker body : str) :
  rendition w prefix budget marker body ->
  budget < List.length body ->
  exists out,
    fst (fetch_page_text w url s) = Ret out
    /\ out = prefix ++ firstn budget body ++ marker
    /\ endswith out marker = true
    /\ List.length out = List.length prefix + budget + List.length marker.
Proof.
  intros R L. exists (prefix ++ firstn budget body ++ marker).
  split; [exact (fetch_rendition w url s prefix budget marker body R L)|]. split; [reflexivity|]. split.
  - rewrite app_assoc. apply endswith_app.
  - rewrite !length_app, firstn_length_le; lia.
Qed.

End Truncation.

Lemma fetched_text_is_cut_to_budget_witness :
  exists out,
    fst (@fetch_page_text Sample.with_links (Sample.serving (repeat 97%N 4001))
           (u "https://example.com") Sample.fresh) = Ret out
    /\ out = links_prefix ++ firstn 4000 (strip (repeat 97%N 4001)) ++ truncation_marker
    /\ endswith out truncation_marker = true
    /\ List.length out
       = List.length links_prefix + 4000 + List.length truncation_marker.
Proof.
  apply (@fetched_text_is_cut_to_budget Sample.with_links).
  - exact (@links_rendition Sample.with_links
             (Sample.serving (repeat 97%N 4001)) (repeat 97%N 4001) [] eq_refl eq_refl).
  - apply Nat.ltb_lt. vm_compute. reflexivity.
Defined.

(** C6, counterexample: Links prints 4001 characters; the Fetcher's text
    has 4040, more than the budget plus the marker (4017), because the
    prefix comes on top.  And a JSON body of 2001 characters is returned
    ending in three dots, not in the truncation marker. *)
Lemma prefix_exceeds_budget_plus_marker :
  exists out shown,
    fst (@fetch_page_text Sample.with_links (Sample.serving (repeat 97%N 4001))
           (u "https://example.com") Sample.fresh) = Ret out
    /\ Nat.ltb 4000 (List.length (strip (repeat 97%N 4001))) = true
    /\ Nat.leb (List.length out) (4000 + List.length truncation_marker) = false
    /\ fst (@fetch_page_text Sample.bare
              {| now := []; links := Failed Sample.timeout; lynx := Failed Sample.timeout;
                 lynx_numbered := Failed Sample.timeout;
                 requests_get :=
                   Responded {| raise_for_status := None;
                                content_type := Some (u "application/json");
                                text := repeat 49%N 2001;
                                content_len := 2001 |};
                 pyperclip_copy := None |}
              (u "https://example.com/api") Sample.fresh) = Ret shown
    /\ endswith shown truncation_marker = false.
Proof.
  eexists. eexists.
  split; [vm_compute; reflexivity|].
  split; [vm_compute; reflexivity|].
  split; [vm_compute; reflexivity|].
  split; [vm_compute; reflexivity|].
  vm_compute; reflexivity.
Qed.

(** ** Fetcher: the HTML pipeline *)

Section Html_pipeline.
Context `{Platform}.

Lemma html_response_dispatch (w : env) (url : str) (s : state) (r : response) :
  HAS_LINKS = false -> HAS_LYNX = false -> HAS_REQUESTS = true ->
  requests_get w = Responded r -> raise_for_status r = None -> is_html r = true ->
  fetch_page_text w url s
  = try_except
      (if HAS_HTML2TEXT then extract_text_with_html2text (text r)
       else if HAS_BEAUTIFULSOUP then extract_text_with_bs4 (text r)
       else extract_text_simple (text r))
      (fun e =>
         if isinstance e RequestException
         then Some (ret (u "❌ Failed to fetch: " ++ message e))
         else if isinstance e Exception
         then Some (ret (u "❌ Error processing content: " ++ message e))
         else None)
      (printed s (colored (u "🌐 Fetching content from " ++ url ++ u "...")
                          Colors.CYAN [])).
Proof.
  intros HL HY HR E St Html. unfold fetch_page_text.
  rewrite HL, HY, HR. cbn [negb]. unfold requests_get_checked. rewrite E, St.
  unfold is_html, header in Html. run. cbv beta iota. rewrite Html. reflexivity.
Qed.

(** With html2text installed, an HTML page goes through it. *)
Lemma html2text_branch (w : env) (url : str) (s : state) (r : response) (page : str) :
  HAS_LINKS = false -> HAS_LYNX = false -> HAS_REQUESTS = true ->
  requests_get w = Responded r -> raise_for_status r = None -> is_html r = true ->
  HAS_HTML2TEXT = true -> html2text_handle (text r) = Ret page ->
  fst (fetch_page_text w url s)
  = Ret (html2text_prefix
         ++ limit_length 4000 (strip (join nl (clean_lines (split_on 10 page) 0)))).
Proof.
  intros HL HY HR E St Html H2 Hh.
  rewrite (html_response_dispatch w url s r HL HY HR E St Html), H2.
  unfold extract_text_with_html2text. rewrite Hh. reflexivity.
Qed.

(** With neither html2text nor BeautifulSoup, the simple stripper runs. *)
Lemma simple_branch (w : env) (url : str) (s : state) (r : response) :
  HAS_LINKS = false -> HAS_LYNX = false -> HAS_REQUESTS = true ->
  requests_get w = Responded r -> raise_for_status r = None -> is_html r = true ->
  HAS_HTML2TEXT = false -> HAS_BEAUTIFULSOUP = false ->
  fst (fetch_page_text w url s)
  = Ret (simple_prefix
         ++ limit_length 3000
              (strip (re_sub Whitespace (u " ")
                        (re_sub AnyTag [] (re_sub ScriptOrStyle [] (text r)))))).
Proof.
  intros HL HY HR E St Html H2 Hb.
  rewrite (html_response_dispatch w url s r HL HY HR E St Html), H2, Hb.
  reflexivity.
Qed.

(** With BeautifulSoup and no html2text, the call of the extractor that
    the class does not define raises, and the Fetcher returns the text of
    that error for every HTML page. *)
Lemma bs4_branch (w : env) (url : str) (s : state) (r : response) :
  HAS_LINKS = false -> HAS_LYNX = false -> HAS_REQUESTS = true ->
  requests_get w = Responded r -> raise_for_status r = None -> is_html r = true ->
  HAS_HTML2TEXT = false -> HAS_BEAUTIFULSOUP = true ->
  fst (fetch_page_text w url s)
  = Ret (u "❌ Error processing content: "
         ++ u "'BookmarkManager' object has no attribute 'extract_text_with_bs4'").
Proof.
  intros HL HY HR E St Html H2 Hb.
  rewrite (html_response_dispatch w url s r HL HY HR E St Html), H2, Hb.
  reflexivity.
Qed.

End Html_pipeline.

(** C8, evaluated where the code departs from the claim: no text browser,
    [requests] and BeautifulSoup present, html2text absent, and an HTML
    page.  The Fetcher returns no converted text but the message of the
    [AttributeError]. *)
Theorem bs4_page_is_not_converted :
  fst (@fetch_page_text Sample.with_bs4
         (Sample.serving (u "<html><body><p>Hello</p></body></html>"))
         (u "https://example.com") Sample.fresh)
  = Ret (u "❌ Error processing content: 'BookmarkManager' object has no attribute 'extract_text_with_bs4'").
Proof. vm_compute. reflexivity. Qed.

(** The same page with html2text, and with neither library. *)
Example other_pages_are_converted :
  fst (@fetch_page_text Sample.with_html2text
         (Sample.serving (u "<html><body><p>Hello</p></body></html>"))
         (u "https://example.com") Sample.fresh)
  = Ret (html2text_prefix ++ u "<html><body><p>Hello</p></body></html>")
  /\ fst (@fetch_page_text Sample.bare
            (Sample.serving (u "<html><body><p>Hello</p></body></html>"))
            (u "https://example.com") Sample.fresh)
     = Ret (simple_prefix ++ u "<html><body><p>Hello</p></body></html>").
Proof. split; vm_compute; reflexivity. Qed.

(** ** TUI loop *)

Section Tui.
Context `{Platform}.

(** Outside search-entry mode the loop filters with the empty query: the
    whole store is drawn, whatever [search_query] holds. *)
Lemma redraw_outside_search_mode (v : view) (s : state) :
  search_mode v = false ->
  exists i,
    redraw v s
    = (Ret (with_index v i, bookmarks (self_bookmarks s)),
       {| self_bookmarks := self_bookmarks s; disk := disk s;
          trace := trace s ++ [Draw (bookmarks (self_bookmarks s)) i false
                                    (search_query v)] |}).
Proof.
  intros Hm. unfold redraw, get_filtered_bookmarks. rewrite Hm. run. cbn [truthy negb].
  destruct (Z.of_nat (List.length (bookmarks (self_bookmarks s))) <=? selected_index v)%Z.
  - eexists. cbn [selected_index search_mode search_query with_index]. rewrite Hm.
    reflexivity.
  - exists (selected_index v). unfold with_index. rewrite Hm.
    destruct v as [i m q]. cbn in *. subst m. reflexivity.
Qed.

(** In search-entry mode the drawn list is the filtered one. *)
Lemma redraw_in_search_mode (v : view) (s : state) :
  search_mode v = true -> truthy (search_query v) = true ->
  exists i,
    fst (redraw v s)
    = Ret (with_index v i,
           filter_matches (disk s) (lower (search_query v)) (bookmarks (self_bookmarks s))).
Proof.
  intros Hm Hq. unfold redraw, get_filtered_bookmarks. rewrite Hm. run. rewrite Hq.
  cbn [negb].
  match goal with |- context [(?a <=? ?b)%Z] => destruct (a <=? b)%Z end.
  - eexists. reflexivity.
  - exists (selected_index v). destruct v; reflexivity.
Qed.

(** Down on a list of [n] bookmarks. *)
Lemma down_key (v : view) (bs : list bookmark) (kp : keypress) (s : state) :
  search_mode v = false -> key kp = Typed (u "j") ->
  handle_key v bs kp s
  = (Ret (with_index v (Z.min (Z.of_nat (List.length bs) - 1) (selected_index v + 1)),
          true), s).
Proof.
  intros Hm Hk. unfold handle_key. rewrite Hk, Hm. reflexivity.
Qed.

(** Up. *)
Lemma up_key (v : view) (bs : list bookmark) (kp : keypress) (s : state) :
  search_mode v = false -> key kp = Typed (u "k") ->
  handle_key v bs kp s
  = (Ret (with_index v (Z.max 0 (selected_index v - 1)), true), s).
Proof.
  intros Hm Hk. unfold handle_key. rewrite Hk, Hm. reflexivity.
Qed.

(** On a list that is not empty, Down and Up keep the selection inside
    it. *)
Lemma navigation_stays_in_range (v : view) (n : Z) :
  (0 < n)%Z -> (0 <= selected_index v < n)%Z ->
  (0 <= Z.min (n - 1) (selected_index v + 1) < n)%Z
  /\ (0 <= Z.max 0 (selected_index v - 1) < n)%Z.
Proof. lia. Qed.

End Tui.

(** C1, evaluated where the code departs from the claim: two bookmarks,
    of which only the first matches "py"; the keys are /, p, y, Enter.
    While the query is typed the list is filtered; after Enter the loop
    holds [search_query = "py"] outside search-entry mode and draws both
    bookmarks. *)
Theorem confirmed_search_is_not_applied :
  let python := Sample.entry 1 "https://python.org" "docs" in
  let example := Sample.entry 2 "https://example.com" "misc" in
  let s := Sample.holding [python; example] 3 in
  @filter_matches Sample.bare (disk s) (@lower Sample.bare (u "py")) [python; example]
  = [python]
  /\ (let '(r, s') := @tui_loop Sample.bare initial_view
                        [Sample.press "/"; Sample.press "p"; Sample.press "y"] s in
      r = Ret ({| selected_index := 0; search_mode := true; search_query := u "py" |}, true)
      /\ last (trace s') (Print []) = Draw [python] 0 true (u "py"))
  /\ (let '(r, s') := @tui_loop Sample.bare initial_view
                        [Sample.press "/"; Sample.press "p"; Sample.press "y";
                         Sample.enter] s in
      r = Ret ({| selected_index := 0; search_mode := false; search_query := u "py" |}, true)
      /\ last (trace s') (Print []) = Draw [python; example] 0 false (u "py")).
Proof. vm_compute. repeat split. Qed.

(** C2, evaluated where the code departs from the claim: the store is
    empty and Down is pressed.  [min(len - 1, selected_index + 1)] is -1,
    the bound check at the head of the loop only looks upwards, and the
    next draw is made with index -1. *)
Theorem down_on_empty_list_selects_minus_one :
  let '(r, s') := @tui_loop Sample.bare initial_view [Sample.press "j"] Sample.fresh in
  r = Ret ({| selected_index := -1; search_mode := false; search_query := [] |}, true)
  /\ last (trace s') (Print []) = Draw [] (-1) false [].
Proof. vm_compute. split; reflexivity. Qed.

(** The part of C2 that holds: on five bookmarks, six times Down from the
    top ends on index 4, and Up at the top stays on 0; G on the empty list
    gives 0. *)
Example selection_is_clamped_on_five :
  let five := Sample.holding
                [Sample.entry 1 "https://a.org" "a"; Sample.entry 2 "https://b.org" "b";
                 Sample.entry 3 "https://c.org" "c"; Sample.entry 4 "https://d.org" "d";
                 Sample.entry 5 "https://e.org" "e"] 6 in
  option_map selected_index
    (match fst (@tui_loop Sample.bare initial_view
                  (repeat (Sample.press "j") 6) five) with
     | Ret (v, _) => Some v | Raise _ => None end) = Some 4%Z
  /\ option_map selected_index
       (match fst (@tui_loop Sample.bare initial_view [Sample.press "k"] five) with
        | Ret (v, _) => Some v | Raise _ => None end) = Some 0%Z
  /\ option_map selected_index
       (match fst (@tui_loop Sample.bare initial_view [Sample.press "G"] Sample.fresh) with
        | Ret (v, _) => Some v | Raise _ => None end) = Some 0%Z.
Proof. vm_compute. repeat split. Qed.

(** ** Store: refresh *)

Lemma Forall2_same_or_marked_refl (i : Z) (bs : list bookmark) :
  Forall2 (same_or_marked i) bs bs.
Proof. induction bs; constructor; [left; reflexivity|assumption]. Qed.

Lemma mark_has_content_same_or_marked (i : Z) (bs : list bookmark) :
  Forall2 (same_or_marked i) bs (mark_has_content i bs).
Proof.
  induction bs as [|b bs IH]; [constructor|].
  cbn [mark_has_content]. destruct (id b =? i)%Z eqn:E.
  - constructor; [|apply Forall2_same_or_marked_refl].
    right. split; [now apply Z.eqb_eq|reflexivity].
  - constructor; [left; reflexivity|exact IH].
Qed.

Lemma lookup_mark_has_content (i : Z) (bs : list bookmark) (b : bookmark) :
  find (fun b => (id b =? i)%Z) bs = Some b ->
  find (fun b => (id b =? i)%Z) (mark_has_content i bs) = Some (with_content b).
Proof.
  induction bs as [|a bs IH]; [discriminate|]. cbn [find mark_has_content].
  destruct (id a =? i)%Z eqn:E.
  - intros [= ->]. cbn [find id]. now rewrite E.
  - intros Fd. cbn [find]. rewrite E. now apply IH.
Qed.

Lemma bookmark_encodable_with_content (b : bookmark) :
  bookmark_encodable (with_content b) = bookmark_encodable b.
Proof. reflexivity. Qed.

(** Marking changes no string: what could be written still can. *)
Lemma storable_mark_has_content (i : Z) (c : container) :
  storable {| bookmarks := mark_has_content i (bookmarks c); next_id := next_id c |}
  = storable c.
Proof.
  unfold storable. cbn [bookmarks].
  induction (bookmarks c) as [|b bs IH]; [reflexivity|]. cbn [mark_has_content].
  destruct (id b =? i)%Z; cbn [forallb]; [reflexivity|now rewrite IH].
Qed.

Lemma cache_files_saved (c : container) (d : fs) :
  cache_files (saved c d) = cache_files d.
Proof.
  unfold saved. destruct (store_writable d); [|reflexivity].
  now destruct (json_encodable (container_to_json c)).
Qed.

Lemma saving_cases (c : container) (d : fs) :
  saving c d = Ret tt \/ saving c d = Raise unicode_encode_error.
Proof.
  unfold saving.
  destruct (store_writable d && negb (json_encodable (container_to_json c))); tauto.
Qed.

Lemma saving_storable (c : container) (d : fs) :
  storable c = true -> saving c d = Ret tt.
Proof.
  intros St. unfold saving. rewrite storable_encodable, St. cbn [negb].
  now rewrite andb_false_r.
Qed.

Section Refresh_state.
Context `{Platform}.

Lemma refresh_not_found (w : env) (i : Z) (s : state) :
  lookup i (self_bookmarks s) = None ->
  refresh_bookmark_content w i s = (Ret tt, s).
Proof.
  unfold lookup. intros Fd. unfold refresh_bookmark_content, find_bookmark.
  unfold bind at 1, gets. unfold bind at 1, ret. now rewrite Fd.
Qed.

Lemma refresh_unfold (w : env) (i : Z) (s : state) (b : bookmark) :
  lookup i (self_bookmarks s) = Some b ->
  refresh_bookmark_content w i s
  = bind (fetch_page_text w (url b))
      (fun content =>
         if truthy content then
           try_except
             (write_cache i content ;;
              c <- gets self_bookmarks ;;
              set_bookmarks {| bookmarks := mark_has_content i (bookmarks c);
                               next_id := next_id c |} ;;
              save_bookmarks ;;
              print (colored (u "✅ Content refreshed!") Colors.GREEN []))
             (except_OSError
                (print (colored (u "❌ Failed to save refreshed content") Colors.RED [])))
         else print (colored (u "❌ Failed to refresh content") Colors.RED []))
      (printed s (refreshing_message i)).
Proof.
  unfold lookup. intros Fd. unfold refresh_bookmark_content, find_bookmark.
  unfold bind at 1, gets. unfold bind at 1, ret. rewrite Fd. reflexivity.
Qed.

Lemma refresh_raises (w : env) (i : Z) (s s2 : state) (b : bookmark) (e : exn) :
  lookup i (self_bookmarks s) = Some b ->
  fetch_page_text w (url b) (printed s (refreshing_message i)) = (Raise e, s2) ->
  refresh_bookmark_content w i s = (Raise e, s2).
Proof.
  intros Fd F. rewrite (refresh_unfold w i s b Fd). unfold bind at 1. now rewrite F.
Qed.

(** The state a refresh of a stored id ends in, given the text that the
    Fetcher returned: if the cache file can be written, the text is in it,
    the first bookmark of that id is marked, and the refresh ends as the
    save does; if not, nothing is changed. *)
Lemma refresh_state (w : env) (i : Z) (s s2 : state) (b : bookmark) (content : str) :
  lookup i (self_bookmarks s) = Some b ->
  fetch_page_text w (url b) (printed s (refreshing_message i)) = (Ret content, s2) ->
  truthy content = true ->
  let marked := {| bookmarks := mark_has_content i (bookmarks (self_bookmarks s));
                   next_id := next_id (self_bookmarks s) |} in
  exists t,
    refresh_bookmark_content w i s
    = (if cache_writable (disk s) i
       then saving marked (cached (disk s) i content) else Ret tt,
       if cache_writable (disk s) i
       then {| self_bookmarks := marked;
               disk := saved marked (cached (disk s) i content);
               trace := trace s2 ++ t |}
       else {| self_bookmarks := self_bookmarks s; disk := disk s;
               trace := trace s2 ++ t |})
    /\ (cache_writable (disk s) i = true ->
        saving marked (cached (disk s) i content) = Ret tt ->
        In (Print refreshed_message) t)
    /\ (cache_writable (disk s) i = false -> In (Print not_refreshed_message) t).
Proof.
  intros Fd F T marked.
  pose proof (keeps_fetch_page_text w (url b) (printed s (refreshing_message i))) as K.
  rewrite F in K. destruct K as [K1 K2]. cbn [snd printed self_bookmarks disk] in K1, K2.
  rewrite (refresh_unfold w i s b Fd). unfold bind at 1. rewrite F, T.
  unfold write_cache, except_OSError. run. rewrite K2.
  destruct (cache_writable (disk s) i); cbn [negb]; cbv beta iota.
  - cbn [self_bookmarks disk trace]. rewrite K1.
    match goal with |- context [save_bookmarks ?x] =>
      destruct (save_bookmarks_disk x) as (t & E); rewrite E end.
    cbn [self_bookmarks disk trace].
    destruct (saving_cases marked (cached (disk s) i content)) as [Sv|Sv];
      settle_saving Sv; rewrite ?Sv; cbv beta iota;
      cbn [isinstance cls unicode_encode_error exn_class_eqb orb];
      cbv beta iota; cbn [self_bookmarks disk trace]; rewrite <- ?app_assoc;
      (eexists; split; [reflexivity|]).
    + split; [|intros D; discriminate D].
      intros _ _. unfold refreshed_message. in_list.
    + split; intros D; [|discriminate D]. intros D'. discriminate D'.
  - cbn [isinstance cls os_error exn_class_eqb orb]. cbv beta iota.
    cbn [self_bookmarks disk trace]. rewrite ?K1, ?K2.
    eexists. split; [reflexivity|]. split; [intros D; discriminate D|].
    intros _. unfold not_refreshed_message. in_list.
Qed.

End Refresh_state.

(** ** Fetcher: failures *)

Section Failures.
Context `{Platform}.

Lemma browser_handlers_text (name : string) (e : exn) :
  isinstance e Exception = true ->
  exists msg, browser_handlers name e = Some (ret msg) /\ is_error_text msg = true.
Proof.
  intros He. unfold browser_handlers.
  destruct (isinstance e TimeoutExpired); [eexists; split; [reflexivity|reflexivity]|].
  destruct (isinstance e FileNotFoundError); [eexists; split; [reflexivity|reflexivity]|].
  rewrite He. eexists. split; reflexivity.
Qed.

Lemma browser_view_failed (name : string) (prefix : str) (rc : Z) (out err : str) :
  rc <> 0%Z ->
  is_error_text (browser_view name prefix (rc, out, err)) = true.
Proof.
  intros Hrc. unfold browser_view. apply Z.eqb_neq in Hrc. rewrite Hrc. reflexivity.
Qed.

(** A failed fetch returns a message and raises nothing. *)
Lemma failed_fetch_returns_text (w : env) :
  fetch_fails w ->
  exists msg,
    is_error_text msg = true
    /\ forall url s, exists s', fetch_page_text w url s = (Ret msg, s').
Proof.
  intros F. unfold fetch_page_text.
  destruct F as [e HL E He
                |rc out err HL E Hrc
                |e HL HY E He
                |rc out err e HL HY E Hrc E' He
                |rc out err rc' out' err' HL HY E Hrc E' Hrc'
                |HL HY HR
                |e HL HY HR E He
                |r e HL HY HR E St He].
  - destruct (browser_handlers_text "Links" e He) as (msg & Hh & Hm).
    exists msg. split; [exact Hm|]. intros url s. rewrite HL.
    unfold fetch_with_links. rewrite E. cbn [subprocess_run]. run. cbv beta iota.
    rewrite Hh. eexists. reflexivity.
  - eexists. split; [exact (browser_view_failed "Links" links_prefix rc out err Hrc)|].
    intros url s. rewrite HL.
    unfold fetch_with_links. rewrite E. cbn [subprocess_run]. run. cbv beta iota.
    eexists. reflexivity.
  - destruct (browser_handlers_text "Lynx" e He) as (msg & Hh & Hm).
    exists msg. split; [exact Hm|]. intros url s. rewrite HL, HY.
    unfold fetch_with_lynx. rewrite E. cbn [subprocess_run]. run. cbv beta iota.
    rewrite Hh. eexists. reflexivity.
  - destruct (browser_handlers_text "Lynx" e He) as (msg & Hh & Hm).
    exists msg. split; [exact Hm|]. intros url s. rewrite HL, HY.
    unfold fetch_with_lynx. rewrite E, E'. cbn [subprocess_run]. run. cbv beta iota.
    apply Z.eqb_neq in Hrc. rewrite Hrc. cbn [negb]. cbv beta iota.
    rewrite Hh. eexists. reflexivity.
  - eexists. split; [exact (browser_view_failed "Lynx" lynx_prefix rc' out' err' Hrc')|].
    intros url s. rewrite HL, HY.
    unfold fetch_with_lynx. rewrite E, E'. cbn [subprocess_run]. run. cbv beta iota.
    apply Z.eqb_neq in Hrc. rewrite Hrc. cbn [negb]. cbv beta iota.
    eexists. reflexivity.
  - exists missing_requests_message. split; [reflexivity|]. intros url s.
    rewrite HL, HY, HR. eexists. reflexivity.
  - destruct (isinstance e RequestException) eqn:Hq.
    + exists (u "❌ Failed to fetch: " ++ message e). split; [reflexivity|].
      intros url s. rewrite HL, HY, HR. cbn [negb]. unfold requests_get_checked.
      rewrite E. run. cbv beta iota. rewrite Hq. eexists. reflexivity.
    + exists (u "❌ Error processing content: " ++ message e). split; [reflexivity|].
      intros url s. rewrite HL, HY, HR. cbn [negb]. unfold requests_get_checked.
      rewrite E. run. cbv beta iota. rewrite Hq, He. eexists. reflexivity.
  - destruct (isinstance e RequestException) eqn:Hq.
    + exists (u "❌ Failed to fetch: " ++ message e). split; [reflexivity|].
      intros url s. rewrite HL, HY, HR. cbn [negb]. unfold requests_get_checked.
      rewrite E, St. run. cbv beta iota. rewrite Hq. eexists. reflexivity.
    + exists (u "❌ Error processing content: " ++ message e). split; [reflexivity|].
      intros url s. rewrite HL, HY, HR. cbn [negb]. unfold requests_get_checked.
      rewrite E, St. run. cbv beta iota. rewrite Hq, He. eexists. reflexivity.
Qed.

Lemma error_text_truthy (msg : str) : is_error_text msg = true -> truthy msg = true.
Proof. destruct msg; [discriminate|reflexivity]. Qed.

(** C7, counterexample: the fetch fails (Links times out) and the cache
    file cannot be written.  [add] catches the [OSError], stores the
    bookmark with [has_content = False], writes no cache file, and prints
    that the bookmark was added. *)
Theorem failure_message_needs_writable_cache :
  let d := {| store_file := None; store_readable := true; store_writable := true;
              cache_files := fun _ => None; cache_readable := fun _ => true;
              cache_writable := fun _ => false; cache_removable := fun _ => true |} in
  let s := {| self_bookmarks := empty_container; disk := d; trace := [] |} in
  @fetch_fails Sample.with_links Sample.offline
  /\ (let '(r, s') := @add_bookmark Sample.with_links Sample.offline
                        (u "example.com") [] [] s in
      r = Ret tt
      /\ cache_files (disk s') 1 = None
      /\ option_map has_content (lookup 1 (self_bookmarks s')) = Some false
      /\ In (Print (added_message 1 (u "https://example.com"))) (trace s')).
Proof.
  split.
  - exact (@links_raises Sample.with_links Sample.offline Sample.timeout
             eq_refl eq_refl eq_refl).
  - vm_compute. repeat split. in_list.
Qed.

(** C7, amended: when a fetch attempt fails, the Fetcher returns an error
    or placeholder message and raises nothing.  Where the host of the url
    can be read off and no string of the stored bookmarks or of the new
    one holds a lone surrogate, [add_bookmark] returns, having appended
    the bookmark and printed that it was added; the message is the content
    of the bookmark's cache file, and [has_content] is [True], exactly
    when that file could be written: when it could not, no cache file is
    written and [has_content] is [False].  Where no string of the stored
    bookmarks holds a lone surrogate, [refresh_bookmark_content] of a
    stored id returns; when the cache file can be written the message is
    its content, the bookmark found under the id is the stored one with
    [has_content = True], and the refresh is reported; when it cannot,
    bookmark and cache file are as before and the failure to save is
    reported. *)
Theorem failed_fetch_is_cached (w : env) :
  fetch_fails w ->
  exists msg,
    is_error_text msg = true
    /\ (forall url s, exists s', fetch_page_text w url s = (Ret msg, s'))
    /\ (forall url description tags s dom,
          let i := next_id (self_bookmarks s) in
          let new := {| id := i; url := normalized url;
                        description := description; tags := tags;
                        created := now w; domain := dom;
                        has_content := cache_writable (disk s) i |} in
          netloc (normalized url) = Ret dom ->
          storable (self_bookmarks s) = true ->
          bookmark_encodable new = true ->
          exists s',
            add_bookmark w url description tags s = (Ret tt, s')
            /\ bookmarks (self_bookmarks s') = bookmarks (self_bookmarks s) ++ [new]
            /\ cache_files (disk s') i
               = (if cache_writable (disk s) i then Some msg else cache_files (disk s) i)
            /\ In (Print (added_message i (normalized url))) (trace s'))
    /\ (forall i s b,
          lookup i (self_bookmarks s) = Some b ->
          storable (self_bookmarks s) = true ->
          exists s',
            refresh_bookmark_content w i s = (Ret tt, s')
            /\ if cache_writable (disk s) i
               then cache_files (disk s') i = Some msg
                    /\ lookup i (self_bookmarks s') = Some (with_content b)
                    /\ In (Print refreshed_message) (trace s')
               else cache_files (disk s') i = cache_files (disk s) i
                    /\ lookup i (self_bookmarks s') = Some b
                    /\ In (Print not_refreshed_message) (trace s')).
Proof.
  intros F. destruct (failed_fetch_returns_text w F) as (msg & Hm & Hf).
  pose proof (error_text_truthy msg Hm) as T.
  exists msg. split; [exact Hm|]. split; [exact Hf|]. split.
  - intros url description tags s dom i new N St Sn.
    destruct (Hf (normalized url) (assigned s)) as (s2 & F2).
    destruct (add_bookmark_state w url description tags s s2 dom msg N F2)
      as (t & E & P).
    rewrite T in E, P. cbn [andb] in E, P. fold i in E, P. fold new in E, P.
    rewrite saving_storable in E, P
      by (unfold storable in *; cbn [bookmarks]; rewrite forallb_app, St;
          cbn [forallb]; now rewrite Sn).
    eexists. split; [exact E|]. cbn [self_bookmarks disk trace bookmarks].
    split; [reflexivity|]. rewrite cache_files_saved. split.
    + destruct (cache_writable (disk s) i); [|reflexivity].
      cbn [cached with_cache cache_files]. now rewrite Z.eqb_refl.
    + apply in_or_app. right. now apply P.
  - intros i s b Fd St.
    destruct (Hf (url b) (printed s (refreshing_message i))) as (s2 & F2).
    destruct (refresh_state w i s s2 b msg Fd F2 T) as (t & E & P & Q).
    destruct (cache_writable (disk s) i).
    + rewrite saving_storable in E, P by (now rewrite storable_mark_has_content).
      eexists. split; [exact E|]. cbn [self_bookmarks disk trace].
      rewrite cache_files_saved. cbn [cached with_cache cache_files].
      rewrite Z.eqb_refl. split; [reflexivity|]. split.
      * unfold lookup in *. cbn [bookmarks]. now apply lookup_mark_has_content.
      * apply in_or_app. right. now apply P.
    + eexists. split; [exact E|]. cbn [self_bookmarks disk trace].
      split; [reflexivity|]. split; [exact Fd|].
      apply in_or_app. right. now apply Q.
Qed.

End Failures.

Lemma failed_fetch_is_cached_witness :
  let kept := Sample.entry 1 "https://python.org" "docs" in
  let s := Sample.holding [kept] 2 in
  exists msg,
    is_error_text msg = true
    /\ (exists s',
          @add_bookmark Sample.with_links Sample.offline (u "example.com") [] [] s
          = (Ret tt, s')
          /\ bookmarks (self_bookmarks s')
             = [kept] ++ [{| id := 2; url := u "https://example.com"; description := [];
                             tags := []; created := now Sample.offline;
                             domain := u "example.com"; has_content := true |}]
          /\ cache_files (disk s') 2 = Some msg
          /\ In (Print (added_message 2 (u "https://example.com"))) (trace s'))
    /\ (exists s',
          @refresh_bookmark_content Sample.with_links Sample.offline 1 s = (Ret tt, s')
          /\ cache_files (disk s') 1 = Some msg
          /\ lookup 1 (self_bookmarks s') = Some (with_content kept)
          /\ In (Print refreshed_message) (trace s')).
Proof.
  intros kept s.
  destruct (@failed_fetch_is_cached Sample.with_links Sample.offline
              (@links_raises Sample.with_links Sample.offline Sample.timeout
                 eq_refl eq_refl eq_refl))
    as (msg & Hm & _ & Ha & Hr).
  exists msg. split; [exact Hm|]. split.
  - exact (Ha (u "example.com") [] [] s (u "example.com") eq_refl eq_refl eq_refl).
  - exact (Hr 1%Z s kept eq_refl eq_refl).
Defined.

(** The witness evaluated: Links times out while example.com is added. *)
Example timeout_is_cached :
  let s' := snd (@add_bookmark Sample.with_links Sample.offline
                   (u "example.com") [] [] Sample.fresh) in
  cache_files (disk s') 1 = Some (u "⏰ Links timeout - page took too long to load")
  /\ map has_content (bookmarks (self_bookmarks s')) = [true]
  /\ map url (bookmarks (self_bookmarks s')) = [u "https://example.com"]
  /\ map domain (bookmarks (self_bookmarks s')) = [u "example.com"].
Proof. vm_compute. repeat split. Qed.

(** * Further properties *)

(** ** Fetcher: it always has something to say *)

Lemma returns_text_ret (a : str) : truthy a = true -> returns_text (ret a).
Proof. intros T s a' s' E. injection E as <- _. exact T. Qed.

Lemma returns_text_raise (e : exn) : returns_text (raise e).
Proof. intros s a s' E. discriminate E. Qed.

Lemma returns_text_bind {A} (c : M A) (k : A -> M str) :
  (forall x, returns_text (k x)) -> returns_text (bind c k).
Proof.
  intros Hk s a s' E. unfold bind in E.
  destruct (c s) as [[x|e] s1]; [exact (Hk x s1 a s' E)|discriminate E].
Qed.

Lemma returns_text_try (c : M str) (h : exn -> option (M str)) :
  returns_text c -> (forall e k, h e = Some k -> returns_text k) ->
  returns_text (try_except c h).
Proof.
  intros Hc Hh s a s' E. unfold try_except in E.
  destruct (c s) as [[x|e] s1] eqn:C.
  - injection E as <- <-. exact (Hc s x s1 C).
  - destruct (h e) as [k|] eqn:Hk; [exact (Hh e k Hk s1 a s' E)|discriminate E].
Qed.

Lemma returns_text_browser_handlers (name : string) (e : exn) (k : M str) :
  browser_handlers name e = Some k -> returns_text k.
Proof.
  unfold browser_handlers. intros E.
  destruct (isinstance e TimeoutExpired);
    [injection E as <-; apply returns_text_ret; reflexivity|].
  destruct (isinstance e FileNotFoundError);
    [injection E as <-; apply returns_text_ret; reflexivity|].
  destruct (isinstance e Exception);
    [injection E as <-; apply returns_text_ret; reflexivity|discriminate].
Qed.

Lemma browser_view_truthy (name : string) (prefix : str) (r : Z * str * str) :
  truthy prefix = true -> truthy (browser_view name prefix r) = true.
Proof.
  intros P. destruct r as [[rc out] err]. unfold browser_view.
  destruct ((rc =? 0)%Z && truthy (strip out)); [|reflexivity].
  destruct prefix; [discriminate P|reflexivity].
Qed.

Section Fetch_text.
Context `{Platform}.

Lemma returns_text_fetch (w : env) (url : str) : returns_text (fetch_page_text w url).
Proof.
  unfold fetch_page_text.
  destruct HAS_LINKS.
  { apply returns_text_try; [|apply returns_text_browser_handlers].
    apply returns_text_bind. intros _. apply returns_text_bind. intros r.
    apply returns_text_ret, browser_view_truthy. reflexivity. }
  destruct HAS_LYNX.
  { apply returns_text_try; [|apply returns_text_browser_handlers].
    apply returns_text_bind. intros _. apply returns_text_bind. intros r.
    apply returns_text_bind. intros r'.
    apply returns_text_ret, browser_view_truthy. reflexivity. }
  destruct HAS_REQUESTS; cbn [negb]; [|apply returns_text_ret; reflexivity].
  apply returns_text_try.
  - apply returns_text_bind. intros _. apply returns_text_bind. intros r.
    destruct (negb _).
    + destruct (contains (u "application/json") _);
        [apply returns_text_ret; reflexivity|].
      destruct (contains (u "text/") _); apply returns_text_ret; reflexivity.
    + destruct HAS_HTML2TEXT.
      * apply returns_text_try.
        -- apply returns_text_bind. intros t. apply returns_text_ret. reflexivity.
        -- intros e k E. destruct (isinstance e Exception); [|discriminate].
           injection E as <-. apply returns_text_ret. reflexivity.
      * destruct HAS_BEAUTIFULSOUP; [apply returns_text_raise|].
        apply returns_text_ret. reflexivity.
  - intros e k E.
    destruct (isinstance e RequestException);
      [injection E as <-; apply returns_text_ret; reflexivity|].
    destruct (isinstance e Exception);
      [injection E as <-; apply returns_text_ret; reflexivity|discriminate].
Qed.

(** However the fetch goes, a bookmark that is added carries the
    normalized url, the host of that url, the given description and tags,
    the next id, and [has_content] tells whether the cache file could be
    written; the fetched text is then the content of that file. *)
Theorem add_appends_bookmark (w : env) (url description : str) (tags : list str)
      (s s' : state) :
  add_bookmark w url description tags s = (Ret tt, s') ->
  exists dom,
    netloc (normalized url) = Ret dom
    /\ self_bookmarks s'
       = {| bookmarks :=
              bookmarks (self_bookmarks s)
              ++ [new_bookmark w s url description tags dom
                    (cache_writable (disk s) (next_id (self_bookmarks s)))];
            next_id := next_id (self_bookmarks s) + 1 |}
    /\ (cache_writable (disk s) (next_id (self_bookmarks s)) = true ->
        exists content,
          truthy content = true
          /\ cache_files (disk s') (next_id (self_bookmarks s)) = Some content)
    /\ (cache_writable (disk s) (next_id (self_bookmarks s)) = false ->
        cache_files (disk s') = cache_files (disk s)).
Proof.
  intros E.
  destruct (netloc (normalized url)) as [dom|e] eqn:N;
    [|rewrite (add_raises_before_fetch w url description tags s e N) in E;
      discriminate E].
  destruct (fetch_page_text w (normalized url) (assigned s)) as [[content|e] s2] eqn:F;
    [|rewrite (add_raises_in_fetch w url description tags s s2 dom e N F) in E;
      discriminate E].
  pose proof (returns_text_fetch w (normalized url) _ _ _ F) as T.
  destruct (add_bookmark_state w url description tags s s2 dom content N F)
    as (t & E' & _).
  rewrite E' in E. injection E as _ <-. rewrite T. cbn [andb self_bookmarks disk].
  exists dom. split; [reflexivity|]. split; [reflexivity|].
  rewrite cache_files_saved. split.
  - intros W. rewrite W. exists content. split; [exact T|].
    cbn [cached cache_files with_cache]. now rewrite Z.eqb_refl.
  - intros W. now rewrite W.
Qed.

End Fetch_text.

Lemma add_appends_bookmark_witness :
  exists dom,
    @netloc Sample.bare (normalized (u "example.com/docs")) = Ret dom
    /\ self_bookmarks (snd (@add_bookmark Sample.bare (Sample.serving (u "<p>hi</p>"))
                              (u "example.com/docs") (u "Docs") [u "ref"] Sample.fresh))
       = {| bookmarks :=
              [] ++ [@new_bookmark Sample.bare (Sample.serving (u "<p>hi</p>"))
                       Sample.fresh (u "example.com/docs") (u "Docs") [u "ref"] dom true];
            next_id := 1 + 1 |}
    /\ (true = true ->
        exists content,
          truthy content = true
          /\ cache_files
               (disk (snd (@add_bookmark Sample.bare (Sample.serving (u "<p>hi</p>"))
                             (u "example.com/docs") (u "Docs") [u "ref"] Sample.fresh)))
               1 = Some content)
    /\ (true = false ->
        cache_files
          (disk (snd (@add_bookmark Sample.bare (Sample.serving (u "<p>hi</p>"))
                        (u "example.com/docs") (u "Docs") [u "ref"] Sample.fresh)))
        = cache_files (disk Sample.fresh)).
Proof.
  exact (@add_appends_bookmark Sample.bare (Sample.serving (u "<p>hi</p>"))
           (u "example.com/docs") (u "Docs") [u "ref"] Sample.fresh _
           (surjective_pairing _)).
Defined.

(** ** Store: remove *)

Lemma lookup_without_same (i : Z) (c : container) : lookup i (without i c) = None.
Proof.
  unfold lookup, without. cbn [bookmarks].
  induction (bookmarks c) as [|b bs IH]; [reflexivity|].
  cbn [filter]. destruct (id b =? i)%Z eqn:E; cbn [negb]; [exact IH|].
  cbn [find]. now rewrite E.
Qed.

Lemma lookup_without_other (i j : Z) (c : container) :
  j <> i -> lookup j (without i c) = lookup j c.
Proof.
  intros Hj. unfold lookup, without. cbn [bookmarks].
  induction (bookmarks c) as [|b bs IH]; [reflexivity|].
  cbn [filter find]. destruct (id b =? i)%Z eqn:E; cbn [negb].
  - apply Z.eqb_eq in E. destruct (Z.eqb_spec (id b) j); [congruence|exact IH].
  - cbn [find]. destruct (id b =? j)%Z; [reflexivity|exact IH].
Qed.

Lemma storable_without (i : Z) (c : container) :
  storable c = true -> storable (without i c) = true.
Proof.
  unfold storable, without. cbn [bookmarks]. rewrite !forallb_forall.
  intros St b Hb. apply filter_In in Hb. now apply St.
Qed.

(** Removing a stored bookmark drops every bookmark of that id, so that a
    later lookup of the id finds nothing, while every other id is looked
    up as before; its cache file is gone unless it could not be unlinked,
    and no other cache file is touched.  The call returns, unless a string
    of a bookmark that stays holds a lone surrogate: then the write of the
    store file raises [UnicodeEncodeError]. *)
Theorem remove_cascades (i : Z) (s : state) (b : bookmark) :
  lookup i (self_bookmarks s) = Some b ->
  exists r s',
    remove_bookmark i s = (r, s')
    /\ (r = Ret tt \/ r = Raise unicode_encode_error)
    /\ (storable (self_bookmarks s) = true -> r = Ret tt)
    /\ lookup i (self_bookmarks s') = None
    /\ (forall j, j <> i -> lookup j (self_bookmarks s') = lookup j (self_bookmarks s))
    /\ next_id (self_bookmarks s') = next_id (self_bookmarks s)
    /\ (cache_removable (disk s) i = true -> cache_files (disk s') i = None)
    /\ (forall j, j <> i -> cache_files (disk s') j = cache_files (disk s) j).
Proof.
  intros Fd. destruct (remove_bookmark_state i s b Fd) as (t & E).
  eexists. eexists. split; [exact E|]. cbn [self_bookmarks disk].
  split; [apply saving_cases|].
  split; [intros St; now apply saving_storable, storable_without|].
  split; [apply lookup_without_same|].
  split; [intros j Hj; now apply lookup_without_other|].
  split; [reflexivity|].
  rewrite cache_files_saved. split.
  - intros R. rewrite R. destruct (cache_files (disk s) i) eqn:C; [|exact C].
    cbn [uncached with_cache cache_files]. now rewrite Z.eqb_refl.
  - intros j Hj. destruct (cache_files (disk s) i); [|reflexivity].
    destruct (cache_removable (disk s) i); [|reflexivity].
    cbn [uncached with_cache cache_files].
    destruct (Z.eqb_spec j i); [contradiction|reflexivity].
Qed.

Lemma remove_cascades_witness :
  exists r s',
    remove_bookmark 1
      (Sample.holding [Sample.entry 1 "https://python.org" "docs";
                       Sample.entry 2 "https://example.com" "misc"] 3)
    = (r, s')
    /\ (r = Ret tt \/ r = Raise unicode_encode_error)
    /\ (storable (self_bookmarks
                    (Sample.holding [Sample.entry 1 "https://python.org" "docs";
                                     Sample.entry 2 "https://example.com" "misc"] 3))
        = true -> r = Ret tt)
    /\ lookup 1 (self_bookmarks s') = None
    /\ (forall j, j <> 1%Z ->
        lookup j (self_bookmarks s')
        = lookup j (self_bookmarks
                      (Sample.holding [Sample.entry 1 "https://python.org" "docs";
                                       Sample.entry 2 "https://example.com" "misc"] 3)))
    /\ next_id (self_bookmarks s') = 3%Z
    /\ (true = true -> cache_files (disk s') 1 = None)
    /\ (forall j, j <> 1%Z -> cache_files (disk s') j = None).
Proof.
  exact (remove_cascades 1
           (Sample.holding [Sample.entry 1 "https://python.org" "docs";
                            Sample.entry 2 "https://example.com" "misc"] 3)
           (Sample.entry 1 "https://python.org" "docs") eq_refl).
Defined.

(** ** Store: every mutation is persisted *)

Lemma saved_in_step (c : container) (d : fs) (t : list event) :
  store_writable d = true -> store_readable d = true -> saving c d = Ret tt ->
  in_step {| self_bookmarks := c; disk := saved c d; trace := t |}.
Proof.
  intros W R Sv. unfold in_step, persisted, saved. cbn [disk self_bookmarks].
  unfold saving in Sv. rewrite W in *. cbn [andb] in Sv.
  destruct (json_encodable (container_to_json c)); [|discriminate Sv].
  cbn. auto.
Qed.

Section Persist.
Context `{Platform}.

Lemma run_op_in_step (o : op) (s s' : state) :
  in_step s -> run_op o s = (Ret tt, s') -> in_step s'.
Proof.
  intros (W & R & P) E. destruct o as [w url description tags|i]; cbn [run_op] in E.
  - destruct (netloc (normalized url)) as [dom|e] eqn:N;
      [|rewrite (add_raises_before_fetch w url description tags s e N) in E;
        discriminate E].
    destruct (fetch_page_text w (normalized url) (assigned s))
      as [[content|e] s2] eqn:F;
      [|rewrite (add_raises_in_fetch w url description tags s s2 dom e N F) in E;
        discriminate E].
    destruct (add_bookmark_state w url description tags s s2 dom content N F)
      as (t & E' & _).
    rewrite E' in E. injection E as Sv <-.
    apply saved_in_step; [| |exact Sv];
      destruct (truthy content && cache_writable (disk s) (next_id (self_bookmarks s)));
      assumption.
  - destruct (lookup i (self_bookmarks s)) as [b|] eqn:Fd.
    + destruct (remove_bookmark_state i s b Fd) as (t & E').
      rewrite E' in E. injection E as Sv <-.
      apply saved_in_step; [| |exact Sv];
        destruct (cache_files (disk s) i); try assumption;
        destruct (cache_removable (disk s) i); assumption.
    + rewrite (remove_not_found i s Fd) in E. injection E as <-.
      repeat split; assumption.
Qed.

(** Along a sequence of adds and removes on a store file that can be
    written and read and that holds the container at the start, the store
    file holds the container in memory after every operation that
    returned. *)
Theorem mutations_are_persisted (ops : list op) (s : state) :
  in_step s -> Forall step_in_step (steps ops s).
Proof.
  revert s. induction ops as [|o ops IH]; intros s I; [constructor|].
  cbn [steps]. destruct (run_op o s) as [r s'] eqn:E.
  destruct r as [[]|e].
  - pose proof (run_op_in_step o s s' I E) as I'.
    constructor; [intros _; exact I'|apply IH, I'].
  - constructor; [intros D; discriminate D|constructor].
Qed.

(** What being in step means to the next start of the program: a load
    returns the document of the container and prints nothing. *)
Theorem in_step_store_loads (s : state) :
  in_step s ->
  load_bookmarks s = (Ret (container_to_json (self_bookmarks s)), s)
  /\ container_of_json (container_to_json (self_bookmarks s)) = Some (self_bookmarks s).
Proof.
  intros (W & R & P). split; [|apply container_of_to_json].
  apply load_well_formed; assumption.
Qed.

End Persist.

Lemma written_store_in_step :
  in_step (on_disk Sample.fresh (Document (container_to_json empty_container))).
Proof. repeat split. Qed.

Lemma mutations_are_persisted_witness :
  in_step (on_disk Sample.fresh (Document (container_to_json empty_container)))
  /\ Forall step_in_step
       (@steps Sample.bare
          [Add Sample.offline (u "example.com") [] []; Remove 1; Remove 7]
          (on_disk Sample.fresh (Document (container_to_json empty_container)))).
Proof.
  split; [exact written_store_in_step|].
  exact (@mutations_are_persisted Sample.bare _ _ written_store_in_step).
Defined.

Lemma in_step_store_loads_witness :
  load_bookmarks (on_disk Sample.fresh (Document (container_to_json empty_container)))
  = (Ret (container_to_json empty_container),
     on_disk Sample.fresh (Document (container_to_json empty_container)))
  /\ container_of_json (container_to_json empty_container) = Some empty_container.
Proof. exact (in_step_store_loads _ written_store_in_step). Defined.

(** ** Store: what stored bookmarks look like *)

Lemma normalized_has_scheme (url : str) : has_scheme (normalized url) = true.
Proof.
  unfold normalized.
  destruct (startswith url (u "http://") || startswith url (u "https://")) eqn:E;
    cbn [negb]; [exact E|].
  unfold has_scheme. rewrite (startswith_app (u "https://") url). apply orb_true_r.
Qed.

Lemma normalized_keeps_scheme (url : str) :
  has_scheme url = true -> normalized url = url.
Proof. unfold has_scheme, normalized. now intros ->. Qed.

Section Kept.
Context `{Platform}.

Lemma run_op_well_kept (o : op) (s s' : state) (r : outcome unit) :
  Forall well_kept (bookmarks (self_bookmarks s)) ->
  run_op o s = (r, s') ->
  Forall well_kept (bookmarks (self_bookmarks s')).
Proof.
  intros K E. destruct o as [w url description tags|i]; cbn [run_op] in E.
  - destruct (netloc (normalized url)) as [dom|e] eqn:N;
      [|rewrite (add_raises_before_fetch w url description tags s e N) in E;
        injection E as _ <-; exact K].
    destruct (fetch_page_text w (normalized url) (assigned s))
      as [[content|e] s2] eqn:F.
    + destruct (add_bookmark_state w url description tags s s2 dom content N F)
        as (t & E' & _).
      rewrite E' in E. injection E as _ <-. cbn [self_bookmarks bookmarks].
      apply Forall_app. split; [exact K|]. constructor; [|constructor].
      split; [exact (normalized_has_scheme _)|exact N].
    + rewrite (add_raises_in_fetch w url description tags s s2 dom e N F) in E.
      injection E as _ <-.
      pose proof (keeps_fetch_page_text w (normalized url) (assigned s)) as Ks.
      rewrite F in Ks. cbn [snd] in Ks. destruct Ks as [Ks _]. rewrite Ks. exact K.
  - destruct (remove_bookmark_container i s) as (r0 & s0 & E0 & Hb & _).
    rewrite E in E0. injection E0 as _ ->. rewrite Hb.
    apply Forall_forall. intros b Hin. apply filter_In in Hin.
    rewrite Forall_forall in K. apply K, Hin.
Qed.

(** Along every sequence of adds and removes, if the stored urls begin
    with http:// or https:// and the stored domains are the hosts of their
    urls at the start, they do so after every step. *)
Theorem stored_urls_keep_scheme (ops : list op) (s : state) :
  Forall well_kept (bookmarks (self_bookmarks s)) ->
  Forall (fun st => Forall well_kept (bookmarks (self_bookmarks (snd st))))
         (steps ops s).
Proof.
  revert s. induction ops as [|o ops IH]; intros s K; [constructor|].
  cbn [steps]. destruct (run_op o s) as [r s'] eqn:E.
  pose proof (run_op_well_kept o s s' r K E) as K'.
  constructor; [exact K'|]. destruct r; [apply IH, K'|constructor].
Qed.

End Kept.

Lemma stored_urls_keep_scheme_witness :
  Forall (@well_kept Sample.bare) (bookmarks (self_bookmarks Sample.fresh))
  /\ Forall (fun st => Forall (@well_kept Sample.bare)
                              (bookmarks (self_bookmarks (snd st))))
            (@steps Sample.bare
               [Add Sample.offline (u "example.com/a") [] [];
                Add Sample.offline (u "http://b.org") [] []; Remove 1]
               Sample.fresh).
Proof.
  split; [constructor|].
  exact (@stored_urls_keep_scheme Sample.bare _ Sample.fresh (Forall_nil _)).
Defined.

(** ** Store: what a refresh changes *)

Section Refresh.
Context `{Platform}.

(** A refresh that returns leaves [next_id] and every bookmark as they
    were, except that a bookmark of the refreshed id may have
    [has_content] set; it touches the cache file of no other id; and for an
    id that is not stored it does nothing at all, not even print. *)
Theorem refresh_only_marks_content (w : env) (i : Z) (s s' : state) :
  refresh_bookmark_content w i s = (Ret tt, s') ->
  next_id (self_bookmarks s') = next_id (self_bookmarks s)
  /\ Forall2 (same_or_marked i) (bookmarks (self_bookmarks s))
             (bookmarks (self_bookmarks s'))
  /\ (forall j, j <> i -> cache_files (disk s') j = cache_files (disk s) j)
  /\ (lookup i (self_bookmarks s) = None -> s' = s).
Proof.
  intros E. destruct (lookup i (self_bookmarks s)) as [b|] eqn:Fd.
  - destruct (fetch_page_text w (url b) (printed s (refreshing_message i)))
      as [[content|e] s2] eqn:F;
      [|rewrite (refresh_raises w i s s2 b e Fd F) in E; discriminate E].
    pose proof (returns_text_fetch w (url b) _ _ _ F) as T.
    destruct (refresh_state w i s s2 b content Fd F T) as (t & E' & _).
    rewrite E' in E. injection E as _ <-.
    destruct (cache_writable (disk s) i); cbn [self_bookmarks disk bookmarks next_id].
    + split; [reflexivity|]. split; [apply mark_has_content_same_or_marked|].
      split; [|discriminate]. intros j Hj. rewrite cache_files_saved.
      cbn [cached with_cache cache_files].
      destruct (Z.eqb_spec j i); [contradiction|reflexivity].
    + split; [reflexivity|]. split; [apply Forall2_same_or_marked_refl|].
      split; [reflexivity|discriminate].
  - rewrite (refresh_not_found w i s Fd) in E. injection E as <-.
    split; [reflexivity|]. split; [apply Forall2_same_or_marked_refl|].
    split; reflexivity.
Qed.

End Refresh.

Lemma refresh_only_marks_content_witness :
  let s := Sample.holding [Sample.entry 1 "https://python.org" "docs";
                           Sample.entry 2 "https://example.com" "misc"] 3 in
  let s' := snd (@refresh_bookmark_content Sample.bare Sample.offline 2 s) in
  next_id (self_bookmarks s') = next_id (self_bookmarks s)
  /\ Forall2 (same_or_marked 2) (bookmarks (self_bookmarks s))
             (bookmarks (self_bookmarks s'))
  /\ (forall j, j <> 2%Z -> cache_files (disk s') j = cache_files (disk s) j)
  /\ (lookup 2 (self_bookmarks s) = None -> s' = s).
Proof.
  intros s s'.
  exact (@refresh_only_marks_content Sample.bare Sample.offline 2 s s'
           (surjective_pairing _)).
Defined.

(** ** Search and the filter of the TUI *)

Section Search_more.
Context `{Platform}.

Lemma filter_matches_search_matches (d : fs) (q : str) (bs : list bookmark) :
  filter_matches d q bs = map fst (search_matches d q bs).
Proof.
  induction bs as [|b bs IH]; [reflexivity|].
  cbn [filter_matches search_matches].
  destruct (contains q (lower (searchable b))); [|destruct (content_matches d q b)];
    cbn [map fst]; now rewrite IH.
Qed.

(** For a query that is not empty, the list the TUI displays is the list
    of the bookmarks that [search] reports for it, in the same order. *)
Theorem filter_agrees_with_search (query : str) (s : state) :
  truthy query = true ->
  get_filtered_bookmarks query s
  = (Ret (map fst (search_matches (disk s) (lower query) (bookmarks (self_bookmarks s)))),
     s).
Proof.
  intros T. unfold get_filtered_bookmarks. run. rewrite T. cbn [negb].
  now rewrite filter_matches_search_matches.
Qed.

Lemma search_finds (d : fs) (q : str) (bs : list bookmark) (b : bookmark) :
  In b bs ->
  contains q (lower (searchable b)) || content_matches d q b = true ->
  In b (map fst (search_matches d q bs)).
Proof.
  intros Hin Hm. rewrite search_matches_in_storage_order.
  apply filter_In. split; assumption.
Qed.

Lemma cache_readable_saved (c : container) (d : fs) :
  cache_readable (saved c d) = cache_readable d.
Proof.
  unfold saved. destruct (store_writable d); [|reflexivity].
  now destruct (json_encodable (container_to_json c)).
Qed.

(** A bookmark that was added with its cache file written and readable
    holds in that file the text the Fetcher returned for its url, and is
    found by every query whose lower-cased text occurs in that text, read
    back (each line end as a line feed) and lower-cased. *)
Theorem added_bookmark_is_found_by_content
      (w : env) (url description : str) (tags : list str) (s s' : state) :
  add_bookmark w url description tags s = (Ret tt, s') ->
  cache_writable (disk s) (next_id (self_bookmarks s)) = true ->
  cache_readable (disk s) (next_id (self_bookmarks s)) = true ->
  exists content s2 b,
    fetch_page_text w (normalized url) (assigned s) = (Ret content, s2)
    /\ cache_files (disk s') (id b) = Some content
    /\ In b (bookmarks (self_bookmarks s'))
    /\ id b = next_id (self_bookmarks s)
    /\ forall query,
         contains (lower query) (lower (universal_newlines content)) = true ->
         In b (map fst (search_matches (disk s') (lower query)
                          (bookmarks (self_bookmarks s')))).
Proof.
  intros E W R.
  destruct (netloc (normalized url)) as [dom|e] eqn:N;
    [|rewrite (add_raises_before_fetch w url description tags s e N) in E;
      discriminate E].
  destruct (fetch_page_text w (normalized url) (assigned s)) as [[content|e] s2] eqn:F;
    [|rewrite (add_raises_in_fetch w url description tags s s2 dom e N F) in E;
      discriminate E].
  pose proof (returns_text_fetch w (normalized url) _ _ _ F) as T.
  destruct (add_bookmark_state w url description tags s s2 dom content N F)
    as (t & E' & _).
  rewrite E' in E. injection E as _ <-. rewrite T, W. cbn [andb].
  exists content, s2, (new_bookmark w s url description tags dom true).
  cbn [self_bookmarks disk bookmarks]. unfold new_bookmark.
  split; [reflexivity|]. split; [|split; [|split; [reflexivity|]]].
  - cbn [id]. rewrite cache_files_saved. cbn [cached with_cache cache_files].
    now rewrite Z.eqb_refl.
  - apply in_or_app. right. left. reflexivity.
  - intros query Hq. apply search_finds.
    + apply in_or_app. right. left. reflexivity.
    + apply orb_true_iff. right. unfold content_matches, read_cache. cbn [id].
      rewrite cache_files_saved, cache_readable_saved.
      cbn [cached with_cache cache_files cache_readable]. rewrite R.
      cbn [negb]. rewrite Z.eqb_refl. exact Hq.
Qed.

End Search_more.

Lemma filter_agrees_with_search_witness :
  @get_filtered_bookmarks Sample.bare (u "py")
    (Sample.holding [Sample.entry 1 "https://python.org" "docs"] 2)
  = (Ret (map fst (@search_matches Sample.bare
                     (disk (Sample.holding [Sample.entry 1 "https://python.org" "docs"] 2))
                     (@lower Sample.bare (u "py"))
                     [Sample.entry 1 "https://python.org" "docs"])),
     Sample.holding [Sample.entry 1 "https://python.org" "docs"] 2).
Proof.
  exact (@filter_agrees_with_search Sample.bare (u "py")
           (Sample.holding [Sample.entry 1 "https://python.org" "docs"] 2) eq_refl).
Defined.

Lemma added_bookmark_is_found_by_content_witness :
  let s' := snd (@add_bookmark Sample.bare (Sample.serving (u "<p>Hello World</p>"))
                   (u "example.com") [] [] Sample.fresh) in
  exists content s2 b,
    @fetch_page_text Sample.bare (Sample.serving (u "<p>Hello World</p>"))
      (u "https://example.com") (assigned Sample.fresh) = (Ret content, s2)
    /\ cache_files (disk s') (id b) = Some content
    /\ In b (bookmarks (self_bookmarks s'))
    /\ id b = 1%Z
    /\ forall query,
         contains (@lower Sample.bare query)
                  (@lower Sample.bare (universal_newlines content)) = true ->
         In b (map fst (@search_matches Sample.bare (disk s') (@lower Sample.bare query)
                          (bookmarks (self_bookmarks s')))).
Proof.
  intros s'.
  exact (@added_bookmark_is_found_by_content Sample.bare
           (Sample.serving (u "<p>Hello World</p>")) (u "example.com") [] []
           Sample.fresh s' (surjective_pairing _) eq_refl eq_refl).
Defined.

(** ** Command surface: list, search and show *)

Lemma summaries_app (a b : list event) :
  summaries (a ++ b) = summaries a ++ summaries b.
Proof.
  induction a as [|e a IH]; [reflexivity|].
  destruct e; cbn [app summaries]; now rewrite IH.
Qed.




Section Cli.
Context `{Platform}.




End Cli.

(** [show] never raises and changes neither the container nor any file;
    when the bookmark is stored and its cache file exists and can be read,
    the cached text is printed as a file opened in text mode hands it
    back: each of ["\r\n"] and ["\r"] as ["\n"], every other character
    as it is. *)
Theorem show_prints_cached_content (i : Z) (s : state) :
  exists t,
    show_bookmark_content i s
    = (Ret tt, {| self_bookmarks := self_bookmarks s; disk := disk s;
                  trace := trace s ++ t |})
    /\ forall b content,
         lookup i (self_bookmarks s) = Some b ->
         cache_files (disk s) i = Some content ->
         cache_readable (disk s) i = true ->
         In (Print (universal_newlines content)) t.
Proof.
  unfold show_bookmark_content, find_bookmark, lookup.
  unfold bind at 1, gets. unfold bind at 1, ret.
  destruct (find (fun b => (id b =? i)%Z) (bookmarks (self_bookmarks s))) as [b|].
  - unfold cache_exists, read_cache. run. cbn [disk].
    destruct (cache_files (disk s) i) as [content|] eqn:C; cbn [negb]; cbv beta iota.
    + destruct (cache_readable (disk s) i) eqn:R; cbn [negb]; cbv beta iota;
        rewrite ?C; cbv beta iota;
        cbn [self_bookmarks disk trace isinstance cls os_error exn_class_eqb orb];
        cbv beta iota; rewrite <- ?app_assoc;
        (eexists; split; [reflexivity|]); intros b' content' _ E R'.
      * injection E as <-. cbn. tauto.
      * discriminate R'.
    + cbn [self_bookmarks disk trace]. rewrite <- ?app_assoc.
      eexists. split; [reflexivity|]. intros b' content' _ E. discriminate E.
  - eexists. split; [reflexivity|]. intros b content E. discriminate E.
Qed.

(** Once an id is removed, [show] of that id prints the not-found message
    and nothing else, whether or not the id was stored before. *)
Theorem show_after_remove_reports_not_found (i : Z) (s : state) :
  show_bookmark_content i (snd (remove_bookmark i s))
  = (Ret tt, printed (snd (remove_bookmark i s)) (not_found_message i)).
Proof.
  assert (Hl : lookup i (self_bookmarks (snd (remove_bookmark i s))) = None).
  { destruct (lookup i (self_bookmarks s)) as [b|] eqn:Fd.
    - destruct (remove_bookmark_state i s b Fd) as (t & E). rewrite E.
      apply lookup_without_same.
    - rewrite (remove_not_found i s Fd). exact Fd. }
  unfold lookup in Hl. unfold show_bookmark_content, find_bookmark.
  unfold bind at 1, gets. unfold bind at 1, ret. rewrite Hl. reflexivity.
Qed.

Lemma show_prints_cached_content_witness :
  let s := {| self_bookmarks := {| bookmarks := [Sample.entry 1 "https://python.org" "docs"];
                                   next_id := 2 |};
              disk := cached Sample.empty_disk 1 ([72; 105; 13; 10; 72; 111; 13]%N);
              trace := [] |} in
  exists t,
    show_bookmark_content 1 s
    = (Ret tt, {| self_bookmarks := self_bookmarks s; disk := disk s;
                  trace := trace s ++ t |})
    /\ In (Print ([72; 105; 10; 72; 111; 10]%N)) t.
Proof.
  intros s. destruct (show_prints_cached_content 1 s) as (t & E & Hin).
  exists t. split; [exact E|].
  exact (Hin (Sample.entry 1 "https://python.org" "docs")
             ([72; 105; 13; 10; 72; 111; 13]%N) eq_refl eq_refl eq_refl).
Defined.

(** ** TUI loop: selection, search entry and quitting *)

Lemma bind_ret_l {A B} (a : A) (k : A -> M B) (s : state) : bind (ret a) k s = k a s.
Proof. reflexivity. Qed.

Lemma bind_inv {A B} (c : M A) (k : A -> M B) (s s' : state) (b : B) :
  bind c k s = (Ret b, s') ->
  exists a s1, c s = (Ret a, s1) /\ k a s1 = (Ret b, s').
Proof.
  unfold bind. destruct (c s) as [[a|e] s1]; [|discriminate].
  intros E. now exists a, s1.
Qed.

Lemma then_ret_inv {A B} (c : M A) (x y : B) (s s' : state) :
  (c ;; ret x) s = (Ret y, s') -> y = x.
Proof.
  intros E. apply bind_inv in E. destruct E as (a & s1 & _ & E).
  unfold ret in E. now injection E as <- _.
Qed.

(** [l[i]] succeeds for every index from -1 to the last one. *)
Lemma py_index_in {A} (l : list A) (i : Z) :
  l <> [] ->
  (-1 <= i <= Z.max 0 (Z.of_nat (List.length l) - 1))%Z ->
  exists a, py_index l i = Ret a /\ In a l.
Proof.
  intros Hl Hi. unfold py_index.
  assert (Hn : (0 < Z.of_nat (List.length l))%Z) by (destruct l; [contradiction|cbn; lia]).
  set (n := Z.of_nat (List.length l)) in *.
  set (j := if (i <? 0)%Z then (n + i)%Z else i).
  assert (Hj : (0 <= j < n)%Z) by (subst j; destruct (Z.ltb_spec i 0); lia).
  replace ((0 <=? j)%Z && (j <? n)%Z) with true
    by (symmetry; apply andb_true_iff; split; [apply Z.leb_le|apply Z.ltb_lt]; lia).
  destruct (nth_error l (Z.to_nat j)) as [a|] eqn:E.
  - exists a. split; [reflexivity|]. now apply nth_error_In in E.
  - apply nth_error_None in E. subst n. lia.
Qed.

Lemma bounded_mode (v : view) (n : Z) : search_mode (bounded v n) = search_mode v.
Proof. unfold bounded. now destruct (n <=? selected_index v)%Z. Qed.

Lemma bounded_query (v : view) (n : Z) : search_query (bounded v n) = search_query v.
Proof. unfold bounded. now destruct (n <=? selected_index v)%Z. Qed.

Lemma bounded_index (v : view) (n : Z) :
  (0 <= n)%Z -> (-1 <= selected_index v)%Z ->
  (-1 <= selected_index (bounded v n) <= Z.max 0 (n - 1))%Z.
Proof.
  intros Hn Hv. unfold bounded.
  destruct (Z.leb_spec n (selected_index v)); cbn [with_index selected_index]; lia.
Qed.

Section Tui_loop.
Context `{Platform}.

Lemma get_filtered_returns (query : str) (s : state) :
  exists shown, get_filtered_bookmarks query s = (Ret shown, s).
Proof.
  unfold get_filtered_bookmarks. run.
  destruct (negb (truthy query)); eexists; reflexivity.
Qed.

Lemma get_filtered_same_store (query : str) (s s' : state) :
  self_bookmarks s' = self_bookmarks s -> disk s' = disk s ->
  fst (get_filtered_bookmarks query s') = fst (get_filtered_bookmarks query s).
Proof.
  intros E1 E2. unfold get_filtered_bookmarks. run. rewrite E1, E2.
  now destruct (negb (truthy query)).
Qed.

(** The head of a turn: the list for the query in force, the selection
    bounded for it, one frame drawn. *)
Lemma redraw_frame (v : view) (s : state) :
  exists shown,
    fst (get_filtered_bookmarks (if search_mode v then search_query v else []) s)
    = Ret shown
    /\ redraw v s
       = (Ret (bounded v (Z.of_nat (List.length shown)), shown),
          {| self_bookmarks := self_bookmarks s; disk := disk s;
             trace := trace s ++
                      [Draw shown
                            (selected_index (bounded v (Z.of_nat (List.length shown))))
                            (search_mode v) (search_query v)] |}).
Proof.
  destruct (get_filtered_returns (if search_mode v then search_query v else []) s)
    as (shown & E).
  exists shown. rewrite E. split; [reflexivity|].
  unfold redraw. unfold bind at 1. rewrite E. cbv beta iota zeta. unfold bounded.
  destruct (Z.of_nat (List.length shown) <=? selected_index v)%Z; reflexivity.
Qed.

Lemma tui_loop_nil (v v1 : view) (shown : list bookmark) (s s1 : state) :
  redraw v s = (Ret (v1, shown), s1) ->
  tui_loop v [] s = (Ret (v1, true), s1).
Proof. intros E. cbn [tui_loop]. unfold bind. now rewrite E. Qed.

Lemma tui_loop_cons (v v1 : view) (shown : list bookmark) (kp : keypress)
      (rest : list keypress) (s s1 : state) :
  redraw v s = (Ret (v1, shown), s1) ->
  tui_loop v (kp :: rest) s
  = match try_except (handle_key v1 shown kp)
            (fun e => if isinstance e KeyboardInterrupt
                      then Some (ret (v1, false)) else None) s1 with
    | (Ret (v2, true), s2) => tui_loop v2 rest s2
    | (Ret (v2, false), s2) => (Ret (v2, false), s2)
    | (Raise e, s2) => (Raise e, s2)
    end.
Proof.
  intros E. cbn [tui_loop]. unfold bind at 1. rewrite E. cbv beta iota.
  unfold bind at 1.
  destruct (try_except _ _ s1) as [[[v2 [|]]|e] s2]; reflexivity.
Qed.

(** A turn that goes on was not interrupted. *)
Lemma turn_goes_on (v1 v2 : view) (shown : list bookmark) (kp : keypress)
      (s1 s2 : state) :
  try_except (handle_key v1 shown kp)
    (fun e => if isinstance e KeyboardInterrupt then Some (ret (v1, false)) else None) s1
  = (Ret (v2, true), s2) ->
  handle_key v1 shown kp s1 = (Ret (v2, true), s2).
Proof.
  unfold try_except. destruct (handle_key v1 shown kp s1) as [[r|e] s']; [easy|].
  destruct (isinstance e KeyboardInterrupt); [|discriminate].
  unfold ret. intros E. discriminate E.
Qed.

(** No key moves the selection below -1. *)
Lemma handle_key_index (v v' : view) (bs : list bookmark) (kp : keypress)
      (s s' : state) (c : bool) :
  (-1 <= selected_index v)%Z ->
  handle_key v bs kp s = (Ret (v', c), s') ->
  (-1 <= selected_index v')%Z.
Proof.
  intros Hv. unfold handle_key. destruct (key kp) as [k|]; [|discriminate].
  rewrite bind_ret_l. cbv zeta. unfold search_key.
  repeat match goal with |- context [if ?b then _ else _] => destruct b end;
    intros E;
    first [ unfold ret in E; injection E as <- _ _;
            cbn [with_index selected_index]; lia
          | apply then_ret_inv in E; injection E as -> _; exact Hv
          | apply bind_inv in E; destruct E as (? & ? & _ & E);
            apply then_ret_inv in E; injection E as -> _; exact Hv ].
Qed.

(** Whenever the loop waits for a key, a frame was just drawn for the list
    in force, and the selection lies between -1 and its last index. *)
Lemma loop_waits_in_range (keys : list keypress) :
  forall (v v' : view) (s s' : state),
    (-1 <= selected_index v)%Z ->
    tui_loop v keys s = (Ret (v', true), s') ->
    exists shown t,
      fst (get_filtered_bookmarks (if search_mode v' then search_query v' else []) s')
      = Ret shown
      /\ trace s' = t ++ [Draw shown (selected_index v') (search_mode v') (search_query v')]
      /\ (-1 <= selected_index v' <= Z.max 0 (Z.of_nat (List.length shown) - 1))%Z.
Proof.
  induction keys as [|kp rest IH]; intros v v' s s' Hv E;
    destruct (redraw_frame v s) as (shown & F & R).
  - rewrite (tui_loop_nil _ _ _ _ _ R) in E. injection E as <- <-.
    exists shown, (trace s). cbn [trace]. rewrite bounded_mode, bounded_query.
    split; [|split; [reflexivity|apply bounded_index; [lia|exact Hv]]].
    rewrite <- F. now apply get_filtered_same_store.
  - rewrite (tui_loop_cons _ _ _ _ _ _ _ R) in E.
    match type of E with context [try_except ?c ?h ?x] =>
      destruct (try_except c h x) as [[[v2 [|]]|e] s2] eqn:T end;
      [|discriminate E|discriminate E].
    apply turn_goes_on in T. apply (IH v2 v' s2 s'); [|exact E].
    refine (handle_key_index _ _ _ _ _ _ _ _ T).
    apply bounded_index; [lia|exact Hv].
Qed.

(** Whenever the loop waits for a key, the last frame shows the list for
    the query in force, the selection lies between -1 and the last index
    of that list, and on a list that is not empty the lookup
    [bookmarks[selected_index]] of Enter, c, d and r yields one of its
    bookmarks. *)
Theorem selection_never_leaves_list (keys : list keypress) (v' : view) (s s' : state) :
  tui_loop initial_view keys s = (Ret (v', true), s') ->
  exists shown t,
    fst (get_filtered_bookmarks (if search_mode v' then search_query v' else []) s')
    = Ret shown
    /\ trace s' = t ++ [Draw shown (selected_index v') (search_mode v') (search_query v')]
    /\ (-1 <= selected_index v' <= Z.max 0 (Z.of_nat (List.length shown) - 1))%Z
    /\ (shown <> [] ->
        exists b, py_index shown (selected_index v') = Ret b /\ In b shown).
Proof.
  intros E.
  destruct (loop_waits_in_range keys initial_view v' s s' ltac:(cbn; lia) E)
    as (shown & t & F & T & I).
  exists shown, t. repeat split; try assumption; try lia.
  intros Hs. now apply py_index_in.
Qed.

End Tui_loop.

(** ** TUI loop: search entry and quitting *)

Section Search_entry.
Context `{Platform}.

(** A plain key in search-entry mode: a printable one is appended to the
    query, another one is dropped; the loop goes on and nothing else
    happens. *)
Lemma plain_key (v : view) (bs : list bookmark) (kp : keypress) (s : state) :
  search_mode v = true -> plain kp = true ->
  exists v2,
    handle_key v bs kp s = (Ret (v2, true), s)
    /\ search_mode v2 = true
    /\ search_query v2 = search_query v ++ typed_text [kp].
Proof.
  intros Hm Hp. unfold plain in Hp. unfold handle_key. cbn [typed_text].
  destruct (key kp) as [k|]; [|discriminate Hp].
  rewrite bind_ret_l. cbv zeta. rewrite Hm.
  apply negb_true_iff in Hp. rewrite Hp.
  destruct (isprintable k); eexists; (split; [reflexivity|]);
    cbn [search_mode search_query]; rewrite ?app_nil_r; now split.
Qed.

(** Plain keys in search-entry mode only extend the query and draw
    frames; the loop then carries on with the keys that follow. *)
Lemma typing_loop (typed : list keypress) :
  forall (v : view) (s : state),
    search_mode v = true -> forallb plain typed = true ->
    exists v1 t,
      search_mode v1 = true
      /\ search_query v1 = search_query v ++ typed_text typed
      /\ forall rest,
           tui_loop v (typed ++ rest) s
           = tui_loop v1 rest {| self_bookmarks := self_bookmarks s; disk := disk s;
                                 trace := trace s ++ t |}.
Proof.
  induction typed as [|kp typed IH]; intros v s Hm Hp.
  - exists v, []. cbn [typed_text app]. rewrite !app_nil_r.
    split; [exact Hm|split; [reflexivity|]]. intros rest. now destruct s.
  - cbn [forallb] in Hp. apply andb_true_iff in Hp. destruct Hp as [Hk Hp].
    destruct (redraw_frame v s) as (shown & _ & R).
    set (v1 := bounded v (Z.of_nat (List.length shown))) in *.
    assert (Hm1 : search_mode v1 = true) by (subst v1; now rewrite bounded_mode).
    match type of R with _ = (_, ?x) => set (s1 := x) in * end.
    destruct (plain_key v1 shown kp s1 Hm1 Hk) as (v2 & K & Hm2 & Hq2).
    destruct (IH v2 s1 Hm2 Hp) as (v3 & t & Hm3 & Hq3 & L).
    exists v3. eexists. split; [exact Hm3|]. split.
    + rewrite Hq3, Hq2. subst v1. rewrite bounded_query, <- app_assoc. f_equal.
      cbn [typed_text]. destruct (key kp) as [k|]; [|reflexivity].
      destruct (isprintable k); [now rewrite app_nil_r|reflexivity].
    + intros rest. cbn [app]. rewrite (tui_loop_cons _ _ _ _ _ _ _ R).
      unfold try_except. rewrite K, L. subst s1. cbn [self_bookmarks disk trace].
      rewrite <- app_assoc. reflexivity.
Qed.

(** In search-entry mode no typed key other than Escape, Enter and
    backspace leaves the mode or the loop, or touches the store: the
    printable ones extend the query in the order typed, and the loop waits
    on a frame that shows the bookmarks the query selects. *)
Theorem typing_extends_query (v : view) (typed : list keypress) (s : state) :
  search_mode v = true -> forallb plain typed = true ->
  exists v' shown t,
    tui_loop v typed s
    = (Ret (v', true),
       {| self_bookmarks := self_bookmarks s; disk := disk s;
          trace := trace s ++ t ++
                   [Draw shown (selected_index v') true (search_query v')] |})
    /\ search_mode v' = true
    /\ search_query v' = search_query v ++ typed_text typed
    /\ fst (get_filtered_bookmarks (search_query v') s) = Ret shown.
Proof.
  intros Hm Hp. destruct (typing_loop typed v s Hm Hp) as (v1 & t & Hm1 & Hq1 & L).
  specialize (L []). rewrite app_nil_r in L.
  match type of L with _ = tui_loop _ _ ?x => set (s1 := x) in * end.
  destruct (redraw_frame v1 s1) as (shown & F & R).
  rewrite Hm1 in F, R.
  exists (bounded v1 (Z.of_nat (List.length shown))), shown, t.
  rewrite L, (tui_loop_nil _ _ _ _ _ R). subst s1. cbn [self_bookmarks disk trace].
  rewrite bounded_mode, bounded_query, <- app_assoc.
  split; [reflexivity|]. split; [exact Hm1|]. split; [exact Hq1|].
  rewrite <- F. symmetry. now apply get_filtered_same_store.
Qed.

Lemma slash_key (v : view) (bs : list bookmark) (kp : keypress) (s : state) :
  search_mode v = false -> key kp = Typed (u "/") ->
  handle_key v bs kp s
  = (Ret ({| selected_index := selected_index v; search_mode := true;
             search_query := [] |}, true), s).
Proof. intros Hm Hk. unfold handle_key. rewrite Hk, Hm. reflexivity. Qed.

Lemma escape_key (v : view) (bs : list bookmark) (kp : keypress) (s : state) :
  search_mode v = true -> key kp = Typed esc ->
  handle_key v bs kp s = (Ret (initial_view, true), s).
Proof. intros Hm Hk. unfold handle_key. rewrite Hk, Hm. reflexivity. Qed.

(** From any view outside search-entry mode, [/], any keys other than
    Escape, Enter and backspace, then Escape: the loop waits in the view
    it started with (first row, no query), on a frame that shows every
    stored bookmark, and the store is as before. *)
Theorem escape_abandons_search (v : view) (slash escape : keypress)
        (typed : list keypress) (s : state) :
  search_mode v = false ->
  key slash = Typed (u "/") ->
  forallb plain typed = true ->
  key escape = Typed esc ->
  exists t,
    tui_loop v (slash :: typed ++ [escape]) s
    = (Ret (initial_view, true),
       {| self_bookmarks := self_bookmarks s; disk := disk s;
          trace := trace s ++ t ++
                   [Draw (bookmarks (self_bookmarks s)) 0 false []] |}).
Proof.
  intros Hm Hs Hp He.
  destruct (redraw_frame v s) as (shown & _ & R).
  rewrite (tui_loop_cons _ _ _ _ _ _ _ R). unfold try_except.
  rewrite slash_key by (rewrite ?bounded_mode; assumption).
  match goal with |- context [tui_loop ?a _ ?x] => set (v1 := a); set (s1 := x) end.
  destruct (typing_loop typed v1 s1 eq_refl Hp) as (v2 & t & Hm2 & _ & L).
  rewrite L. clear L.
  match goal with |- context [tui_loop _ _ ?x] => set (s2 := x) end.
  destruct (redraw_frame v2 s2) as (shown2 & _ & R2).
  rewrite (tui_loop_cons _ _ _ _ _ _ _ R2). unfold try_except.
  rewrite escape_key by (rewrite ?bounded_mode; assumption).
  match goal with |- context [tui_loop _ _ ?x] => set (s3 := x) end.
  destruct (redraw_frame initial_view s3) as (shown3 & F3 & R3).
  cbn [initial_view search_mode search_query] in F3, R3.
  unfold get_filtered_bookmarks in F3. cbn in F3. injection F3 as <-.
  rewrite (tui_loop_nil _ _ _ _ _ R3).
  assert (B : bounded initial_view
                (Z.of_nat (List.length (bookmarks (self_bookmarks s)))) = initial_view).
  { unfold bounded, initial_view. cbn [selected_index].
    destruct (Z.leb_spec (Z.of_nat (List.length (bookmarks (self_bookmarks s)))) 0);
      [|reflexivity].
    unfold with_index. cbn [search_mode search_query]. f_equal. lia. }
  repeat match goal with x := _ |- _ => subst x end.
  cbn [self_bookmarks disk trace] in *. rewrite B.
  cbn [initial_view selected_index]. rewrite <- !app_assoc.
  match goal with |- exists _, (_, {| self_bookmarks := _; disk := _;
                                      trace := _ ++ ?a ++ ?b ++ ?c ++ _ |}) = _ =>
    exists (a ++ b ++ c) end.
  now rewrite <- !app_assoc.
Qed.

(** What the loop did on [pre] it does again when more keys follow, up to
    the frame it was waiting on. *)
Lemma loop_prefix (pre : list keypress) :
  forall (v0 v : view) (s s1 : state),
    tui_loop v0 pre s = (Ret (v, true), s1) ->
    exists v_last s_last shown,
      redraw v_last s_last = (Ret (v, shown), s1)
      /\ forall rest, tui_loop v0 (pre ++ rest) s = tui_loop v_last rest s_last.
Proof.
  induction pre as [|kp pre IH]; intros v0 v s s1 E;
    destruct (redraw_frame v0 s) as (shown & _ & R).
  - rewrite (tui_loop_nil _ _ _ _ _ R) in E. injection E as <- <-.
    exists v0, s, shown. split; [exact R|reflexivity].
  - rewrite (tui_loop_cons _ _ _ _ _ _ _ R) in E.
    match type of E with context [try_except ?c ?h ?x] =>
      destruct (try_except c h x) as [[[v2 [|]]|e] s2] eqn:T end;
      [|discriminate E|discriminate E].
    destruct (IH v2 v s2 s1 E) as (vl & sl & sh & Rl & L).
    exists vl, sl, sh. split; [exact Rl|]. intros rest. cbn [app].
    rewrite (tui_loop_cons _ _ _ _ _ _ _ R), T. apply L.
Qed.

(** Where the loop waits for a key, an interrupt ends it, and so do [q]
    and Ctrl-C outside search-entry mode: the view and the state are those
    it was waiting in, and the keys that follow are not read. *)
Theorem quit_ends_loop (v0 v : view) (pre rest : list keypress) (kp : keypress)
        (s s1 : state) :
  tui_loop v0 pre s = (Ret (v, true), s1) ->
  quits v kp = true ->
  tui_loop v0 (pre ++ kp :: rest) s = (Ret (v, false), s1).
Proof.
  intros E Q. destruct (loop_prefix pre v0 v s s1 E) as (vl & sl & shown & R & L).
  rewrite L, (tui_loop_cons _ _ _ _ _ _ _ R). unfold try_except, handle_key.
  unfold quits in Q. destruct (key kp) as [k|].
  - apply andb_true_iff in Q. destruct Q as [Hm Hk]. apply negb_true_iff in Hm.
    rewrite bind_ret_l. cbv zeta. rewrite Hm. apply orb_true_iff in Hk.
    destruct Hk as [Hk|Hk]; apply str_eqb_eq in Hk; subst k; reflexivity.
  - reflexivity.
Qed.

End Search_entry.

Lemma selection_never_leaves_list_witness :
  let s := Sample.holding [Sample.entry 1 "https://python.org" "docs";
                           Sample.entry 2 "https://example.com" "misc"] 3 in
  let keys := [Sample.press "j"; Sample.press "j"; Sample.press "j"] in
  let v' := {| selected_index := 1; search_mode := false; search_query := [] |} in
  let s' := snd (@tui_loop Sample.bare initial_view keys s) in
  exists shown t,
    fst (@get_filtered_bookmarks Sample.bare
           (if search_mode v' then search_query v' else []) s')
    = Ret shown
    /\ trace s' = t ++ [Draw shown (selected_index v') (search_mode v') (search_query v')]
    /\ (-1 <= selected_index v' <= Z.max 0 (Z.of_nat (List.length shown) - 1))%Z
    /\ (shown <> [] ->
        exists b, py_index shown (selected_index v') = Ret b /\ In b shown).
Proof.
  intros s keys v' s'.
  apply (@selection_never_leaves_list Sample.bare keys v' s s').
  vm_compute. reflexivity.
Defined.

Lemma typing_extends_query_witness :
  let s := Sample.holding [Sample.entry 1 "https://python.org" "docs";
                           Sample.entry 2 "https://example.com" "misc"] 3 in
  let v := {| selected_index := 0; search_mode := true; search_query := [] |} in
  let typed := [Sample.press "p"; Sample.press "y"] in
  exists v' shown t,
    @tui_loop Sample.bare v typed s
    = (Ret (v', true),
       {| self_bookmarks := self_bookmarks s; disk := disk s;
          trace := trace s ++ t ++
                   [Draw shown (selected_index v') true (search_query v')] |})
    /\ search_mode v' = true
    /\ search_query v' = search_query v ++ @typed_text Sample.bare typed
    /\ fst (@get_filtered_bookmarks Sample.bare (search_query v') s) = Ret shown.
Proof.
  intros s v typed.
  apply (@typing_extends_query Sample.bare v typed s); vm_compute; reflexivity.
Defined.

Lemma escape_abandons_search_witness :
  let s := Sample.holding [Sample.entry 1 "https://python.org" "docs";
                           Sample.entry 2 "https://example.com" "misc"] 3 in
  let v := {| selected_index := 1; search_mode := false; search_query := [] |} in
  let escape := {| key := Typed esc; answers := []; world := Sample.offline |} in
  exists t,
    @tui_loop Sample.bare v
      (Sample.press "/" :: [Sample.press "p"; Sample.press "y"] ++ [escape]) s
    = (Ret (initial_view, true),
       {| self_bookmarks := self_bookmarks s; disk := disk s;
          trace := trace s ++ t ++
                   [Draw (bookmarks (self_bookmarks s)) 0 false []] |}).
Proof.
  intros s v escape.
  apply (@escape_abandons_search Sample.bare v (Sample.press "/") escape
           [Sample.press "p"; Sample.press "y"] s); vm_compute; reflexivity.
Defined.

Lemma quit_ends_loop_witness :
  let s := Sample.holding [Sample.entry 1 "https://python.org" "docs";
                           Sample.entry 2 "https://example.com" "misc"] 3 in
  let v := {| selected_index := 1; search_mode := false; search_query := [] |} in
  let s1 := snd (@tui_loop Sample.bare initial_view [Sample.press "j"] s) in
  @tui_loop Sample.bare initial_view
    ([Sample.press "j"] ++ Sample.press "q" :: [Sample.press "k"; Sample.press "d"]) s
  = (Ret (v, false), s1).
Proof.
  intros s v s1.
  apply (@quit_ends_loop Sample.bare initial_view v [Sample.press "j"]
           [Sample.press "k"; Sample.press "d"] (Sample.press "q") s s1);
    vm_compute; reflexivity.
Defined.

(** ** Dialogs of the TUI *)

Lemma lstrip_idempotent (a : str) : lstrip (lstrip a) = lstrip a.
Proof.
  induction a as [|c a IH]; [reflexivity|]. cbn [lstrip].
  destruct (is_space c) eqn:E; [exact IH|]. cbn [lstrip]. now rewrite E.
Qed.

Lemma lstrip_length (a : str) : (List.length (lstrip a) <= List.length a)%nat.
Proof.
  induction a as [|c a IH]; [cbn; lia|]. cbn [lstrip].
  destruct (is_space c); cbn [List.length]; lia.
Qed.

Lemma lstrip_snoc (a : str) (c : N) :
  is_space c = false -> exists x, lstrip (a ++ [c]) = x ++ [c].
Proof.
  intros E. induction a as [|d a IH].
  - exists []. cbn. now rewrite E.
  - cbn [app lstrip]. destruct (is_space d); [exact IH|]. now exists (d :: a).
Qed.

Lemma rstrip_idempotent (a : str) : rstrip (rstrip a) = rstrip a.
Proof. unfold rstrip. now rewrite rev_involutive, lstrip_idempotent. Qed.

(** Stripping the end leaves a stripped start as it is. *)
Lemma lstrip_rstrip (a : str) : lstrip a = a -> lstrip (rstrip a) = rstrip a.
Proof.
  destruct a as [|c a]; [reflexivity|]. cbn [lstrip].
  destruct (is_space c) eqn:E.
  - intros L. pose proof (lstrip_length a) as Hl. rewrite L in Hl. cbn in Hl. lia.
  - intros _. unfold rstrip. cbn [rev].
    destruct (lstrip_snoc (rev a) c E) as (x & ->).
    rewrite rev_app_distr. cbn [rev app lstrip]. now rewrite E.
Qed.

Lemma strip_idempotent (a : str) : strip (strip a) = strip a.
Proof.
  unfold strip. rewrite (lstrip_rstrip (lstrip a) (lstrip_idempotent a)).
  apply rstrip_idempotent.
Qed.

Lemma truthy_nonempty (a : str) : truthy a = true -> a <> [].
Proof. destruct a; [discriminate|discriminate]. Qed.

(** The tags the add form keeps are stripped and not empty. *)
Lemma form_tags_clean (pieces : list str) :
  Forall (fun t => t <> [] /\ strip t = t)
         (map strip (filter (fun tag => truthy (strip tag)) pieces)).
Proof.
  induction pieces as [|p ps IH]; [constructor|]. cbn [filter].
  destruct (truthy (strip p)) eqn:T; [|exact IH]. cbn [map]. constructor; [|exact IH].
  split; [now apply truthy_nonempty|apply strip_idempotent].
Qed.

Lemma remove_bookmark_store (i : Z) (s s0 : state) :
  same_store s s0 ->
  same_store (snd (remove_bookmark i s)) (snd (remove_bookmark i s0))
  /\ fst (remove_bookmark i s0) = fst (remove_bookmark i s).
Proof.
  intros [E1 E2]. destruct (lookup i (self_bookmarks s)) as [b|] eqn:Fd.
  - destruct (remove_bookmark_state i s b Fd) as (t & ->).
    rewrite <- E1 in Fd. destruct (remove_bookmark_state i s0 b Fd) as (t0 & ->).
    cbn [fst snd]. rewrite E1, E2. split; [split|]; reflexivity.
  - rewrite (remove_not_found i s Fd). rewrite <- E1 in Fd.
    rewrite (remove_not_found i s0 Fd). cbn [fst snd printed].
    split; [split; cbn; assumption|reflexivity].
Qed.

Lemma remove_bookmark_returns (i : Z) (s : state) :
  storable (self_bookmarks s) = true -> fst (remove_bookmark i s) = Ret tt.
Proof.
  intros St. destruct (lookup i (self_bookmarks s)) as [b|] eqn:Fd.
  - destruct (remove_bookmark_state i s b Fd) as (t & ->). cbn [fst].
    now apply saving_storable, storable_without.
  - now rewrite (remove_not_found i s Fd).
Qed.

Section Dialogs.
Context `{Platform}.

(** The delete dialog removes only on an answer that lower-cases to [y]:
    then the bookmarks and the files end as [remove] of the bookmark's id
    leaves them, and the dialog ends as that [remove] does, which returns
    when no stored string holds a lone surrogate; on any other answer the
    dialog returns, and then, as when the read is interrupted or finds the
    input closed, bookmarks and files are left as they were. *)
Theorem delete_needs_confirmation (answers : list input) (b : bookmark) (s : state) :
  let s' := snd (delete_bookmark_tui answers b s) in
  match confirmation answers with
  | Some k =>
      if str_eqb (lower k) (u "y")
      then same_store (snd (remove_bookmark (id b) s)) s'
           /\ fst (delete_bookmark_tui answers b s) = fst (remove_bookmark (id b) s)
           /\ (storable (self_bookmarks s) = true ->
               fst (delete_bookmark_tui answers b s) = Ret tt)
      else fst (delete_bookmark_tui answers b s) = Ret tt /\ same_store s s'
  | None =>
      same_store s s' /\ exists e, fst (delete_bookmark_tui answers b s) = Raise e
  end.
Proof.
  cbv zeta. unfold confirmation, delete_bookmark_tui, get_key_termios, input_line.
  pose proof (remove_bookmark_returns (id b) s) as Rt.
  destruct (nth_error answers 0) as [[k|]|]; destruct HAS_TERMIOS;
    destruct (truthy (description b)); run;
    repeat match goal with
           | |- context [str_eqb ?a ?c] => destruct (str_eqb a c)
           end;
    cbn [fst snd];
    try (split; [reflexivity|]);
    try (split; [|eexists; reflexivity]);
    try (split; reflexivity);
    match goal with
    | |- context [remove_bookmark (id b) ?x] =>
        destruct (remove_bookmark_store (id b) s x (conj eq_refl eq_refl)) as [R1 R2];
        rewrite <- R2 in Rt |- *;
        destruct (remove_bookmark (id b) x) as [[[]|e] sx];
        cbn [fst snd] in *; (split; [exact R1|]); (split; [reflexivity|exact Rt])
    end.
Qed.

Lemma add_bookmark_bookmarks (w : env) (link about : str) (labels : list str)
      (s s' : state) (r : outcome unit) :
  add_bookmark w link about labels s = (r, s') ->
  bookmarks (self_bookmarks s') = bookmarks (self_bookmarks s)
  \/ exists b,
       bookmarks (self_bookmarks s') = bookmarks (self_bookmarks s) ++ [b]
       /\ tags b = labels /\ description b = about /\ url b = normalized link.
Proof.
  intros E.
  destruct (netloc (normalized link)) as [dom|e] eqn:N.
  - destruct (fetch_page_text w (normalized link) (assigned s)) as [[content|e] s2] eqn:F.
    + destruct (add_bookmark_state w link about labels s s2 dom content N F)
        as (t & E' & _).
      rewrite E' in E. injection E as _ <-. right. eexists. cbn [self_bookmarks bookmarks].
      split; [reflexivity|]. cbn. repeat split.
    + rewrite (add_raises_in_fetch w link about labels s s2 dom e N F) in E.
      injection E as _ <-. left.
      pose proof (keeps_fetch_page_text w (normalized link) (assigned s)) as K.
      rewrite F in K. destruct K as [K _]. cbn [snd] in K. now rewrite K.
  - rewrite (add_raises_before_fetch w link about labels s e N) in E.
    injection E as _ <-. now left.
Qed.

(** An add form that is left with a blank url, or interrupted at one of
    its three prompts, returns to the loop and has changed neither the
    container nor any file. *)
Theorem abandoned_form_adds_nothing (w : env) (answers : list input) (s : state) :
  abandoned answers = true ->
  exists t,
    add_bookmark_tui w answers s
    = (Ret tt, {| self_bookmarks := self_bookmarks s; disk := disk s;
                  trace := trace s ++ t |}).
Proof.
  unfold abandoned, add_bookmark_tui, input_line.
  destruct answers as [|[url|] rest]; [discriminate| |].
  - cbn [nth_error]. destruct (truthy (strip url)) eqn:T; cbn [negb orb].
    + destruct rest as [|[d|] [|[tg|] rest]]; try discriminate; intros _;
        run; rewrite T; cbn [negb nth_error];
        cbn [isinstance cls keyboard_interrupt exn_class_eqb orb];
        cbn [self_bookmarks disk trace]; rewrite <- ?app_assoc; eexists; reflexivity.
    + intros _. run. rewrite T. cbn [negb]. eexists. reflexivity.
  - intros _. cbn [nth_error]. run.
    cbn [isinstance cls keyboard_interrupt exn_class_eqb orb].
    cbn [self_bookmarks disk trace]. rewrite <- ?app_assoc. eexists. reflexivity.
Qed.

(** When the add form returns, it has added nothing or one bookmark at the
    end of the list; the description and the tags of that bookmark carry no
    white space at either end, no tag is empty, and the url has a
    scheme. *)
Theorem form_stores_clean_fields (w : env) (answers : list input) (s s' : state) :
  add_bookmark_tui w answers s = (Ret tt, s') ->
  bookmarks (self_bookmarks s') = bookmarks (self_bookmarks s)
  \/ exists b,
       bookmarks (self_bookmarks s') = bookmarks (self_bookmarks s) ++ [b]
       /\ strip (description b) = description b
       /\ Forall (fun t => t <> [] /\ strip t = t) (tags b)
       /\ has_scheme (url b) = true.
Proof.
  destruct (abandoned answers) eqn:Ab.
  - destruct (abandoned_form_adds_nothing w answers s Ab) as (t & ->).
    intros E. injection E as <-. now left.
  - unfold abandoned in Ab. unfold add_bookmark_tui, input_line.
    destruct answers as [|[url|] rest]; [intros E; discriminate E| |discriminate Ab].
    destruct (truthy (strip url)) eqn:T; [|discriminate Ab]. cbn [negb orb] in Ab.
    destruct rest as [|[d|] [|[tg|] rest]]; try discriminate Ab;
      try (cbn [nth_error]; run; rewrite T; cbn [negb nth_error]; cbv beta iota;
           cbn [isinstance cls exn_class_eqb orb]; intros E; discriminate E).
    cbn [nth_error]. run. rewrite T. cbn [negb nth_error].
    match goal with |- context [add_bookmark w ?a ?b ?c ?x] =>
      pose proof (add_bookmark_bookmarks w a b c x) as A;
      destruct (add_bookmark w a b c x) as [[[]|e] s4] end;
      specialize (A _ _ eq_refl); cbn [self_bookmarks bookmarks] in A.
    + intros E. injection E as <-. destruct A as [A|(b & A & Ht & Hd & Hu)];
        [now left|right].
      exists b. split; [exact A|]. rewrite Hd, Ht, Hu.
      split; [apply strip_idempotent|]. split; [|apply normalized_has_scheme].
      destruct (truthy (strip tg)); [apply form_tags_clean|constructor].
    + destruct (isinstance e KeyboardInterrupt); [|intros E; discriminate E].
      intros E. injection E as <-. cbn [self_bookmarks bookmarks].
      destruct A as [A|(b & A & Ht & Hd & Hu)]; [now left|right].
      exists b. split; [exact A|]. rewrite Hd, Ht, Hu.
      split; [apply strip_idempotent|]. split; [|apply normalized_has_scheme].
      destruct (truthy (strip tg)); [apply form_tags_clean|constructor].
Qed.

End Dialogs.

Lemma abandoned_form_adds_nothing_witness :
  exists t,
    @add_bookmark_tui Sample.bare (Sample.serving (u "<p>Hello</p>"))
      [Typed (u "example.com"); Interrupt] Sample.fresh
    = (Ret tt, {| self_bookmarks := self_bookmarks Sample.fresh;
                  disk := disk Sample.fresh;
                  trace := trace Sample.fresh ++ t |}).
Proof.
  apply (@abandoned_form_adds_nothing Sample.bare (Sample.serving (u "<p>Hello</p>"))
           [Typed (u "example.com"); Interrupt] Sample.fresh).
  vm_compute. reflexivity.
Defined.

Lemma form_stores_clean_fields_witness :
  let answers := [Typed (u " example.com "); Typed (u " docs "); Typed (u "a, ,b ")] in
  let s' := snd (@add_bookmark_tui Sample.bare (Sample.serving (u "<p>Hello</p>"))
                   answers Sample.fresh) in
  bookmarks (self_bookmarks s') = bookmarks (self_bookmarks Sample.fresh)
  \/ exists b,
       bookmarks (self_bookmarks s') = bookmarks (self_bookmarks Sample.fresh) ++ [b]
       /\ strip (description b) = description b
       /\ Forall (fun t => t <> [] /\ strip t = t) (tags b)
       /\ has_scheme (url b) = true.
Proof.
  intros answers s'.
  apply (@form_stores_clean_fields Sample.bare (Sample.serving (u "<p>Hello</p>"))
           answers Sample.fresh s').
  vm_compute. reflexivity.
Defined.

(** ** The frame of the TUI *)

Lemma range_length (n : Z) : List.length (range n) = Z.to_nat n.
Proof. unfold range. now rewrite length_map, length_seq. Qed.

Lemma in_range (i n : Z) : In i (range n) <-> (0 <= i < n)%Z.
Proof.
  unfold range. rewrite in_map_iff. split.
  - intros (k & <- & Hk). apply in_seq in Hk. lia.
  - intros Hi. exists (Z.to_nat i). split; [lia|]. apply in_seq. lia.
Qed.

Lemma range_NoDup (n : Z) : NoDup (range n).
Proof.
  unfold range. pose proof (seq_NoDup (Z.to_nat n) 0) as D.
  induction D as [|k l Hk D IH]; cbn [map]; constructor; [|exact IH].
  rewrite in_map_iff. intros (j & E & Hj). apply Nat2Z.inj in E. now subst j.
Qed.

Lemma py_index_nth {A} (l : list A) (i : Z) :
  (0 <= i < len l)%Z ->
  exists a, py_index l i = Ret a /\ nth_error l (Z.to_nat i) = Some a.
Proof.
  unfold len. intros Hi. unfold py_index.
  replace (i <? 0)%Z with false by (symmetry; apply Z.ltb_ge; lia).
  replace ((0 <=? i)%Z && (i <? Z.of_nat (List.length l))%Z) with true
    by (symmetry; apply andb_true_iff; split; [apply Z.leb_le|apply Z.ltb_lt]; lia).
  destruct (nth_error l (Z.to_nat i)) as [a|] eqn:E; [now exists a|].
  apply nth_error_None in E. lia.
Qed.

Lemma printing_nil (s : state) : printing s [] = s.
Proof. unfold printing. cbn [map]. rewrite app_nil_r. now destruct s. Qed.

Lemma printed_printing (s : state) (x : str) : printed s x = printing s [x].
Proof. reflexivity. Qed.

Lemma printing_printing (s : state) (a b : list str) :
  printing (printing s a) b = printing s (a ++ b).
Proof. unfold printing. cbn [self_bookmarks disk trace]. now rewrite map_app, app_assoc. Qed.


Lemma bind_returns {A B} (c : M A) (k : A -> M B) (s s' : state) (a : A) :
  c s = (Ret a, s') -> bind c k s = k a s'.
Proof. intros E. unfold bind. now rewrite E. Qed.

(** A loop whose body prints one line at each turn. *)
Lemma for_each_prints {A} (l : list A) (body : A -> M unit) (f : A -> str) :
  (forall a, In a l -> forall s, body a s = (Ret tt, printed s (f a))) ->
  forall s, for_each l body s = (Ret tt, printing s (map f l)).
Proof.
  induction l as [|a l IH]; intros Hb s.
  - cbn [for_each map]. unfold ret. now rewrite printing_nil.
  - cbn [for_each map]. rewrite (bind_returns _ _ _ _ _ (Hb a (or_introl eq_refl) s)).
    rewrite IH by (intros a' Ha'; apply Hb; now right).
    now rewrite printed_printing, printing_printing.
Qed.


Lemma times_length (c : N) (n : Z) : List.length (times [c] n) = Z.to_nat n.
Proof.
  unfold times. induction (Z.to_nat n) as [|k IH]; [reflexivity|].
  cbn [repeat List.concat app List.length]. now rewrite IH.
Qed.

Lemma upto_length {A} (a : list A) (n : Z) :
  (0 <= n)%Z -> List.length (upto a n) = Nat.min (Z.to_nat n) (List.length a).
Proof.
  intros Hn. unfold upto.
  replace (n <? 0)%Z with false by (symmetry; apply Z.ltb_ge; lia).
  apply length_firstn.
Qed.

Lemma upto_from {A} (a : list A) (n : Z) : upto a n ++ from a n = a.
Proof. unfold upto, from. apply firstn_skipn. Qed.

Lemma from_length {A} (a : list A) (n : Z) :
  (0 <= n)%Z -> List.length (from a n) = (List.length a - Z.to_nat n)%nat.
Proof.
  intros Hn. unfold from.
  replace (n <? 0)%Z with false by (symmetry; apply Z.ltb_ge; lia).
  apply length_skipn.
Qed.

Lemma upto_short {A} (a : list A) (n : Z) : (len a <= n)%Z -> upto a n = a.
Proof.
  unfold len. intros Hn. unfold upto.
  replace (n <? 0)%Z with false by (symmetry; apply Z.ltb_ge; lia).
  apply firstn_all2. lia.
Qed.

(** ** The rows and the scroll window *)

(** The window holds [min(12, n)] rows of the list, and the selected one
    when there is one. *)
Lemma scroll_window_bounds (selected_index n : Z) :
  (0 < n)%Z ->
  let '(start_idx, end_idx) := scroll_window selected_index n in
  (0 <= start_idx <= end_idx)%Z /\ (end_idx <= n)%Z
  /\ (end_idx - start_idx = Z.min display_height n)%Z
  /\ ((0 <= selected_index < n)%Z -> (start_idx <= selected_index < end_idx)%Z).
Proof.
  intros Hn. unfold scroll_window, display_height.
  change (12 / 2)%Z with 6%Z. cbv zeta. lia.
Qed.

Section Rows.
Context `{Platform}.

(** The text of a row is [width - 4] code points long and begins with a
    space. *)
Lemma bookmark_line_shape (b : bookmark) :
  exists rest, bookmark_line b = 32%N :: rest /\ len rest = (width - 5)%Z.
Proof.
  unfold bookmark_line. cbv zeta.
  match goal with |- context [upto ?l (width - 4)] => set (line := l) end.
  assert (Hl : exists tl, line = 32%N :: tl).
  { subst line. change (u " ") with [32%N].
    repeat match goal with |- context [if ?c then _ else _] => destruct c end;
      cbn [app]; eexists; reflexivity. }
  destruct Hl as (tl & Hl). clearbody line. subst line.
  exists (firstn 75 tl ++ times [32%N] (Z.max 0 (width - len (32%N :: tl) - 4))).
  split; [reflexivity|].
  unfold len, width. rewrite length_app, length_firstn, times_length.
  cbn [List.length]. lia.
Qed.

End Rows.

Section Rows_drawn.
Context `{Platform}.

(** A row shows the same [width - 4] code points of text whether it is
    selected or not: only the colours differ. *)
Theorem row_text_is_uniform (b : bookmark) :
  len (bookmark_line b) = (width - 4)%Z
  /\ u "║" ++ bookmark_line b ++ u " ║" = u "║ " ++ from (bookmark_line b) 1 ++ u " ║".
Proof.
  destruct (bookmark_line_shape b) as (rest & -> & L). split.
  - unfold len in *. cbn [List.length]. lia.
  - reflexivity.
Qed.

(** The rows of a list that is not empty: row [i] shows the bookmark at
    [start_idx + i] while the window lasts, on the blue background if it
    is the selected one, and is blank after that. *)
Lemma draw_rows_window (bs : list bookmark) (sel : Z) (q : str) (s : state) :
  bs <> [] ->
  exists f,
    draw_rows bs sel q s = (Ret tt, printing s (map f (range display_height)))
    /\ forall i, (0 <= i < display_height)%Z ->
         if (i <? snd (scroll_window sel (len bs)) - fst (scroll_window sel (len bs)))%Z
         then exists b,
                nth_error bs (Z.to_nat (fst (scroll_window sel (len bs)) + i)) = Some b
                /\ f i = if (fst (scroll_window sel (len bs)) + i =? sel)%Z
                         then colored (u "║" ++ bookmark_line b ++ u " ║")
                                      Colors.WHITE BG_BLUE
                         else colored (u "║ " ++ from (bookmark_line b) 1 ++ u " ║")
                                      Colors.WHITE []
         else f i = blank_row.
Proof.
  intros Hb.
  assert (Hn : (0 < len bs)%Z) by (unfold len; destruct bs; [contradiction|cbn; lia]).
  pose proof (scroll_window_bounds sel (len bs) Hn) as W.
  destruct (scroll_window sel (len bs)) as [st en] eqn:Ew.
  destruct W as (W1 & W2 & W3 & _). cbn [fst snd].
  exists (fun i =>
            if (i <? en - st)%Z then
              match nth_error bs (Z.to_nat (st + i)) with
              | Some b => if (st + i =? sel)%Z
                          then colored (u "║" ++ bookmark_line b ++ u " ║")
                                       Colors.WHITE BG_BLUE
                          else colored (u "║ " ++ from (bookmark_line b) 1 ++ u " ║")
                                       Colors.WHITE []
              | None => blank_row
              end
            else blank_row).
  split.
  - unfold draw_rows. destruct bs as [|b0 bs']; [contradiction|]. cbn [nonempty negb].
    rewrite Ew. apply for_each_prints. intros i Hi s0. apply in_range in Hi.
    destruct (Z.ltb_spec i (en - st)); [|reflexivity].
    destruct (py_index_nth (b0 :: bs') (st + i) ltac:(lia)) as (b & P & N).
    rewrite N. unfold bind at 1, lift. rewrite P.
    destruct (st + i =? sel)%Z; reflexivity.
  - intros i Hi. destruct (Z.ltb_spec i (en - st)); [|reflexivity].
    destruct (py_index_nth bs (st + i) ltac:(lia)) as (b & _ & N).
    exists b. rewrite N. now split.
Qed.


Lemma unselected_not_highlighted (text : str) :
  highlighted (colored text Colors.WHITE []) = false.
Proof. reflexivity. Qed.

Lemma blank_not_highlighted : highlighted blank_row = false.
Proof. reflexivity. Qed.

(** The selected bookmark is always among the twelve rows drawn, and it is
    the one row on the blue background. *)
Theorem selected_row_is_highlighted (bs : list bookmark) (sel : Z) (q : str)
        (s : state) (b : bookmark) :
  (0 <= sel)%Z -> nth_error bs (Z.to_nat sel) = Some b ->
  exists before after,
    draw_rows bs sel q s
    = (Ret tt,
       printing s (before
                   ++ colored (u "║" ++ bookmark_line b ++ u " ║") Colors.WHITE BG_BLUE
                   :: after))
    /\ (List.length before + List.length after = 11)%nat
    /\ Forall (fun row => highlighted row = false) (before ++ after).
Proof.
  intros Hs Hb.
  assert (Hl : (sel < len bs)%Z).
  { unfold len. assert (Z.to_nat sel < List.length bs)%nat; [|lia].
    apply nth_error_Some. now rewrite Hb. }
  assert (Hne : bs <> []) by (intros ->; unfold len in Hl; cbn in Hl; lia).
  destruct (draw_rows_window bs sel q s Hne) as (f & E & F).
  pose proof (scroll_window_bounds sel (len bs) ltac:(lia)) as W.
  destruct (scroll_window sel (len bs)) as [st en].
  destruct W as (W1 & W2 & W3 & W4). specialize (W4 ltac:(lia)). cbn [fst snd] in F.
  assert (Hi : (0 <= sel - st < display_height)%Z) by lia.
  destruct (in_split _ _ (proj2 (in_range (sel - st) display_height) Hi))
    as (l1 & l2 & R).
  pose proof (range_NoDup display_height) as D. rewrite R in D.
  apply NoDup_remove_2 in D.
  pose proof (range_length display_height) as L. rewrite R, length_app in L.
  cbn [List.length] in L. change (Z.to_nat display_height) with 12%nat in L.
  exists (map f l1), (map f l2). rewrite E, R, map_app. cbn [map].
  assert (F0 : f (sel - st)%Z
               = colored (u "║" ++ bookmark_line b ++ u " ║") Colors.WHITE BG_BLUE).
  { specialize (F _ Hi). destruct (Z.ltb_spec (sel - st) (en - st)); [|lia].
    destruct F as (b' & N & ->). replace (st + (sel - st))%Z with sel in * by lia.
    rewrite Hb in N. injection N as <-. now rewrite Z.eqb_refl. }
  rewrite F0. split; [reflexivity|]. split; [rewrite !length_map; lia|].
  rewrite <- map_app. apply Forall_forall. intros row Hr.
  apply in_map_iff in Hr. destruct Hr as (i & <- & Hi').
  assert (Hr : In i (range display_height))
    by (rewrite R; apply in_app_iff; apply in_app_iff in Hi'; cbn; tauto).
  apply in_range in Hr. specialize (F _ Hr).
  destruct (i <? en - st)%Z; [|rewrite F; apply blank_not_highlighted].
  destruct F as (b' & _ & ->).
  destruct (Z.eqb_spec (st + i) sel) as [Es|]; [|apply unselected_not_highlighted].
  exfalso. apply D. replace (sel - st)%Z with i by lia. exact Hi'.
Qed.

End Rows_drawn.

(** ** The preview of the selected bookmark *)

(** With room for at least one code point per piece, the [while] loop
    ends: it has cut the line into pieces of at most [max_width - 2] and
    lost nothing. *)
Lemma wrap_returns (max_width : Z) :
  (3 <= max_width)%Z ->
  forall (fuel : nat) (line : str) (lines : list str),
    (List.length line < fuel)%nat ->
    exists chunks rest,
      wrap fuel max_width line lines = Some (lines ++ chunks, rest)
      /\ List.concat chunks ++ rest = line
      /\ Forall (fun c => (len c <= max_width - 2)%Z) chunks
      /\ (len rest <= max_width - 2)%Z.
Proof.
  intros Hw. induction fuel as [|fuel IH]; intros line lines Hf; [lia|].
  cbn [wrap]. destruct (Z.ltb_spec (max_width - 2) (len line)) as [Hlong|Hshort].
  - destruct (IH (from line (max_width - 2)) (lines ++ [upto line (max_width - 2)]))
      as (chunks & rest & E & C & F & R).
    { rewrite from_length by lia. unfold len in Hlong. lia. }
    exists (upto line (max_width - 2) :: chunks), rest.
    rewrite E, <- app_assoc. split; [reflexivity|]. cbn [List.concat].
    rewrite <- app_assoc, C, upto_from. split; [reflexivity|]. split; [|exact R].
    constructor; [|exact F]. unfold len. rewrite upto_length by lia. lia.
  - exists [], line. rewrite app_nil_r. repeat split; [constructor|exact Hshort].
Qed.

Lemma preview_lines_returns (max_width : Z) :
  (3 <= max_width)%Z ->
  forall (pieces : list str) (lines : list str),
    exists out,
      preview_lines max_width pieces lines = Some (lines ++ out)
      /\ List.concat out = List.concat (filter (fun l => truthy (strip l)) pieces)
      /\ Forall (fun c => (len c <= max_width - 2)%Z) out.
Proof.
  intros Hw. induction pieces as [|line rest IH]; intros lines.
  - exists []. rewrite app_nil_r. repeat split. constructor.
  - cbn [preview_lines filter]. destruct (truthy (strip line)).
    + destruct (wrap_returns max_width Hw (S (List.length line)) line lines
                  (Nat.lt_succ_diag_r _)) as (chunks & last_piece & -> & C & F & R).
      destruct (truthy last_piece) eqn:T.
      * destruct (IH ((lines ++ chunks) ++ [last_piece])) as (out & -> & Co & Fo).
        exists (chunks ++ [last_piece] ++ out). rewrite <- !app_assoc.
        split; [reflexivity|]. cbn [List.concat app].
        rewrite concat_app. cbn [List.concat]. rewrite Co, app_assoc, C.
        split; [reflexivity|]. apply Forall_app. split; [exact F|].
        constructor; assumption.
      * destruct (IH (lines ++ chunks)) as (out & -> & Co & Fo).
        exists (chunks ++ out). rewrite <- app_assoc. split; [reflexivity|].
        cbn [List.concat]. rewrite concat_app, Co, <- C.
        destruct last_piece; [|discriminate T]. rewrite app_nil_r.
        split; [reflexivity|]. apply Forall_app. now split.
    + destruct ((0 <? len lines)%Z && truthy (last lines [])).
      * destruct (IH (lines ++ [[]])) as (out & -> & Co & Fo).
        exists ([] :: out). rewrite <- app_assoc. split; [reflexivity|].
        cbn [List.concat app]. split; [exact Co|]. constructor; [|exact Fo].
        unfold len. cbn. lia.
      * exact (IH lines).
Qed.

(** The lines of the preview hold the text of the lines of the content
    that are not blank, in order and with nothing lost, in pieces of at
    most [max_width - 2] code points. *)
Theorem preview_keeps_text (max_width : Z) (content : str) :
  (3 <= max_width)%Z ->
  exists lines,
    preview_lines max_width (split_on 10 content) [] = Some lines
    /\ List.concat lines
       = List.concat (filter (fun l => truthy (strip l)) (split_on 10 content))
    /\ Forall (fun c => (len c <= max_width - 2)%Z) lines.
Proof.
  intros Hw. destruct (preview_lines_returns max_width Hw (split_on 10 content) [])
    as (out & E & C & F).
  now exists out.
Qed.

Lemma preview_keeps_text_witness :
  exists lines,
    preview_lines 12 (split_on 10 (u "Welcome to Python.org")) [] = Some lines
    /\ List.concat lines
       = List.concat (filter (fun l => truthy (strip l))
                        (split_on 10 (u "Welcome to Python.org")))
    /\ Forall (fun c => (len c <= 12 - 2)%Z) lines.
Proof. apply (preview_keeps_text 12 (u "Welcome to Python.org")). lia. Defined.








Section Frame_drawn.
Context `{Platform}.
Variable strftime : str -> option str.




End Frame_drawn.

Lemma selected_row_is_highlighted_witness :
  let python := Sample.entry 1 "https://python.org" "docs" in
  let example := Sample.entry 2 "https://example.com" "misc" in
  exists before after,
    @draw_rows Sample.bare [python; example] 1 [] Sample.fresh
    = (Ret tt,
       printing Sample.fresh
         (before
          ++ colored (u "║" ++ @bookmark_line Sample.bare example ++ u " ║")
                     Colors.WHITE BG_BLUE
          :: after))
    /\ (List.length before + List.length after = 11)%nat
    /\ Forall (fun row => highlighted row = false) (before ++ after).
Proof.
  intros python example.
  apply (@selected_row_is_highlighted Sample.bare [python; example] 1 [] Sample.fresh
           example); [lia|reflexivity].
Defined.
